(** * Fireflies meeting assistant: the transcript-analysis pipeline

  A shallow embedding of [streamlit_app.py]: the transcript formatter, the
  two completion requests and the handling of their replies, the HTML report,
  the mail submission and the page script with its session state.  The
  services the script talks to (transcription provider, completion service,
  JSON decoder, MIME serialisation, mail relay, local time zone, iteration
  order of a set of strings) are the fields of a [world]; the script's own
  code is translated function by function and runs in a small state, log and
  exception monad. *)

From Stdlib Require Import ZArith List String Ascii Bool Lia QArith.
Import ListNotations.
Local Open Scope string_scope.
Local Open Scope Z_scope.

(** ** Python strings *)

Module PyStr.

Definition nl : string := String "010"%char EmptyString.
Definition dq : string := String "034"%char EmptyString.
Definition sq : string := String "039"%char EmptyString.

(** [sep.join(parts)] *)
Fixpoint join (sep : string) (parts : list string) : string :=
  match parts with
  | [] => EmptyString
  | [p] => p
  | p :: rest => p ++ sep ++ join sep rest
  end.

(** [''.join(parts)], the effect of a run of [s += part]. *)
Fixpoint concat_all (parts : list string) : string :=
  match parts with
  | [] => EmptyString
  | p :: rest => p ++ concat_all rest
  end.

(** The text of a block given line by line. *)
Definition unlines (ls : list string) : string := join nl ls.

(** [needle in hay] as a proposition: [needle] occurs verbatim in [hay]. *)
Definition contains (needle hay : string) : Prop :=
  exists before after, hay = before ++ needle ++ after.

Fixpoint map_chars (f : ascii -> ascii) (s : string) : string :=
  match s with
  | EmptyString => EmptyString
  | String c r => String (f c) (map_chars f r)
  end.

(** [s.replace(a, b)] for one-character [a] and [b]. *)
Definition replace_char (a b : ascii) (s : string) : string :=
  map_chars (fun c => if Ascii.eqb c a then b else c) s.

Definition is_upper (c : ascii) : bool :=
  let n := nat_of_ascii c in (65 <=? n)%nat && (n <=? 90)%nat.
Definition is_lower (c : ascii) : bool :=
  let n := nat_of_ascii c in (97 <=? n)%nat && (n <=? 122)%nat.
Definition is_cased (c : ascii) : bool := is_upper c || is_lower c.
Definition upper (c : ascii) : ascii :=
  if is_lower c then ascii_of_nat (nat_of_ascii c - 32) else c.
Definition lower (c : ascii) : ascii :=
  if is_upper c then ascii_of_nat (nat_of_ascii c + 32) else c.

(** [s.title()] on ASCII text: a cased character is upper-cased after an
    uncased one (or at the start) and lower-cased after a cased one. *)
Fixpoint title_from (previous_is_cased : bool) (s : string) : string :=
  match s with
  | EmptyString => EmptyString
  | String c r =>
      String (if previous_is_cased then lower c else upper c)
             (title_from (is_cased c) r)
  end.
Definition title (s : string) : string := title_from false s.

(** Truth value of a string: non-empty. *)
Definition truthy (s : string) : bool :=
  match s with EmptyString => false | _ => true end.

Definition digit (n : Z) : ascii := ascii_of_nat (48 + Z.to_nat n).

(** Decimal digits of a non-negative number, most significant first. *)
Fixpoint digits_fuel (fuel : nat) (n : Z) (acc : string) : string :=
  match fuel with
  | O => acc
  | S fuel' =>
      let acc' := String (digit (n mod 10)) acc in
      if n / 10 =? 0 then acc' else digits_fuel fuel' (n / 10) acc'
  end.
Definition digits (n : Z) : string :=
  digits_fuel (S (Z.to_nat (Z.log2 n))) n EmptyString.

(** [str(n)] for an integer. *)
Definition of_Z (n : Z) : string :=
  if n <? 0 then "-" ++ digits (- n) else digits n.

Fixpoint zeros (k : nat) : string :=
  match k with O => EmptyString | S k' => String "0"%char (zeros k') end.

(** A non-negative number on at least [width] digits, as [%02d] does. *)
Definition zero_padded (width : nat) (n : Z) : string :=
  let d := digits n in zeros (width - String.length d) ++ d.

(** Splitting at every newline, the inverse of [unlines] on lines that
    hold none. *)
Fixpoint split_lines_from (cur : string -> string) (s : string) : list string :=
  match s with
  | EmptyString => [cur EmptyString]
  | String c r =>
      if Ascii.eqb c "010"%char
      then cur EmptyString :: split_lines_from (fun x => x) r
      else split_lines_from (fun x => cur (String c x)) r
  end.
Definition split_lines (s : string) : list string :=
  split_lines_from (fun x => x) s.

Fixpoint has_char (a : ascii) (s : string) : bool :=
  match s with
  | EmptyString => false
  | String c r => Ascii.eqb c a || has_char a r
  end.

Definition hex_digit (n : nat) : ascii :=
  if (n <? 10)%nat then ascii_of_nat (48 + n) else ascii_of_nat (87 + n).

(** One character inside [repr(s)]: the quote in use and the backslash are
    escaped, tab, newline and return have their letter, the other control
    characters of ASCII their code; every other character stands for
    itself (text outside ASCII is taken as printable). *)
Definition repr_char (quote c : ascii) : string :=
  let n := nat_of_ascii c in
  let backslash := String "092"%char EmptyString in
  if Ascii.eqb c quote || Ascii.eqb c "092"%char then backslash ++ String c EmptyString
  else if (n =? 9)%nat then backslash ++ "t"
  else if (n =? 10)%nat then backslash ++ "n"
  else if (n =? 13)%nat then backslash ++ "r"
  else if (n <? 32)%nat || (n =? 127)%nat then
    backslash ++ "x" ++ String (hex_digit (n / 16)) (String (hex_digit (n mod 16)) EmptyString)
  else String c EmptyString.

Fixpoint repr_chars (quote : ascii) (s : string) : string :=
  match s with
  | EmptyString => EmptyString
  | String c r => repr_char quote c ++ repr_chars quote r
  end.

(** [repr(s)]: between apostrophes, or between double quotes when the text
    holds an apostrophe and no double quote. *)
Definition repr (s : string) : string :=
  let quote :=
    if has_char "039"%char s && negb (has_char "034"%char s) then "034"%char
    else "039"%char in
  String quote (repr_chars quote s ++ String quote EmptyString).

Fixpoint all_ascii (s : string) : bool :=
  match s with
  | EmptyString => true
  | String c r => (nat_of_ascii c <? 128)%nat && all_ascii r
  end.

(** A character that [repr] leaves as it is whatever the quote. *)
Definition is_plain (c : ascii) : bool :=
  let n := nat_of_ascii c in
  (32 <=? n)%nat && negb (n =? 127)%nat
  && negb (n =? 39)%nat && negb (n =? 34)%nat && negb (n =? 92)%nat.

Fixpoint all_plain (s : string) : bool :=
  match s with
  | EmptyString => true
  | String c r => is_plain c && all_plain r
  end.

End PyStr.
Import PyStr.

(** ** The fixed texts of the script

    Each block is the text of the source between two interpolation points,
    line by line. *)

Module Templates.

(** The GraphQL query of [fetch_transcripts]. *)
Definition query : string :=
  unlines
  [ EmptyString;
   "    query Transcripts($limit: Int) {";
   "        transcripts(limit: $limit) {";
   "            id";
   "            title";
   "            date";
   "            sentences {";
   "                text";
   "                speaker_name";
   "            }";
   "        }";
   "    }";
   "    " ].

(** The user message of [gpt4o_json_prompt] between the category prompt and the transcript. *)
Definition analysis_instructions : string :=
  unlines
  [ EmptyString;
   EmptyString;
   "                    Provide the summary in the following JSON structure:";
   "                    {";
   "                        " ++ dq ++ "summary" ++ dq ++ ": " ++ dq ++ "A concise summary of the requested information" ++ dq ++ ",";
   "                        " ++ dq ++ "key_points" ++ dq ++ ": [" ++ dq ++ "point1" ++ dq ++ ", " ++ dq ++ "point2" ++ dq ++ ", " ++ dq ++ "point3" ++ dq ++ "],";
   "                        " ++ dq ++ "details" ++ dq ++ ": [";
   "                            {";
   "                                " ++ dq ++ "topic" ++ dq ++ ": " ++ dq ++ "Specific topic or item" ++ dq ++ ",";
   "                                " ++ dq ++ "description" ++ dq ++ ": " ++ dq ++ "Detailed description" ++ dq ++ ",";
   "                                " ++ dq ++ "relevance" ++ dq ++ ": " ++ dq ++ "Why this is important for the accountant" ++ dq;
   "                            },";
   "                            ...";
   "                        ],";
   "                        " ++ dq ++ "follow_up_suggestions" ++ dq ++ ": [" ++ dq ++ "suggestion1" ++ dq ++ ", " ++ dq ++ "suggestion2" ++ dq ++ "]";
   "                    }";
   EmptyString;
   "                    Transcript:";
   "                    " ].

(** The end of both user messages, after the transcript. *)
Definition output_only_json : string :=
  unlines
  [ EmptyString;
   EmptyString;
   "                    [Output only JSON]" ].

(** The user message of [generate_follow_up_email] before the transcript. *)
Definition email_instructions : string :=
  unlines
  [ "Based on the following meeting transcript, create a follow-up email to the client. The email should:";
   EmptyString;
   "                    1. Briefly summarize the key points discussed in the meeting";
   "                    2. Confirm any responsibilities or action items for the client";
   "                    3. Mention any deadlines discussed or set reasonable deadlines if none were specified";
   "                    4. Sound authentic and professional, as if written by the accountant who organized the meeting";
   "                    5. End with a polite closing and offer for further assistance";
   EmptyString;
   "                    Format the email with appropriate HTML tags, including <p> for paragraphs, <br> for line breaks, and any other relevant HTML formatting.";
   EmptyString;
   "                    Provide the email content in the following JSON structure:";
   "                    {";
   "                        " ++ dq ++ "subject" ++ dq ++ ": " ++ dq ++ "Meeting Follow-up: [Brief Description]" ++ dq ++ ",";
   "                        " ++ dq ++ "body" ++ dq ++ ": " ++ dq ++ "HTML formatted email content" ++ dq;
   "                    }";
   EmptyString;
   "                    Transcript:";
   "                    " ].

(** The report up to the heading text (style sheet included). *)
Definition html_head : string :=
  unlines
  [ EmptyString;
   "    <html>";
   "    <head>";
   "        <style>";
   "            body {";
   "                font-family: Arial, sans-serif;";
   "                line-height: 1.6;";
   "                color: #333;";
   "                max-width: 800px;";
   "                margin: 0 auto;";
   "                padding: 20px;";
   "            }";
   "            .header {";
   "                background-color: #007bff;";
   "                color: white;";
   "                padding: 20px;";
   "                text-align: center;";
   "            }";
   "            h1, h2 {";
   "                margin: 0;";
   "            }";
   "            h2 {";
   "                color: #007bff;";
   "                border-bottom: 2px solid #007bff;";
   "                padding-bottom: 10px;";
   "            }";
   "            .section {";
   "                margin-bottom: 30px;";
   "            }";
   "            ul {";
   "                padding-left: 20px;";
   "            }";
   "            .detail {";
   "                background-color: #f8f9fa;";
   "                border-left: 4px solid #007bff;";
   "                padding: 15px;";
   "                margin-bottom: 20px;";
   "            }";
   "            .footer {";
   "                text-align: center;";
   "                margin-top: 40px;";
   "                font-size: 0.9em;";
   "                color: #666;";
   "            }";
   "            .follow-up {";
   "                margin-top: 40px;";
   "                border-top: 2px solid #007bff;";
   "                padding-top: 20px;";
   "            }";
   "        </style>";
   "    </head>";
   "    <body>";
   "        <div class=" ++ dq ++ "header" ++ dq ++ ">";
   "            <h1>" ].

(** From the heading text to the summary. *)
Definition html_after_heading : string :=
  unlines
  [ " Analysis</h1>";
   "        </div>";
   EmptyString;
   "        <div class=" ++ dq ++ "section" ++ dq ++ ">";
   "            <h2>Summary</h2>";
   "            <p>" ].

(** From the summary to the key points. *)
Definition html_after_summary : string :=
  unlines
  [ "</p>";
   "        </div>";
   EmptyString;
   "        <div class=" ++ dq ++ "section" ++ dq ++ ">";
   "            <h2>Key Points</h2>";
   "            <ul>";
   "    " ].

(** From the key points to the details. *)
Definition html_after_key_points : string :=
  unlines
  [ EmptyString;
   "            </ul>";
   "        </div>";
   EmptyString;
   "        <div class=" ++ dq ++ "section" ++ dq ++ ">";
   "            <h2>Details</h2>";
   "    " ].

(** A piece of the block of one detail. *)
Definition detail_open : string :=
  unlines
  [ EmptyString;
   "            <div class=" ++ dq ++ "detail" ++ dq ++ ">";
   "                <h3>" ].

(** A piece of the block of one detail. *)
Definition detail_after_topic : string :=
  unlines
  [ "</h3>";
   "                <p><strong>Description:</strong> " ].

(** A piece of the block of one detail. *)
Definition detail_after_description : string :=
  unlines
  [ "</p>";
   "                <p><strong>Relevance:</strong> " ].

(** A piece of the block of one detail. *)
Definition detail_close : string :=
  unlines
  [ "</p>";
   "            </div>";
   "        " ].

(** From the details to the follow-up suggestions. *)
Definition html_after_details : string :=
  unlines
  [ EmptyString;
   "        </div>";
   EmptyString;
   "        <div class=" ++ dq ++ "section" ++ dq ++ ">";
   "            <h2>Follow-up Suggestions</h2>";
   "            <ul>";
   "    " ].

(** From the suggestions to the follow-up email. *)
Definition html_after_suggestions : string :=
  unlines
  [ EmptyString;
   "            </ul>";
   "        </div>";
   EmptyString;
   "        <div class=" ++ dq ++ "follow-up" ++ dq ++ ">";
   "            <h2>Follow-up Email</h2>";
   "            " ].

(** The end of the report. *)
Definition html_tail : string :=
  unlines
  [ EmptyString;
   "        </div>";
   EmptyString;
   "        <div class=" ++ dq ++ "footer" ++ dq ++ ">";
   "            <p>This analysis was generated automatically. Please review for accuracy.</p>";
   "        </div>";
   "    </body>";
   "    </html>";
   "    " ].

Definition prompt_financial : string :=
  "Analyze this meeting transcript and provide a JSON summary focusing on financial discussions, key figures, and monetary decisions. Include any mentioned budgets, costs, revenues, or financial projections.".

Definition prompt_action_items : string :=
  "Analyze this meeting transcript and provide a JSON summary of all action items, tasks, and deadlines discussed. Include who is responsible for each item and any mentioned due dates.".

Definition prompt_risk_assessment : string :=
  "Analyze this meeting transcript and provide a JSON summary of any discussed risks, potential issues, or areas of concern. Include any mitigation strategies or risk assessments mentioned.".

Definition prompt_tax_info : string :=
  "Analyze this meeting transcript and provide a JSON summary of all tax-related information discussed. Include any mentions of tax planning, changes in tax laws, or specific tax concerns of the client.".

Definition prompt_client_concerns : string :=
  "Analyze this meeting transcript and provide a JSON summary of all client questions, concerns, or areas where the client expressed confusion or needed clarification.".

Definition prompt_compliance : string :=
  "Analyze this meeting transcript and provide a JSON summary of all compliance and regulatory matters discussed. Include any mentions of legal requirements, industry standards, or regulatory changes.".

Definition analysis_system : string :=
  "You are an AI assistant specialized in analyzing meeting transcripts for accounting professionals. You must only reply with JSON. [no prose]".

Definition email_system : string :=
  "You are an AI assistant helping an accountant draft a follow-up email after a client meeting. The email should sound authentic, professional, and as if it's coming directly from the accountant who organized the meeting. You must only reply with JSON containing the email content.".

End Templates.

(** ** Exceptions and results *)

(** The exceptions the script can meet, all subclasses of [Exception].
    [Exception msg] is the one [fetch_transcripts] raises itself and stands
    for any error of a client library as well. *)
Inductive exn : Type :=
| KeyError (key : string)
| TypeError (msg : string)
| NameError (name : string)
| ValueError (msg : string)
| StopIteration
| JSONDecodeError (msg : string)
| Exception (msg : string).

(** [str(e)], what [f"{e}"] prints; for a [KeyError] it is the [repr] of
    the key. *)
Definition exn_str (e : exn) : string :=
  match e with
  | KeyError key => repr key
  | TypeError msg => msg
  | NameError name => "name " ++ sq ++ name ++ sq ++ " is not defined"
  | ValueError msg => msg
  | StopIteration => EmptyString
  | JSONDecodeError msg => msg
  | Exception msg => msg
  end.

Definition is_JSONDecodeError (e : exn) : bool :=
  match e with JSONDecodeError _ => true | _ => false end.

(** The result of evaluating a Python expression: a value or a raised
    exception. *)
Inductive py (A : Type) : Type :=
| Ok (a : A)
| Raise (e : exn).
Arguments Ok {A} a.
Arguments Raise {A} e.

Definition py_bind {A B : Type} (x : py A) (f : A -> py B) : py B :=
  match x with
  | Ok a => f a
  | Raise e => Raise e
  end.

Fixpoint py_map_list {A B : Type} (f : A -> py B) (l : list A) : py (list B) :=
  match l with
  | [] => Ok []
  | a :: rest =>
      py_bind (f a) (fun b => py_bind (py_map_list f rest) (fun bs => Ok (b :: bs)))
  end.

Fixpoint assoc {A : Type} (k : string) (kvs : list (string * A)) : option A :=
  match kvs with
  | [] => None
  | (k', v) :: rest => if String.eqb k k' then Some v else assoc k rest
  end.

(** ** Values decoded from JSON *)

#[local] Set Warnings "-register-all".

(** What [json.loads] returns: [None], [bool], [int], [str], [list] and
    [dict] (keys in insertion order, each once).  Numbers are the integers. *)
Inductive json : Type :=
| JNull
| JBool (b : bool)
| JNum (n : Z)
| JStr (s : string)
| JArr (items : list json)
| JObj (fields : list (string * json)).

Module Py.

(** [bool(v)] *)
Definition truthy (v : json) : bool :=
  match v with
  | JNull => false
  | JBool b => b
  | JNum n => negb (n =? 0)
  | JStr s => PyStr.truthy s
  | JArr items => match items with [] => false | _ => true end
  | JObj fields => match fields with [] => false | _ => true end
  end.

Definition type_name (v : json) : string :=
  match v with
  | JNull => "NoneType"
  | JBool _ => "bool"
  | JNum _ => "int"
  | JStr _ => "str"
  | JArr _ => "list"
  | JObj _ => "dict"
  end.

(** [v[key]] for a string [key]. *)
Definition getitem (v : json) (key : string) : py json :=
  match v with
  | JObj fields =>
      match assoc key fields with
      | Some x => Ok x
      | None => Raise (KeyError key)
      end
  | JStr _ => Raise (TypeError ("string indices must be integers, not " ++ sq ++ "str" ++ sq))
  | JArr _ => Raise (TypeError "list indices must be integers or slices, not str")
  | _ => Raise (TypeError (sq ++ type_name v ++ sq ++ " object is not subscriptable"))
  end.

Fixpoint chars (s : string) : list json :=
  match s with
  | EmptyString => []
  | String c r => JStr (String c EmptyString) :: chars r
  end.

(** The items [for x in v] runs over. *)
Definition iter (v : json) : py (list json) :=
  match v with
  | JArr items => Ok items
  | JStr s => Ok (chars s)
  | JObj fields => Ok (map (fun kv => JStr (fst kv)) fields)
  | _ => Raise (TypeError (sq ++ type_name v ++ sq ++ " object is not iterable"))
  end.

(** [str(v)], what [f"{v}"] prints; [container_repr] is the text of a list
    or a dict. *)
Definition str (container_repr : json -> string) (v : json) : string :=
  match v with
  | JNull => "None"
  | JBool true => "True"
  | JBool false => "False"
  | JNum n => of_Z n
  | JStr s => s
  | _ => container_repr v
  end.

End Py.

(** ** The data model *)

Record sentence : Type := { text : string; speaker_name : string }.

Record transcript : Type :=
  { id : string; title : string; date : Z; sentences : list sentence }.

Record DetailItem : Type :=
  { topic : string; description : string; relevance : string }.

Record AnalysisResult : Type :=
  { summary : string;
    key_points : list string;
    details : list DetailItem;
    follow_up_suggestions : list string }.

Record FollowUpEmail : Type := { subject : string; body : string }.

(** The decoded reply that has the shape of a record. *)
Definition json_of_detail (d : DetailItem) : json :=
  JObj [("topic", JStr (topic d)); ("description", JStr (description d));
        ("relevance", JStr (relevance d))].

Definition json_of_analysis (a : AnalysisResult) : json :=
  JObj [("summary", JStr (summary a));
        ("key_points", JArr (map JStr (key_points a)));
        ("details", JArr (map json_of_detail (details a)));
        ("follow_up_suggestions", JArr (map JStr (follow_up_suggestions a)))].

Definition json_of_email (m : FollowUpEmail) : json :=
  JObj [("subject", JStr (subject m)); ("body", JStr (body m))].

(** The four required fields of an analysis. *)
Definition required_fields : list string :=
  ["summary"; "key_points"; "details"; "follow_up_suggestions"].

Definition has_field (v : json) (key : string) : bool :=
  match v with
  | JObj fields => match assoc key fields with Some _ => true | None => false end
  | _ => false
  end.

(** The six categories, named as the keys of [prompts]. *)
Inductive Category : Type :=
| financial | action_items | risk_assessment | tax_info | client_concerns | compliance.

Definition category_key (c : Category) : string :=
  match c with
  | financial => "financial"
  | action_items => "action_items"
  | risk_assessment => "risk_assessment"
  | tax_info => "tax_info"
  | client_concerns => "client_concerns"
  | compliance => "compliance"
  end.

Definition categories : list Category :=
  [financial; action_items; risk_assessment; tax_info; client_concerns; compliance].

(** ** Local dates *)

Module Datetime.

(** The civil date of a day counted from 1970-01-01 (proleptic Gregorian
    calendar); [/] and [mod] round down. *)
Definition civil_from_days (days : Z) : Z * Z * Z :=
  let z := days + 719468 in
  let era := z / 146097 in
  let doe := z - era * 146097 in
  let yoe := (doe - doe / 1460 + doe / 36524 - doe / 146096) / 365 in
  let doy := doe - (365 * yoe + yoe / 4 - yoe / 100) in
  let mp := (5 * doy + 2) / 153 in
  let d := doy - (153 * mp + 2) / 5 + 1 in
  let m := if mp <? 10 then mp + 3 else mp - 9 in
  let y := yoe + era * 400 + (if m <=? 2 then 1 else 0) in
  (y, m, d).

(** The day on which the instant [ms] milliseconds after the epoch falls
    on a clock [offset] seconds east of UTC. *)
Definition day_number (offset ms : Z) : Z := (ms + 1000 * offset) / 86400000.

(** The local date of an instant, on a clock that is [utcoffset ms] seconds
    east of UTC at the instant [ms]. *)
Definition local_date (utcoffset : Z -> Z) (ms : Z) : Z * Z * Z :=
  civil_from_days (day_number (utcoffset ms) ms).

(** The years a [datetime] can hold. *)
Definition year_in_range (ymd : Z * Z * Z) : bool :=
  let '(y, _, _) := ymd in (1 <=? y) && (y <=? 9999).

Definition year_out_of_range (ymd : Z * Z * Z) : exn :=
  let '(y, _, _) := ymd in ValueError ("year " ++ of_Z y ++ " is out of range").

(** [datetime.datetime.fromtimestamp(ms / 1000)] up to the day.  The local
    time of the instant is made a [datetime], then the local time a day
    earlier, which the library probes for a repeated hour, and, when the
    clock was set back in between by [-trans] seconds, the local time that
    much earlier: each must have its year within 1..9999.  The source
    divides in floating point; for a whole number of milliseconds the day is
    the one counted here on integers.  (Millions of years away from the
    epoch the C library gives up before the year is looked at, with an
    [OSError] or an [OverflowError] in place of this [ValueError]: in the
    model as in the source, no date comes out.) *)
Definition fromtimestamp (utcoffset : Z -> Z) (ms : Z) : py (Z * Z * Z) :=
  let result := local_date utcoffset ms in
  if negb (year_in_range result) then Raise (year_out_of_range result)
  else
    let max_fold := 86400000 in
    let probe1 := local_date utcoffset (ms - max_fold) in
    if negb (year_in_range probe1) then Raise (year_out_of_range probe1)
    else
      let trans := utcoffset ms - utcoffset (ms - max_fold) in
      if trans <? 0 then
        let probe2 := local_date utcoffset (ms + 1000 * trans) in
        if negb (year_in_range probe2) then Raise (year_out_of_range probe2)
        else Ok result
      else Ok result.

(** [.strftime('%Y-%m-%d')]: the year as the C library prints it, without
    padding, month and day on two digits. *)
Definition strftime_Ymd (ymd : Z * Z * Z) : string :=
  let '(y, m, d) := ymd in
  of_Z y ++ "-" ++ zero_padded 2 m ++ "-" ++ zero_padded 2 d.

End Datetime.

(** ** The services around the script *)

Record message : Type := { role : string; content : string }.

(** The arguments of [client.chat.completions.create]. *)
Record completion_request : Type :=
  { model : string;
    messages : list message;
    temperature : Q;
    max_tokens : Z;
    response_format : list (string * string);
    logit_bias : list (Z * Z) }.

(** The body of a provider response as the script reads it: a JSON value
    that is an object with named fields (each name once), or is not ([why]
    is the message of the [TypeError] a subscript then raises). *)
Inductive envelope (A : Type) : Type :=
| NotAnObject (why : string)
| Object (fields : list (string * A)).
Arguments NotAnObject {A} why.
Arguments Object {A} fields.

(** [body[key]] *)
Definition getitem_envelope {A : Type} (body : envelope A) (key : string) : py A :=
  match body with
  | Object fields =>
      match assoc key fields with
      | Some x => Ok x
      | None => Raise (KeyError key)
      end
  | NotAnObject why => Raise (TypeError why)
  end.

(** A JSON value that is no list. *)
Inductive non_list : Type :=
| NullValue
| BoolValue (b : bool)
| NumValue (n : Z)
| StrValue (s : string)
| ObjValue (fields : list (string * json)).

Definition json_of_non_list (v : non_list) : json :=
  match v with
  | NullValue => JNull
  | BoolValue b => JBool b
  | NumValue n => JNum n
  | StrValue s => JStr s
  | ObjValue fields => JObj fields
  end.

(** What the provider puts under [data.transcripts] and what
    [st.session_state.transcripts] holds: a list of transcripts, taken at
    the type of the data model, or a value that is no list, such as [null].
    The script never checks which. *)
Inductive listing : Type :=
| Listed (ts : list transcript)
| Unlisted (v : non_list).

(** The transcripts of a listing that is a list; a value that is no list
    has none. *)
Definition listed (l : listing) : list transcript :=
  match l with
  | Listed ts => ts
  | Unlisted _ => []
  end.

(** [bool(l)] *)
Definition listing_truthy (l : listing) : bool :=
  match l with
  | Listed ts => match ts with [] => false | _ => true end
  | Unlisted v => Py.truthy (json_of_non_list v)
  end.

(** [[t['id'] for t in v]] on a value that is no list: it cannot be iterated,
    or its items are characters or keys, which take no string index. *)
Definition ids_of_non_list (v : non_list) : py (list json) :=
  py_bind (Py.iter (json_of_non_list v))
          (py_map_list (fun t => Py.getitem t "id")).

(** [response.status_code] and [response.json()]. *)
Record response : Type :=
  { status_code : Z;
    response_json : py (envelope (envelope listing)) }.

(** The message of [send_email]: a [MIMEMultipart('alternative')] with three
    headers and one HTML part. *)
Record mime_message : Type :=
  { msg_Subject : string; msg_From : string; msg_To : string;
    html_part : string }.

Record world : Type :=
  { (* st.secrets *)
    GMAIL_PASSWORD : string;
    GMAIL_USER : string;
    OPENAI_API_KEY : string;
    (* requests.post(url, json={'query': .., 'variables': {'limit': ..}}, headers=..) *)
    requests_post : string -> string -> Z -> list (string * string) -> py response;
    (* client.chat.completions.create(..) followed by .choices[0].message.content *)
    chat_completions_create : completion_request -> py string;
    json_loads : string -> py json;
    (* msg.as_string(): the text of the message, or the error of the serialisation *)
    as_string : mime_message -> py string;
    (* smtplib.SMTP_SSL(host, port), .login, .sendmail(from, to, text) and the
       closing of the session *)
    smtp_ssl : string -> Z -> option exn;
    smtp_login : string -> string -> option exn;
    smtp_sendmail : string -> string -> string -> option exn;
    smtp_quit : option exn;
    (* seconds east of UTC of the local clock at an instant given in milliseconds *)
    utcoffset : Z -> Z;
    (* the order in which a set built from these insertions is iterated *)
    set_iter : list string -> list string;
    (* str() of a list or a dict *)
    container_repr : json -> string }.

(** The iteration of a set enumerates each distinct inserted string once. *)
Definition set_iter_ok (w : world) (inserted : list string) : Prop :=
  NoDup (set_iter w inserted)
  /\ forall name, In name (set_iter w inserted) <-> In name inserted.

(** ** The page: widgets, session state, what the script displays *)

(** What the widgets return in one run of the script. *)
Record ui_inputs : Type :=
  { fireflies_api_key : string;
    email : string;
    auto_email : bool;
    refresh_button : bool;
    (* st.selectbox('Select Transcript', options=..): the option returned *)
    selectbox : list string -> string;
    (* the six st.button of analyze_buttons, by key *)
    analyze_buttons : Category -> bool }.

Record session_state : Type :=
  { transcripts : listing;
    selected_transcript_id : option string }.

(** Lines 295-298: the state of a new session. *)
Definition new_session : session_state :=
  {| transcripts := Listed []; selected_transcript_id := None |}.

(** What a run of the script shows and sends, in order. *)
Inductive event : Type :=
| St_title (s : string)
| St_spinner (s : string)
| St_error (s : string)
| St_success (s : string)
| St_write (s : string)
| St_markdown (v : json)
| St_text_area (label value : string)
| St_selectbox (label : string) (options labels : list string)
| Http_post (url query : string) (limit : Z) (headers : list (string * string))
| Chat_completion (request : completion_request)
| Smtp_ssl (host : string) (port : Z)
| Smtp_login (user password : string)
| Smtp_sendmail (from_addr to_addr : string) (msg : mime_message) (text : string).

Record outcome (A : Type) : Type :=
  { final : session_state; shown : list event; result : py A }.
Arguments final {A} o.
Arguments shown {A} o.
Arguments result {A} o.

(** A piece of the script: from the session state to the state it leaves,
    the events in order and its value or the exception it raises. *)
Definition M (A : Type) : Type := session_state -> outcome A.

Definition ret {A : Type} (a : A) : M A :=
  fun s => {| final := s; shown := []; result := Ok a |}.

Definition bind {A B : Type} (m : M A) (f : A -> M B) : M B :=
  fun s =>
    let o := m s in
    match result o with
    | Ok a =>
        let o' := f a (final o) in
        {| final := final o'; shown := (shown o ++ shown o')%list; result := result o' |}
    | Raise e => {| final := final o; shown := shown o; result := Raise e |}
    end.

Definition raise {A : Type} (e : exn) : M A :=
  fun s => {| final := s; shown := []; result := Raise e |}.

Definition lift {A : Type} (x : py A) : M A :=
  fun s => {| final := s; shown := []; result := x |}.

Definition emit (ev : event) : M unit :=
  fun s => {| final := s; shown := [ev]; result := Ok tt |}.

Definition get_state : M session_state :=
  fun s => {| final := s; shown := []; result := Ok s |}.

Definition put_state (s' : session_state) : M unit :=
  fun _ => {| final := s'; shown := []; result := Ok tt |}.

(** [try: m  except <class> as e: handler e], for the exceptions [caught]
    selects. *)
Definition try_except {A : Type} (m : M A) (caught : exn -> bool)
    (handler : exn -> M A) : M A :=
  fun s =>
    let o := m s in
    match result o with
    | Ok a => o
    | Raise e =>
        if caught e then
          let o' := handler e (final o) in
          {| final := final o'; shown := (shown o ++ shown o')%list; result := result o' |}
        else o
    end.

Definition any_Exception (e : exn) : bool := true.

Declare Scope script_scope.
Delimit Scope script_scope with script.
Notation "x <- m ;; k" := (bind m (fun x => k))
  (at level 100, m at next level, right associativity) : script_scope.
Notation "m ;; k" := (bind m (fun _ => k))
  (at level 100, right associativity) : script_scope.
Local Open Scope script_scope.

(** [for x in items: body x] *)
Fixpoint for_each {A : Type} (items : list A) (body : A -> M unit) : M unit :=
  match items with
  | [] => ret tt
  | x :: rest => body x ;; for_each rest body
  end.

Definition when (b : bool) (m : M unit) : M unit := if b then m else ret tt.

Declare Scope py_scope.
Delimit Scope py_scope with py.
Notation "x <- m ;; k" := (py_bind m (fun x => k))
  (at level 100, m at next level, right associativity) : py_scope.

(** ** The script *)

Section Script.

Variable w : world.

Definition str (v : json) : string := Py.str (container_repr w) v.

(** [analysis_type.replace('_', ' ').title()] *)
Definition label (analysis_type : string) : string :=
  PyStr.title (replace_char "_" " " analysis_type).

(** The module-level [client]: bound only when the API key is set. *)
Definition client : py unit :=
  if PyStr.truthy (OPENAI_API_KEY w) then Ok tt else Raise (NameError "client").

Definition fetch_transcripts (api_key : string) : M listing :=
  let url := "https://api.fireflies.ai/graphql" in
  let headers :=
    [("Content-Type", "application/json"); ("Authorization", "Bearer " ++ api_key)] in
  let limit := 10 in
  emit (Http_post url Templates.query limit headers) ;;
  response <- lift (requests_post w url Templates.query limit headers) ;;
  if negb (status_code response =? 200) then
    raise (Exception ("API request failed with status code "
                      ++ of_Z (status_code response)))
  else
    body <- lift (response_json response) ;;
    data <- lift (getitem_envelope body "data") ;;
    lift (getitem_envelope data "transcripts").

Definition get_transcript_content (t : transcript) : string :=
  join nl (map (fun s => speaker_name s ++ ": " ++ text s) (sentences t)).

Definition prompts : list (string * string) :=
  [("financial", Templates.prompt_financial);
   ("action_items", Templates.prompt_action_items);
   ("risk_assessment", Templates.prompt_risk_assessment);
   ("tax_info", Templates.prompt_tax_info);
   ("client_concerns", Templates.prompt_client_concerns);
   ("compliance", Templates.prompt_compliance)].

(** [prompts[prompt_type]] *)
Definition prompts_getitem (prompt_type : string) : py string :=
  match assoc prompt_type prompts with
  | Some p => Ok p
  | None => Raise (KeyError prompt_type)
  end.

(** The request of [gpt4o_json_prompt], given the category prompt. *)
Definition analysis_request (prompt transcript_content : string) : completion_request :=
  {| model := "gpt-4o";
     messages :=
       [ {| role := "system"; content := Templates.analysis_system |};
         {| role := "user";
            content := prompt ++ Templates.analysis_instructions
                       ++ transcript_content ++ Templates.output_only_json |} ];
     temperature := (7 # 10)%Q;
     max_tokens := 3000;
     response_format := [("type", "json_object")];
     logit_bias := [(123, 100)] |}.

Definition gpt4o_json_prompt (transcript_content prompt_type : string) : M json :=
  try_except
    (emit (St_spinner "Analyzing transcript...") ;;
     lift client ;;
     prompt <- lift (prompts_getitem prompt_type) ;;
     let request := analysis_request prompt transcript_content in
     emit (Chat_completion request) ;;
     reply <- lift (chat_completions_create w request) ;;
     try_except
       (lift (json_loads w reply))
       is_JSONDecodeError
       (fun json_error =>
          emit (St_error ("Error decoding JSON: " ++ exn_str json_error)) ;;
          emit (St_error ("Raw response: " ++ reply)) ;;
          ret JNull))
    any_Exception
    (fun e =>
       emit (St_error ("An error occurred while analyzing the transcript: "
                       ++ exn_str e)) ;;
       ret JNull).

Definition follow_up_request (transcript_content : string) : completion_request :=
  {| model := "gpt-4o";
     messages :=
       [ {| role := "system"; content := Templates.email_system |};
         {| role := "user";
            content := Templates.email_instructions
                       ++ transcript_content ++ Templates.output_only_json |} ];
     temperature := (7 # 10)%Q;
     max_tokens := 2000;
     response_format := [("type", "json_object")];
     logit_bias := [(123, 100)] |}.

Definition generate_follow_up_email (transcript_content : string) : M json :=
  try_except
    (emit (St_spinner "Generating follow-up email...") ;;
     lift client ;;
     let request := follow_up_request transcript_content in
     emit (Chat_completion request) ;;
     reply <- lift (chat_completions_create w request) ;;
     try_except
       (lift (json_loads w reply))
       is_JSONDecodeError
       (fun json_error =>
          emit (St_error ("Error decoding JSON for follow-up email: "
                          ++ exn_str json_error)) ;;
          emit (St_error ("Raw response: " ++ reply)) ;;
          ret JNull))
    any_Exception
    (fun e =>
       emit (St_error ("An error occurred while generating the follow-up email: "
                       ++ exn_str e)) ;;
       ret JNull).

(** The block of one entry of [details]. *)
Definition detail_html (detail : json) : py string :=
  (topic <- Py.getitem detail "topic" ;;
   description <- Py.getitem detail "description" ;;
   relevance <- Py.getitem detail "relevance" ;;
   Ok (Templates.detail_open ++ str topic
       ++ Templates.detail_after_topic ++ str description
       ++ Templates.detail_after_description ++ str relevance
       ++ Templates.detail_close))%py.

Definition li (item : json) : string := "<li>" ++ str item ++ "</li>".

Definition format_analysis_to_html (analysis_type : string)
    (gpt4o_response follow_up_email : json) : py string :=
  (summary <- Py.getitem gpt4o_response "summary" ;;
   let html_content :=
     Templates.html_head ++ label analysis_type
     ++ Templates.html_after_heading ++ str summary
     ++ Templates.html_after_summary in
   key_points <- Py.getitem gpt4o_response "key_points" ;;
   points <- Py.iter key_points ;;
   let html_content := html_content ++ concat_all (map li points) in
   let html_content := html_content ++ Templates.html_after_key_points in
   details <- Py.getitem gpt4o_response "details" ;;
   details <- Py.iter details ;;
   blocks <- py_map_list detail_html details ;;
   let html_content := html_content ++ concat_all blocks in
   let html_content := html_content ++ Templates.html_after_details in
   suggestions <- Py.getitem gpt4o_response "follow_up_suggestions" ;;
   suggestions <- Py.iter suggestions ;;
   let html_content := html_content ++ concat_all (map li suggestions) in
   let html_content :=
     html_content ++ Templates.html_after_suggestions ++ str follow_up_email
     ++ Templates.html_tail in
   Ok html_content)%py.

Definition call (outcome : option exn) : M unit :=
  match outcome with
  | None => ret tt
  | Some e => raise e
  end.

(** [with smtplib.SMTP_SSL(..) as smtp_server: block]: the session is closed
    when the block ends, normally or not, and the closing can fail too. *)
Definition with_smtp_server (block : M unit) : M unit :=
  fun s =>
    let o := block s in
    match smtp_quit w with
    | None => o
    | Some e => {| final := final o; shown := shown o; result := Raise e |}
    end.

(** Lines 267-273 build the message from the three strings and the
    account; it is serialised after the login, when [sendmail] is called. *)
Definition send_email (recipient_email subject html_content : string) : M unit :=
  try_except
    (let msg :=
       {| msg_Subject := subject; msg_From := GMAIL_USER w;
          msg_To := recipient_email; html_part := html_content |} in
     emit (Smtp_ssl "smtp.gmail.com" 465) ;;
     call (smtp_ssl w "smtp.gmail.com" 465) ;;
     with_smtp_server
       (emit (Smtp_login (GMAIL_USER w) (GMAIL_PASSWORD w)) ;;
        call (smtp_login w (GMAIL_USER w) (GMAIL_PASSWORD w)) ;;
        text <- lift (as_string w msg) ;;
        emit (Smtp_sendmail (GMAIL_USER w) recipient_email msg text) ;;
        call (smtp_sendmail w (GMAIL_USER w) recipient_email text)) ;;
     emit (St_success "Email sent successfully!"))
    any_Exception
    (fun e => emit (St_error ("Error sending email: " ++ exn_str e))).

Variable ui : ui_inputs.

(** [next(t for t in transcripts if t['id'] == selected_transcript_id)]: the
    first transcript of the list with that identifier; on a value that is no
    list, the error of iterating it or of the first [t['id']], and
    [StopIteration] when it has no item. *)
Definition next_with_id (l : listing) (selected : string) : py transcript :=
  match l with
  | Listed ts =>
      match find (fun t => String.eqb (id t) selected) ts with
      | Some t => Ok t
      | None => Raise StopIteration
      end
  | Unlisted v => py_bind (ids_of_non_list v) (fun _ => Raise StopIteration)
  end.

(** The value of [st.session_state.selected_transcript_id] when it is true:
    neither [None] nor the empty string. *)
Definition selected_if_set (s : session_state) : option string :=
  match selected_transcript_id s with
  | Some selected => if PyStr.truthy selected then Some selected else None
  | None => None
  end.

(** Lines 368-375: the subject of the message. *)
Definition subject_line (prompt_type : string) (selected_transcript : transcript)
    : py string :=
  (let speakers := set_iter w (map speaker_name (sentences selected_transcript)) in
   let ms := date selected_transcript in
   local <- Datetime.fromtimestamp (utcoffset w) ms ;;
   let date := Datetime.strftime_Ymd local in
   Ok ("Meeting Analysis: " ++ label prompt_type ++ " - "
       ++ title selected_transcript ++ " - " ++ date ++ " - Speakers: "
       ++ join ", " speakers))%py.

(** Lines 347-362: the analysis and the draft on the page. *)
Definition show_analysis (prompt_type : string) (gpt4o_response follow_up_email : json)
    : M unit :=
  emit (St_write ("## " ++ label prompt_type ++ " Analysis")) ;;
  summary <- lift (Py.getitem gpt4o_response "summary") ;;
  emit (St_write ("### Summary" ++ nl ++ str summary)) ;;
  emit (St_write "### Key Points") ;;
  key_points <- lift (Py.getitem gpt4o_response "key_points") ;;
  points <- lift (Py.iter key_points) ;;
  for_each points (fun point => emit (St_write ("- " ++ str point))) ;;
  emit (St_write "### Details") ;;
  details <- lift (Py.getitem gpt4o_response "details") ;;
  details <- lift (Py.iter details) ;;
  for_each details (fun detail =>
    topic <- lift (Py.getitem detail "topic") ;;
    emit (St_write ("#### " ++ str topic)) ;;
    description <- lift (Py.getitem detail "description") ;;
    emit (St_write ("Description: " ++ str description)) ;;
    relevance <- lift (Py.getitem detail "relevance") ;;
    emit (St_write ("Relevance: " ++ str relevance)) ;;
    emit (St_write EmptyString)) ;;
  emit (St_write "### Follow-up Suggestions") ;;
  suggestions <- lift (Py.getitem gpt4o_response "follow_up_suggestions") ;;
  suggestions <- lift (Py.iter suggestions) ;;
  for_each suggestions (fun suggestion => emit (St_write ("- " ++ str suggestion))) ;;
  emit (St_write "### Follow-up Email") ;;
  body <- lift (Py.getitem follow_up_email "body") ;;
  emit (St_markdown body).

(** Lines 364-377: the report by mail. *)
Definition mail_analysis (prompt_type : string) (selected_transcript : transcript)
    (gpt4o_response follow_up_email : json) : M unit :=
  when (auto_email ui && PyStr.truthy (email ui))
    (emit (St_spinner "Sending email...") ;;
     body <- lift (Py.getitem follow_up_email "body") ;;
     html_content <- lift (format_analysis_to_html prompt_type gpt4o_response body) ;;
     subject <- lift (subject_line prompt_type selected_transcript) ;;
     send_email (email ui) subject html_content).

Definition handle_analysis (prompt_type : string) : M unit :=
  s <- get_state ;;
  match selected_if_set s with
  | Some selected =>
      selected_transcript <- lift (next_with_id (transcripts s) selected) ;;
      let transcript_content := get_transcript_content selected_transcript in
      emit (St_write ("Analyzing with GPT-4o: " ++ label prompt_type ++ "...")) ;;
      gpt4o_response <- gpt4o_json_prompt transcript_content prompt_type ;;
      follow_up_email <- generate_follow_up_email transcript_content ;;
      if Py.truthy gpt4o_response && Py.truthy follow_up_email then
        show_analysis prompt_type gpt4o_response follow_up_email ;;
        mail_analysis prompt_type selected_transcript gpt4o_response follow_up_email
      else
        emit (St_error "Failed to generate analysis or follow-up email. Please check the error messages above and try again.")
  | None => ret tt
  end.

(** Lines 17-20. *)
Definition check_api_key : M unit :=
  when (negb (PyStr.truthy (OPENAI_API_KEY w)))
    (emit (St_error "OpenAI API key is not set in the environment variables.")).

(** Lines 300-306. *)
Definition refresh_transcripts : M unit :=
  when (PyStr.truthy (fireflies_api_key ui) && refresh_button ui)
    (emit (St_spinner "Refreshing transcripts...") ;;
     try_except
       (fetched <- fetch_transcripts (fireflies_api_key ui) ;;
        s <- get_state ;;
        put_state {| transcripts := fetched;
                     selected_transcript_id := selected_transcript_id s |} ;;
        emit (St_success "Transcripts refreshed successfully."))
       any_Exception
       (fun e => emit (St_error ("Error refreshing transcripts: " ++ exn_str e)))).

(** [transcript_options.index(x)] for an [x] that is in the list. *)
Fixpoint index_of (x : string) (options : list string) : nat :=
  match options with
  | [] => O
  | o :: rest => if String.eqb o x then O else S (index_of x rest)
  end.

(** The [format_func] of the selector. *)
Definition format_func (transcript_options transcript_titles : list string)
    (x : string) : string :=
  if existsb (String.eqb x) transcript_options
  then nth (index_of x transcript_options) transcript_titles EmptyString
  else EmptyString.

(** Lines 308-319. *)
Definition select_transcript : M unit :=
  s <- get_state ;;
  match transcripts s with
  | Listed [] => ret tt
  | Listed ts =>
      let transcript_options := map id ts in
      let transcript_titles := map title ts in
      emit (St_selectbox "Select Transcript" transcript_options
              (map (format_func transcript_options transcript_titles)
                   transcript_options)) ;;
      let transcript_id := selectbox ui transcript_options in
      when (PyStr.truthy transcript_id)
        (put_state {| transcripts := transcripts s;
                      selected_transcript_id := Some transcript_id |})
  | Unlisted v =>
      (* on a true value that is no list, line 309 raises before any widget
         (lemma ids_of_non_list_raises) *)
      when (Py.truthy (json_of_non_list v))
        (lift (ids_of_non_list v) ;; ret tt)
  end.

(** Lines 321-326. *)
Definition show_transcript : M unit :=
  s <- get_state ;;
  match selected_if_set s with
  | Some selected =>
      selected_transcript <- lift (next_with_id (transcripts s) selected) ;;
      let transcript_content := get_transcript_content selected_transcript in
      emit (St_text_area "Transcript" transcript_content)
  | None => ret tt
  end.

(** Lines 381-393. *)
Definition trigger_analysis : M unit :=
  when (analyze_buttons ui financial) (handle_analysis "financial") ;;
  when (analyze_buttons ui action_items) (handle_analysis "action_items") ;;
  when (analyze_buttons ui risk_assessment) (handle_analysis "risk_assessment") ;;
  when (analyze_buttons ui tax_info) (handle_analysis "tax_info") ;;
  when (analyze_buttons ui client_concerns) (handle_analysis "client_concerns") ;;
  when (analyze_buttons ui compliance) (handle_analysis "compliance").

(** The page down to the transcript display (lines 283-326). *)
Definition page_top : M unit :=
  check_api_key ;;
  emit (St_title "Fireflies Meeting Prototype") ;;
  refresh_transcripts ;;
  select_transcript ;;
  show_transcript.

(** One run of the script. *)
Definition script : M unit :=
  page_top ;;
  trigger_analysis ;;
  emit (St_markdown (JStr "---")) ;;
  emit (St_markdown (JStr "Powered by Fireflies.ai and OpenAI GPT-4o")).

End Script.

(** ** A reader of JSON text for the examples

    The decoder of a [world] is [json.loads] of the standard library; the
    examples below run the script on concrete replies and decode them with
    this reader of the JSON that has no escape sequence and no fraction. *)

Module JsonText.

Definition is_space (c : ascii) : bool :=
  Ascii.eqb c " "%char || Ascii.eqb c "010"%char || Ascii.eqb c "013"%char
  || Ascii.eqb c "009"%char.

Definition is_digit (c : ascii) : bool :=
  let n := nat_of_ascii c in (48 <=? n)%nat && (n <=? 57)%nat.

Fixpoint skip_spaces (s : string) : string :=
  match s with
  | String c r => if is_space c then skip_spaces r else s
  | EmptyString => s
  end.

(** The text of a string up to its closing quote, and what follows it. *)
Fixpoint read_string (s : string) : option (string * string) :=
  match s with
  | EmptyString => None
  | String c r =>
      if Ascii.eqb c "034"%char then Some (EmptyString, r)
      else if Ascii.eqb c "092"%char then None
      else match read_string r with
           | Some (inside, after) => Some (String c inside, after)
           | None => None
           end
  end.

Fixpoint read_digits (acc : Z) (s : string) : Z * string :=
  match s with
  | String c r =>
      if is_digit c then read_digits (10 * acc + Z.of_nat (nat_of_ascii c - 48)) r
      else (acc, s)
  | EmptyString => (acc, s)
  end.

Definition read_number (s : string) : option (Z * string) :=
  match s with
  | String c r =>
      if is_digit c then Some (read_digits 0 s)
      else if Ascii.eqb c "-"%char then
        match r with
        | String d _ => if is_digit d then
                          let '(n, after) := read_digits 0 r in Some (- n, after)
                        else None
        | EmptyString => None
        end
      else None
  | EmptyString => None
  end.

(** [d[k] = v] on a dict in insertion order. *)
Fixpoint dict_set (k : string) (v : json) (d : list (string * json))
    : list (string * json) :=
  match d with
  | [] => [(k, v)]
  | (k', v') :: rest =>
      if String.eqb k k' then (k, v) :: rest else (k', v') :: dict_set k v rest
  end.

Fixpoint read_value (fuel : nat) (s : string) {struct fuel} : option (json * string) :=
  match fuel with
  | O => None
  | S fuel' =>
      match skip_spaces s with
      | String "n" (String "u" (String "l" (String "l" r))) => Some (JNull, r)
      | String "t" (String "r" (String "u" (String "e" r))) => Some (JBool true, r)
      | String "f" (String "a" (String "l" (String "s" (String "e" r)))) =>
          Some (JBool false, r)
      | String "034" r =>
          match read_string r with
          | Some (inside, after) => Some (JStr inside, after)
          | None => None
          end
      | String "[" r =>
          match skip_spaces r with
          | String "]" after => Some (JArr [], after)
          | _ =>
              match read_items fuel' r [] with
              | Some (items, after) => Some (JArr items, after)
              | None => None
              end
          end
      | String "{" r =>
          match skip_spaces r with
          | String "}" after => Some (JObj [], after)
          | _ =>
              match read_fields fuel' r [] with
              | Some (fields, after) => Some (JObj fields, after)
              | None => None
              end
          end
      | other =>
          match read_number other with
          | Some (n, after) => Some (JNum n, after)
          | None => None
          end
      end
  end
with read_items (fuel : nat) (s : string) (acc : list json) {struct fuel}
    : option (list json * string) :=
  match fuel with
  | O => None
  | S fuel' =>
      match read_value fuel' s with
      | Some (v, after) =>
          match skip_spaces after with
          | String "," r => read_items fuel' r (acc ++ [v])%list
          | String "]" r => Some ((acc ++ [v])%list, r)
          | _ => None
          end
      | None => None
      end
  end
with read_fields (fuel : nat) (s : string) (acc : list (string * json)) {struct fuel}
    : option (list (string * json) * string) :=
  match fuel with
  | O => None
  | S fuel' =>
      match skip_spaces s with
      | String "034" r =>
          match read_string r with
          | Some (key, after) =>
              match skip_spaces after with
              | String ":" r' =>
                  match read_value fuel' r' with
                  | Some (v, after') =>
                      match skip_spaces after' with
                      | String "," r'' => read_fields fuel' r'' (dict_set key v acc)
                      | String "}" r'' => Some (dict_set key v acc, r'')
                      | _ => None
                      end
                  | None => None
                  end
              | _ => None
              end
          | None => None
          end
      | _ => None
      end
  end.

Definition loads (s : string) : py json :=
  match read_value (2 * String.length s + 2) s with
  | Some (v, after) =>
      match skip_spaces after with
      | EmptyString => Ok v
      | _ => Raise (JSONDecodeError "Extra data")
      end
  | None => Raise (JSONDecodeError "Expecting value")
  end.

(** [json.dumps] of the values the examples send back, without spaces. *)
Definition quoted (s : string) : string := dq ++ s ++ dq.

End JsonText.

(** ** The words of the specification *)

Module Spec.

(** "Order of first appearance, deduplicated". *)
Fixpoint first_appearance (seen names : list string) : list string :=
  match names with
  | [] => []
  | n :: rest =>
      if existsb (String.eqb n) seen then first_appearance seen rest
      else n :: first_appearance (n :: seen) rest
  end.

(** "Joins each utterance as {speaker}: {text} with newline separators,
    preserving input order": the first line, then a newline and a line for
    each further utterance. *)
Definition utterance_line (u : sentence) : string :=
  speaker_name u ++ ": " ++ text u.

Definition formatted (utterances : list sentence) : string :=
  match utterances with
  | [] => EmptyString
  | u :: rest =>
      fold_left (fun acc v => acc ++ nl ++ utterance_line v) rest (utterance_line u)
  end.

(** "Formatted date (from the millisecond timestamp, UTC day precision)". *)
Definition utc_date (ms : Z) : string :=
  Datetime.strftime_Ymd (Datetime.civil_from_days (ms / 86400000)).

(** "Non-success HTTP status": outside 200..299. *)
Definition success_status (code : Z) : bool := (200 <=? code) && (code <=? 299).

(** "The expected data envelope": what lies under [data.transcripts], when
    the body is an object whose [data] is an object with that field. *)
Definition data_transcripts (r : response) : option listing :=
  match response_json r with
  | Ok (Object top) =>
      match assoc "data" top with
      | Some (Object data) => assoc "transcripts" data
      | _ => None
      end
  | _ => None
  end.

(** The answer of the provider to the request of [fetch_transcripts]. *)
Definition provider_answer (w : world) (api_key : string) : py response :=
  requests_post w "https://api.fireflies.ai/graphql" Templates.query 10
    [("Content-Type", "application/json"); ("Authorization", "Bearer " ++ api_key)].

Definition provider_asked (api_key : string) : event :=
  Http_post "https://api.fireflies.ai/graphql" Templates.query 10
    [("Content-Type", "application/json"); ("Authorization", "Bearer " ++ api_key)].

(** The analysis and the draft as the page shows them. *)
Definition is_output (ev : event) : bool :=
  match ev with
  | St_write _ | St_markdown _ => true
  | _ => false
  end.

Definition is_error (ev : event) : bool :=
  match ev with St_error _ => true | _ => false end.

Definition is_request (ev : event) : bool :=
  match ev with Chat_completion _ => true | _ => false end.

Definition is_mail (ev : event) : bool :=
  match ev with
  | Smtp_ssl _ _ | Smtp_login _ _ | Smtp_sendmail _ _ _ _ => true
  | _ => false
  end.

(** How the session with the relay goes for a message: the error that ends
    it, if any, of the connection, the login, the serialisation of the
    message or its submission.  An error while the session is closed
    replaces an error inside the session. *)
Definition mail_failure (w : world) (recipient : string) (msg : mime_message)
    : option exn :=
  match smtp_ssl w "smtp.gmail.com" 465 with
  | Some e => Some e
  | None =>
      match smtp_quit w with
      | Some e => Some e
      | None =>
          match smtp_login w (GMAIL_USER w) (GMAIL_PASSWORD w) with
          | Some e => Some e
          | None =>
              match as_string w msg with
              | Raise e => Some e
              | Ok text => smtp_sendmail w (GMAIL_USER w) recipient text
              end
          end
      end
  end.

(** [v] without its field [key]. *)
Definition without_field (key : string) (v : json) : json :=
  match v with
  | JObj fields => JObj (filter (fun kv => negb (String.eqb (fst kv) key)) fields)
  | _ => v
  end.

End Spec.

(** ** Worlds for the examples *)

Module Demo.

Import JsonText.

Definition kickoff : transcript :=
  {| id := "a"; title := "Kickoff"; date := 1700000000000;
     sentences := [ {| text := "Budget is $10k"; speaker_name := "Alice" |} ] |}.

Definition review : transcript :=
  {| id := "b"; title := "Review"; date := 1700000000000;
     sentences :=
       [ {| text := "Costs went up."; speaker_name := "Alice" |};
         {| text := "By how much?"; speaker_name := "Bob" |};
         {| text := "Ten percent."; speaker_name := "Alice" |} ] |}.

(** The reply of the scenario of the specification. *)
Definition analysis_text : string :=
  "{" ++ quoted "summary" ++ ":" ++ quoted "S" ++ ","
  ++ quoted "key_points" ++ ":[" ++ quoted "p1" ++ "],"
  ++ quoted "details" ++ ":[],"
  ++ quoted "follow_up_suggestions" ++ ":[]}".

Definition analysis : AnalysisResult :=
  {| summary := "S"; key_points := ["p1"]; details := [];
     follow_up_suggestions := [] |}.

(** Valid JSON without [key_points]. *)
Definition incomplete_text : string :=
  "{" ++ quoted "summary" ++ ":" ++ quoted "S" ++ ","
  ++ quoted "details" ++ ":[],"
  ++ quoted "follow_up_suggestions" ++ ":[]}".

(** Not JSON. *)
Definition prose_text : string := "Sure! Here is the summary you asked for.".

Definition draft_text : string :=
  "{" ++ quoted "subject" ++ ":" ++ quoted "Meeting Follow-up: Kickoff" ++ ","
  ++ quoted "body" ++ ":" ++ quoted "<p>Thank you for the meeting.</p>" ++ "}".

Definition draft : FollowUpEmail :=
  {| subject := "Meeting Follow-up: Kickoff";
     body := "<p>Thank you for the meeting.</p>" |}.

Definition provider_ok (ts : list transcript) : py response :=
  Ok {| status_code := 200;
        response_json := Ok (Object [("data", Object [("transcripts", Listed ts)])]) |}.

(** The provider has no list to give: [{"data": {"transcripts": null}}]. *)
Definition provider_null : py response :=
  Ok {| status_code := 200;
        response_json :=
          Ok (Object [("data", Object [("transcripts", Unlisted NullValue)])]) |}.

Definition provider_status (code : Z) : py response :=
  Ok {| status_code := code; response_json := Raise (JSONDecodeError "Expecting value") |}.

(** A GraphQL error payload: [{"errors": [..], "data": null}]. *)
Definition provider_errors : py response :=
  Ok {| status_code := 200;
        response_json :=
          Ok (Object
                [("errors",
                  NotAnObject "list indices must be integers or slices, not str");
                 ("data", NotAnObject "'NoneType' object is not subscriptable")]) |}.

(** A text for a message, in place of the MIME serialisation. *)
Definition serialised (msg : mime_message) : string :=
  "Subject: " ++ msg_Subject msg ++ nl ++ "From: " ++ msg_From msg ++ nl
  ++ "To: " ++ msg_To msg ++ nl ++ nl ++ html_part msg.

(** The world in which the provider answers [provider], the completion
    service [analysis_reply] to the analysis request and [email_reply] to the
    other, the relay [sendmail] to the submission, on a clock [offset]
    seconds east of UTC, sets being iterated in the order [order]. *)
Definition mock (provider : py response) (analysis_reply email_reply : py string)
    (sendmail : option exn) (offset : Z) (order : list string -> list string) : world :=
  {| GMAIL_PASSWORD := "app-password";
     GMAIL_USER := "accountant@example.com";
     OPENAI_API_KEY := "sk-test";
     requests_post := fun _ _ _ _ => provider;
     chat_completions_create :=
       fun request => if max_tokens request =? 3000 then analysis_reply else email_reply;
     json_loads := loads;
     as_string := fun msg => Ok (serialised msg);
     smtp_ssl := fun _ _ => None;
     smtp_login := fun _ _ => None;
     smtp_sendmail := fun _ _ _ => sendmail;
     smtp_quit := None;
     utcoffset := fun _ => offset;
     set_iter := order;
     container_repr := fun _ => "..." |}.

(** Two iteration orders of a set. *)
Definition in_order : list string -> list string := Spec.first_appearance [].
Definition reversed : list string -> list string :=
  fun names => rev (Spec.first_appearance [] names).

Definition happy : world :=
  mock (provider_ok [kickoff]) (Ok analysis_text) (Ok draft_text) None 0 in_order.

(** The widgets: every text and box as given, the selector on the option
    number [choice], one button pressed or none. *)
Definition widgets (key address : string) (auto refresh : bool) (choice : nat)
    (pressed : option Category) : ui_inputs :=
  {| fireflies_api_key := key;
     email := address;
     auto_email := auto;
     refresh_button := refresh;
     selectbox := fun options => nth choice options EmptyString;
     analyze_buttons :=
       fun c => match pressed with
                | Some p => String.eqb (category_key p) (category_key c)
                | None => false
                end |}.

Definition on_kickoff : session_state :=
  {| transcripts := Listed [kickoff]; selected_transcript_id := Some "a" |}.

(** The completion service answers in prose, to both requests. *)
Definition prose : world :=
  mock (provider_ok [kickoff]) (Ok prose_text) (Ok prose_text) None 0 in_order.

(** The analysis lacks [key_points]; the draft is as expected. *)
Definition incomplete : world :=
  mock (provider_ok [kickoff]) (Ok incomplete_text) (Ok draft_text) None 0 in_order.

(** The relay drops the submission. *)
Definition relay_down : world :=
  mock (provider_ok [kickoff]) (Ok analysis_text) (Ok draft_text)
    (Some (Exception "Connection unexpectedly closed")) 0 in_order.

(** The provider has no transcript left, or only one that is new, or
    answers [null] for the list, or is out of service. *)
Definition emptied : world :=
  mock (provider_ok []) (Ok analysis_text) (Ok draft_text) None 0 in_order.

Definition renewed : world :=
  mock (provider_ok [review]) (Ok analysis_text) (Ok draft_text) None 0 in_order.

Definition nulled : world :=
  mock provider_null (Ok analysis_text) (Ok draft_text) None 0 in_order.

Definition unavailable : world :=
  mock (provider_status 503) (Ok analysis_text) (Ok draft_text) None 0 in_order.

Definition answers_errors : world :=
  mock provider_errors (Ok analysis_text) (Ok draft_text) None 0 in_order.

(** A clock two hours east of UTC and sets iterated last name first. *)
Definition east : world :=
  mock (provider_ok [review]) (Ok analysis_text) (Ok draft_text) None 7200 reversed.

Definition refresh_pressed : ui_inputs := widgets "ff-key" EmptyString false true 0 None.

Definition financial_pressed : ui_inputs :=
  widgets "ff-key" "client@example.com" true false 0 (Some financial).

Definition kickoff_text : string := "Alice: Budget is $10k".

End Demo.

(** ** The vocabulary of the properties *)

(** A piece of the script that leaves the session state as it found it. *)
Definition stateless {A : Type} (m : M A) : Prop := forall s, final (m s) = s.

(** A piece of the script that raises nothing. *)
Definition total {A : Type} (m : M A) : Prop := forall s, exists a, result (m s) = Ok a.

(** A piece of the script that leaves the transcript list as it found it. *)
Definition keeps_transcripts {A : Type} (m : M A) : Prop :=
  forall s, transcripts (final (m s)) = transcripts s.

(** [m] runs from [s] without touching the state: it shows [evs] and returns
    [a], or shows [evs] and raises [e]. *)
Definition runs {A : Type} (m : M A) (s : session_state) (evs : list event) (a : A)
    : Prop :=
  m s = {| final := s; shown := evs; result := Ok a |}.

Definition raises {A : Type} (m : M A) (s : session_state) (evs : list event) (e : exn)
    : Prop :=
  m s = {| final := s; shown := evs; result := Raise e |}.

Definition failed_note : event :=
  St_error "Failed to generate analysis or follow-up email. Please check the error messages above and try again.".

Definition progress_note (prompt_type : string) : event :=
  St_write ("Analyzing with GPT-4o: " ++ label prompt_type ++ "...").

(** The analysis and the draft on the page, for an analysis of the expected
    shape. *)
Definition analysis_lines (analysis_type : string) (a : AnalysisResult) (draft : json)
    : list event :=
  ([St_write ("## " ++ label analysis_type ++ " Analysis");
    St_write ("### Summary" ++ nl ++ summary a);
    St_write "### Key Points"]
   ++ map (fun p => St_write ("- " ++ p)) (key_points a)
   ++ [St_write "### Details"]
   ++ flat_map (fun d => [St_write ("#### " ++ topic d);
                          St_write ("Description: " ++ description d);
                          St_write ("Relevance: " ++ relevance d);
                          St_write EmptyString]) (details a)
   ++ [St_write "### Follow-up Suggestions"]
   ++ map (fun p => St_write ("- " ++ p)) (follow_up_suggestions a)
   ++ [St_write "### Follow-up Email"; St_markdown draft])%list.

(** What the display has written of such an analysis when it comes to look
    up the field [key]: the heading, then the sections before that field and
    the title of its own section. *)
Definition lines_before (analysis_type key : string) (a : AnalysisResult) : list event :=
  let heading := [St_write ("## " ++ label analysis_type ++ " Analysis")] in
  let summary_lines :=
    [St_write ("### Summary" ++ nl ++ summary a); St_write "### Key Points"] in
  let point_lines :=
    (map (fun p => St_write ("- " ++ p)) (key_points a)
     ++ [St_write "### Details"])%list in
  let detail_lines :=
    (flat_map (fun d => [St_write ("#### " ++ topic d);
                         St_write ("Description: " ++ description d);
                         St_write ("Relevance: " ++ relevance d);
                         St_write EmptyString]) (details a)
     ++ [St_write "### Follow-up Suggestions"])%list in
  if String.eqb key "summary" then heading
  else if String.eqb key "key_points" then (heading ++ summary_lines)%list
  else if String.eqb key "details" then (heading ++ summary_lines ++ point_lines)%list
  else (heading ++ summary_lines ++ point_lines ++ detail_lines)%list.

(** The block of a detail and the report of an analysis of the expected
    shape, as texts. *)
Definition detail_block (d : DetailItem) : string :=
  Templates.detail_open ++ topic d
  ++ Templates.detail_after_topic ++ description d
  ++ Templates.detail_after_description ++ relevance d
  ++ Templates.detail_close.

Definition li_text (p : string) : string := "<li>" ++ p ++ "</li>".

Definition report (heading : string) (a : AnalysisResult) (draft : string) : string :=
  Templates.html_head ++ heading
  ++ Templates.html_after_heading ++ summary a
  ++ Templates.html_after_summary
  ++ concat_all (map li_text (key_points a))
  ++ Templates.html_after_key_points
  ++ concat_all (map detail_block (details a))
  ++ Templates.html_after_details
  ++ concat_all (map li_text (follow_up_suggestions a))
  ++ Templates.html_after_suggestions ++ draft
  ++ Templates.html_tail.

(** Neither an analysis output nor a step of the mail session. *)
Definition quiet (ev : event) : bool :=
  negb (Spec.is_output ev) && negb (Spec.is_mail ev).

(** Kinds of events, and pieces of the script all of whose events satisfy a
    test. *)
Definition is_http (ev : event) : bool :=
  match ev with Http_post _ _ _ _ => true | _ => false end.

Definition is_sendmail (ev : event) : bool :=
  match ev with Smtp_sendmail _ _ _ _ => true | _ => false end.

Definition not_mail (ev : event) : bool := negb (Spec.is_mail ev).
Definition not_request (ev : event) : bool := negb (Spec.is_request ev).
Definition not_http (ev : event) : bool := negb (is_http ev).
Definition not_sendmail (ev : event) : bool := negb (is_sendmail ev).

Definition shows {A : Type} (P : event -> bool) (m : M A) : Prop :=
  forall s, forallb P (shown (m s)) = true.

(** The title of the first transcript that has the identifier [x]. *)
Definition first_title (ts : list transcript) (x : string) : string :=
  match find (fun t => String.eqb (id t) x) ts with
  | Some t => title t
  | None => EmptyString
  end.

(** ** More worlds for the examples *)

Module Cases.

(** [w] with another answer of the provider, another outcome of the login
    at the relay or of the serialisation of a message, or no API key for the
    completion service. *)
Definition with_provider (w : world) (answer : py response) : world :=
  {| GMAIL_PASSWORD := GMAIL_PASSWORD w; GMAIL_USER := GMAIL_USER w;
     OPENAI_API_KEY := OPENAI_API_KEY w;
     requests_post := fun _ _ _ _ => answer;
     chat_completions_create := chat_completions_create w;
     json_loads := json_loads w; as_string := as_string w;
     smtp_ssl := smtp_ssl w; smtp_login := smtp_login w;
     smtp_sendmail := smtp_sendmail w; smtp_quit := smtp_quit w;
     utcoffset := utcoffset w; set_iter := set_iter w;
     container_repr := container_repr w |}.

Definition with_login (w : world) (outcome : option exn) : world :=
  {| GMAIL_PASSWORD := GMAIL_PASSWORD w; GMAIL_USER := GMAIL_USER w;
     OPENAI_API_KEY := OPENAI_API_KEY w;
     requests_post := requests_post w;
     chat_completions_create := chat_completions_create w;
     json_loads := json_loads w; as_string := as_string w;
     smtp_ssl := smtp_ssl w; smtp_login := fun _ _ => outcome;
     smtp_sendmail := smtp_sendmail w; smtp_quit := smtp_quit w;
     utcoffset := utcoffset w; set_iter := set_iter w;
     container_repr := container_repr w |}.

Definition with_as_string (w : world) (outcome : py string) : world :=
  {| GMAIL_PASSWORD := GMAIL_PASSWORD w; GMAIL_USER := GMAIL_USER w;
     OPENAI_API_KEY := OPENAI_API_KEY w;
     requests_post := requests_post w;
     chat_completions_create := chat_completions_create w;
     json_loads := json_loads w; as_string := fun _ => outcome;
     smtp_ssl := smtp_ssl w; smtp_login := smtp_login w;
     smtp_sendmail := smtp_sendmail w; smtp_quit := smtp_quit w;
     utcoffset := utcoffset w; set_iter := set_iter w;
     container_repr := container_repr w |}.

Definition without_api_key (w : world) : world :=
  {| GMAIL_PASSWORD := GMAIL_PASSWORD w; GMAIL_USER := GMAIL_USER w;
     OPENAI_API_KEY := EmptyString;
     requests_post := requests_post w;
     chat_completions_create := chat_completions_create w;
     json_loads := json_loads w; as_string := as_string w;
     smtp_ssl := smtp_ssl w; smtp_login := smtp_login w;
     smtp_sendmail := smtp_sendmail w; smtp_quit := smtp_quit w;
     utcoffset := utcoffset w; set_iter := set_iter w;
     container_repr := container_repr w |}.

(** The provider answers 204 with a body that would do. *)
Definition no_content : response :=
  {| status_code := 204;
     response_json :=
       Ok (Object [("data", Object [("transcripts", Listed [Demo.kickoff])])]) |}.

Definition answers_204 : world := with_provider Demo.happy (Ok no_content).

(** The provider cannot be reached. *)
Definition unreachable : world :=
  with_provider Demo.happy (Raise (Exception "Connection refused")).

(** The relay refuses the login. *)
Definition login_refused : world :=
  with_login Demo.happy (Some (Exception "Username and Password not accepted")).

(** The message cannot be serialised. *)
Definition unserialisable : world :=
  with_as_string Demo.happy
    (Raise (ValueError
              "Header values may not contain linefeed or carriage return characters")).

Definition keyless : world := without_api_key Demo.happy.

(** The analysis is the empty object. *)
Definition empty_object : world :=
  Demo.mock (Demo.provider_ok [Demo.kickoff]) (Ok "{}") (Ok Demo.draft_text) None 0
    Demo.in_order.

(** A session that selected a transcript the list no longer holds, and a
    new session. *)
Definition stale : session_state :=
  {| transcripts := Listed [Demo.review]; selected_transcript_id := Some "a" |}.

(** A session whose list is empty and whose selection is still set. *)
Definition orphaned : session_state :=
  {| transcripts := Listed []; selected_transcript_id := Some "a" |}.

(** Every button pressed, nothing else asked for. *)
Definition all_pressed : ui_inputs :=
  {| fireflies_api_key := "ff-key"; email := "client@example.com";
     auto_email := true; refresh_button := false;
     selectbox := fun options => nth 0 options EmptyString;
     analyze_buttons := fun _ => true |}.

(** The financial analysis asked for, the mail not. *)
Definition no_mail : ui_inputs :=
  Demo.widgets "ff-key" "client@example.com" false false 0 (Some financial).

(** Nothing pressed. *)
Definition idle : ui_inputs :=
  Demo.widgets "ff-key" "client@example.com" true false 0 None.

Definition kickoff_subject : string :=
  "Meeting Analysis: Financial - Kickoff - 2023-11-14 - Speakers: Alice".

End Cases.

(** * Properties *)

Example title_action_items :
  PyStr.title (replace_char "_" " " "action_items") = "Action Items".
Proof. reflexivity. Qed.

Example of_Z_samples :
  of_Z 0 = "0" /\ of_Z 2023 = "2023" /\ of_Z (-45) = "-45" /\ of_Z 1000 = "1000"
  /\ zero_padded 2 7 = "07" /\ zero_padded 2 11 = "11" /\ zero_padded 4 987 = "0987".
Proof. repeat split; reflexivity. Qed.

Example repr_samples :
  repr "financial" = sq ++ "financial" ++ sq
  /\ repr ("it" ++ sq ++ "s") = dq ++ "it" ++ sq ++ "s" ++ dq
  /\ repr ("a" ++ sq ++ dq) = sq ++ "a" ++ String "092"%char sq ++ dq ++ sq
  /\ repr ("a" ++ nl ++ "b") = sq ++ "a" ++ String "092"%char "nb" ++ sq
  /\ repr (String "092"%char "x") = sq ++ String "092"%char (String "092"%char "x") ++ sq
  /\ repr (String "027"%char EmptyString) = sq ++ String "092"%char "x1b" ++ sq.
Proof. repeat split; reflexivity. Qed.

Example split_samples :
  split_lines ("a" ++ nl ++ "bc" ++ nl) = ["a"; "bc"; EmptyString].
Proof. reflexivity. Qed.

Example loads_samples :
  JsonText.loads Demo.analysis_text = Ok (json_of_analysis Demo.analysis)
  /\ JsonText.loads Demo.draft_text = Ok (json_of_email Demo.draft)
  /\ JsonText.loads Demo.prose_text = Raise (JSONDecodeError "Expecting value")
  /\ JsonText.loads Demo.incomplete_text
     = Ok (Spec.without_field "key_points" (json_of_analysis Demo.analysis))
  /\ JsonText.loads " [1, -20 , true,null ] " = Ok (JArr [JNum 1; JNum (-20); JBool true; JNull])
  /\ JsonText.loads "{} x" = Raise (JSONDecodeError "Extra data").
Proof. repeat split; vm_compute; reflexivity. Qed.

Example dates :
  Datetime.civil_from_days 0 = (1970, 1, 1)
  /\ Datetime.civil_from_days 19675 = (2023, 11, 14)
  /\ Datetime.civil_from_days (-1) = (1969, 12, 31)
  /\ Datetime.civil_from_days 11016 = (2000, 2, 29)
  /\ Datetime.civil_from_days (-719162) = (1, 1, 1)
  /\ Spec.utc_date 1700000000000 = "2023-11-14"
  /\ Datetime.fromtimestamp (fun _ => 7200) 1700000000000 = Ok (2023, 11, 15)
  /\ Datetime.fromtimestamp (fun _ => 0) (-30610224000000) = Ok (1000, 1, 1)
  /\ Datetime.strftime_Ymd (999, 6, 15) = "999-06-15"
  /\ Datetime.fromtimestamp (fun _ => 0) (-62135596800000)
     = Raise (ValueError "year 0 is out of range")
  /\ Datetime.fromtimestamp (fun _ => 0) (-62135510400000) = Ok (1, 1, 2)
  /\ Datetime.fromtimestamp (fun _ => 0) 253402300800000
     = Raise (ValueError "year 10000 is out of range").
Proof. repeat split; vm_compute; reflexivity. Qed.

(** ** Strings *)

Section Strings.

Lemma append_nil_r (s : string) : s ++ EmptyString = s.
Proof. induction s as [|c s IH]; simpl; [reflexivity | now rewrite IH]. Qed.

Lemma append_assoc (a b c : string) : (a ++ b) ++ c = a ++ (b ++ c).
Proof. induction a as [|x a IH]; simpl; [reflexivity | now rewrite IH]. Qed.

Lemma contains_refl (s : string) : contains s s.
Proof. exists EmptyString, EmptyString. simpl. now rewrite append_nil_r. Qed.

Lemma contains_prefix (s rest : string) : contains s (s ++ rest).
Proof. exists EmptyString, rest. reflexivity. Qed.

Lemma contains_after (needle before hay : string) :
  contains needle hay -> contains needle (before ++ hay).
Proof.
  intros (p & q & ->). exists (before ++ p), q. now rewrite append_assoc.
Qed.

Lemma contains_before (needle hay after : string) :
  contains needle hay -> contains needle (hay ++ after).
Proof.
  intros (p & q & ->). exists p, (q ++ after). now rewrite !append_assoc.
Qed.

Lemma contains_trans (a b c : string) : contains a b -> contains b c -> contains a c.
Proof.
  intros (p & q & ->) (p' & q' & ->).
  exists (p' ++ p), (q ++ q'). now rewrite !append_assoc.
Qed.

Lemma concat_all_app (xs ys : list string) :
  concat_all (xs ++ ys) = concat_all xs ++ concat_all ys.
Proof.
  induction xs as [|x xs IH]; simpl; [reflexivity|].
  now rewrite IH, append_assoc.
Qed.

(** Each part of a concatenation occurs in it. *)
Lemma contains_concat_all (x : string) (xs : list string) :
  In x xs -> contains x (concat_all xs).
Proof.
  induction xs as [|y xs IH]; simpl; [tauto|].
  intros [->|Hin].
  - apply contains_prefix.
  - apply contains_after. now apply IH.
Qed.

Lemma join_cons (sep p q : string) (rest : list string) :
  join sep (p :: q :: rest) = p ++ sep ++ join sep (q :: rest).
Proof. reflexivity. Qed.

Lemma contains_join (sep x : string) (xs : list string) :
  In x xs -> contains x (join sep xs).
Proof.
  induction xs as [|y xs IH]; [intros []|].
  destruct xs as [|z xs].
  - intros [->|[]]. apply contains_refl.
  - rewrite join_cons. intros [->|Hin].
    + apply contains_prefix.
    + apply contains_after, contains_after. now apply IH.
Qed.

Lemma split_lines_from_line (cur : string -> string) (line rest : string) :
  has_char "010" line = false ->
  split_lines_from cur (line ++ rest)
  = split_lines_from (fun x => cur (line ++ x)) rest.
Proof.
  revert cur. induction line as [|c line IH]; intros cur Hline; simpl.
  - reflexivity.
  - simpl in Hline. apply orb_false_elim in Hline as [Hc Hline].
    rewrite Hc. now rewrite IH.
Qed.

(** Splitting gives back the lines that were joined. *)
Lemma split_lines_join (l : string) (ls : list string) :
  forallb (fun x => negb (has_char "010" x)) (l :: ls) = true ->
  split_lines (join nl (l :: ls)) = l :: ls.
Proof.
  revert l. induction ls as [|l' ls IH]; intros l Hall.
  - simpl in *. rewrite andb_true_r in Hall. apply negb_true_iff in Hall.
    unfold split_lines. rewrite <- (append_nil_r l) at 1.
    rewrite split_lines_from_line by assumption. simpl.
    now rewrite append_nil_r.
  - rewrite join_cons.
    change (forallb (fun x => negb (has_char "010" x)) (l :: l' :: ls))
      with (negb (has_char "010" l)
            && forallb (fun x => negb (has_char "010" x)) (l' :: ls)) in Hall.
    apply andb_true_iff in Hall as [Hl Hrest]. apply negb_true_iff in Hl.
    unfold split_lines. rewrite split_lines_from_line by assumption.
    simpl. rewrite append_nil_r. f_equal. now apply IH.
Qed.

End Strings.

(** ** The formatter *)

Lemma formatted_fold (acc : string) (us : list sentence) :
  fold_left (fun a v => a ++ nl ++ Spec.utterance_line v) us acc
  = join nl (acc :: map Spec.utterance_line us).
Proof.
  revert acc. induction us as [|u us IH]; intros acc; simpl fold_left.
  - reflexivity.
  - rewrite IH. simpl map. rewrite join_cons.
    destruct (map Spec.utterance_line us) as [|l ls].
    + reflexivity.
    + rewrite !join_cons. now rewrite !append_assoc.
Qed.

Lemma forallb_of_map {A B : Type} (f : B -> bool) (g : A -> B) (l : list A) :
  forallb f (map g l) = forallb (fun x => f (g x)) l.
Proof. induction l as [|x l IH]; simpl; [reflexivity | now rewrite IH]. Qed.

Lemma split_lines_join_map {A : Type} (line : A -> string) (x : A) (xs : list A) :
  forallb (fun u => negb (has_char "010" (line u))) (x :: xs) = true ->
  split_lines (join nl (map line (x :: xs))) = map line (x :: xs).
Proof.
  intros Hall. simpl map. apply split_lines_join.
  simpl in Hall |- *. apply andb_true_iff in Hall as [Hx Hxs].
  rewrite Hx, forallb_of_map. exact Hxs.
Qed.

(** C5. The formatter's output is the lines ["{speaker}: {text}"] of the
    utterances, in their order, with a newline between consecutive lines (the
    text the specification describes, built line after line); it is the
    empty string when there is no utterance; and when no name and no text
    holds a newline, splitting the output at newlines gives back exactly one
    line per utterance, in order. *)
Theorem get_transcript_content_lines (t : transcript) :
  get_transcript_content t = Spec.formatted (sentences t)
  /\ (sentences t = [] -> get_transcript_content t = EmptyString)
  /\ (sentences t <> [] ->
      forallb (fun u => negb (has_char "010" (speaker_name u ++ ": " ++ text u)))
              (sentences t) = true ->
      split_lines (get_transcript_content t)
      = map (fun u => speaker_name u ++ ": " ++ text u) (sentences t)).
Proof.
  unfold get_transcript_content. repeat split.
  - destruct (sentences t) as [|u us]; [reflexivity|].
    unfold Spec.formatted. now rewrite formatted_fold.
  - now intros ->.
  - intros Hne Hall. destruct (sentences t) as [|u us]; [congruence|].
    apply (split_lines_join_map (fun u => speaker_name u ++ ": " ++ text u)).
    exact Hall.
Qed.

(** ** Running the script *)

Ltac unfold_script :=
  cbv beta iota zeta delta
    [bind ret raise lift emit get_state put_state try_except when call
     any_Exception is_JSONDecodeError final shown result app andb negb].

Lemma outcome_eta {A : Type} (o : outcome A) :
  o = {| final := final o; shown := shown o; result := result o |}.
Proof. now destruct o. Qed.

Lemma bind_ok {A B : Type} (m : M A) (f : A -> M B) (s : session_state) (a : A) :
  result (m s) = Ok a ->
  bind m f s
  = {| final := final (f a (final (m s)));
       shown := (shown (m s) ++ shown (f a (final (m s))))%list;
       result := result (f a (final (m s))) |}.
Proof. intros H. unfold bind. now rewrite H. Qed.

Lemma bind_raise {A B : Type} (m : M A) (f : A -> M B) (s : session_state) (e : exn) :
  result (m s) = Raise e ->
  bind m f s = {| final := final (m s); shown := shown (m s); result := Raise e |}.
Proof. intros H. unfold bind. now rewrite H. Qed.

Create HintDb script.

Lemma stateless_ret {A : Type} (a : A) : stateless (ret a).
Proof. now intros s. Qed.

Lemma stateless_raise {A : Type} (e : exn) : stateless (@raise A e).
Proof. now intros s. Qed.

Lemma stateless_lift {A : Type} (x : py A) : stateless (lift x).
Proof. now intros s. Qed.

Lemma stateless_emit (ev : event) : stateless (emit ev).
Proof. now intros s. Qed.

Lemma stateless_get_state : stateless get_state.
Proof. now intros s. Qed.

Lemma stateless_call (o : option exn) : stateless (call o).
Proof. destruct o; now intros s. Qed.

Lemma stateless_bind {A B : Type} (m : M A) (f : A -> M B) :
  stateless m -> (forall a, stateless (f a)) -> stateless (bind m f).
Proof.
  intros Hm Hf s. unfold bind.
  destruct (result (m s)) as [a|e]; simpl.
  - now rewrite Hm, Hf.
  - apply Hm.
Qed.

Lemma stateless_try_except {A : Type} (m : M A) (caught : exn -> bool)
    (handler : exn -> M A) :
  stateless m -> (forall e, stateless (handler e)) ->
  stateless (try_except m caught handler).
Proof.
  intros Hm Hh s. unfold try_except.
  destruct (result (m s)) as [a|e]; [apply Hm|].
  destruct (caught e); simpl; [now rewrite Hm, Hh | apply Hm].
Qed.

Lemma stateless_when (b : bool) (m : M unit) : stateless m -> stateless (when b m).
Proof. destruct b; simpl; [tauto | intros _; apply stateless_ret]. Qed.

Lemma stateless_for_each {A : Type} (items : list A) (body : A -> M unit) :
  (forall x, stateless (body x)) -> stateless (for_each items body).
Proof.
  intros Hbody. induction items as [|x items IH]; simpl.
  - apply stateless_ret.
  - apply stateless_bind; auto.
Qed.

Lemma stateless_if {A : Type} (b : bool) (m1 m2 : M A) :
  stateless m1 -> stateless m2 -> stateless (if b then m1 else m2).
Proof. now destruct b. Qed.

#[local] Hint Resolve stateless_ret stateless_raise stateless_lift stateless_emit
  stateless_get_state stateless_call stateless_bind stateless_try_except
  stateless_when stateless_for_each stateless_if : script.

Ltac stateless_tac :=
  repeat (intros;
          first [ apply stateless_ret | apply stateless_raise | apply stateless_lift
                | apply stateless_emit | apply stateless_get_state
                | apply stateless_call | apply stateless_bind
                | apply stateless_try_except | apply stateless_when
                | apply stateless_for_each | apply stateless_if ]).

(** A handler for every exception that raises nothing makes the block total. *)
Lemma total_try_except_any {A : Type} (m : M A) (handler : exn -> M A) :
  (forall e, total (handler e)) -> total (try_except m any_Exception handler).
Proof.
  intros Hh s. unfold try_except, any_Exception.
  destruct (result (m s)) as [a|e] eqn:E.
  - exists a. exact E.
  - destruct (Hh e (final (m s))) as [a Ha]. exists a. exact Ha.
Qed.

Lemma total_emit_ret {A : Type} (ev : event) (a : A) :
  total (bind (emit ev) (fun _ => ret a)).
Proof. intros s. exists a. reflexivity. Qed.

Lemma total_emit (ev : event) : total (emit ev).
Proof. intros s. exists tt. reflexivity. Qed.

Section Requesters.

Variable w : world.

Lemma gpt4o_json_prompt_stateless (text prompt_type : string) :
  stateless (gpt4o_json_prompt w text prompt_type).
Proof. unfold gpt4o_json_prompt. stateless_tac. Qed.

Lemma generate_follow_up_email_stateless (text : string) :
  stateless (generate_follow_up_email w text).
Proof. unfold generate_follow_up_email. stateless_tac. Qed.

(** Neither requester raises: every exception ends in a reported error and
    the value [None]. *)
Lemma gpt4o_json_prompt_total (text prompt_type : string) :
  total (gpt4o_json_prompt w text prompt_type).
Proof.
  unfold gpt4o_json_prompt. apply total_try_except_any. intros e. apply total_emit_ret.
Qed.

Lemma generate_follow_up_email_total (text : string) :
  total (generate_follow_up_email w text).
Proof.
  unfold generate_follow_up_email. apply total_try_except_any. intros e.
  apply total_emit_ret.
Qed.

Lemma stateless_with_smtp_server (block : M unit) :
  stateless block -> stateless (with_smtp_server w block).
Proof.
  intros H s. unfold with_smtp_server. destruct (smtp_quit w); simpl; apply H.
Qed.

Lemma send_email_stateless (recipient subject html : string) :
  stateless (send_email w recipient subject html).
Proof.
  unfold send_email. apply stateless_try_except; [|auto with script].
  repeat (apply stateless_bind; [|intros]); auto with script.
  apply stateless_with_smtp_server. stateless_tac.
Qed.

Lemma send_email_total (recipient subject html : string) :
  total (send_email w recipient subject html).
Proof.
  unfold send_email. apply total_try_except_any. intros e. apply total_emit.
Qed.

End Requesters.

(** ** Sending the report *)

Lemma send_email_returns_unit_shown (w : world) (recipient subject html : string)
    (s : session_state) :
  exists attempts,
    forallb Spec.is_mail attempts = true
    /\ shown (send_email w recipient subject html s)
       = (attempts
          ++ [match Spec.mail_failure w recipient
                      {| msg_Subject := subject; msg_From := GMAIL_USER w;
                         msg_To := recipient; html_part := html |} with
              | None => St_success "Email sent successfully!"
              | Some e => St_error ("Error sending email: " ++ exn_str e)
              end])%list.
Proof.
  unfold send_email, Spec.mail_failure, with_smtp_server. unfold_script.
  destruct (smtp_ssl w "smtp.gmail.com" 465) as [e1|]; cbv beta iota.
  { exists [Smtp_ssl "smtp.gmail.com" 465]. split; reflexivity. }
  destruct (smtp_login w (GMAIL_USER w) (GMAIL_PASSWORD w)) as [e2|];
    cbv beta iota.
  { destruct (smtp_quit w) as [e4|]; cbv beta iota;
      exists [Smtp_ssl "smtp.gmail.com" 465;
              Smtp_login (GMAIL_USER w) (GMAIL_PASSWORD w)];
      split; reflexivity. }
  destruct (as_string w _) as [text|e5]; cbv beta iota.
  2:{ destruct (smtp_quit w) as [e4|]; cbv beta iota;
        exists [Smtp_ssl "smtp.gmail.com" 465;
                Smtp_login (GMAIL_USER w) (GMAIL_PASSWORD w)];
        split; reflexivity. }
  destruct (smtp_sendmail w (GMAIL_USER w) recipient text) as [e3|];
    destruct (smtp_quit w) as [e4|]; cbv beta iota;
    eexists [Smtp_ssl "smtp.gmail.com" 465;
             Smtp_login (GMAIL_USER w) (GMAIL_PASSWORD w);
             Smtp_sendmail (GMAIL_USER w) recipient _ text];
    split; reflexivity.
Qed.

(** C10. Whatever the recipient, subject and content, and however the
    session with the relay goes, [send_email] raises nothing and returns
    [None], and leaves the session state as it was: its value tells nothing
    about the delivery.  The outcome shows only on the page, as the last
    thing displayed: the success note when the message was serialised and the
    relay accepted every step, the error note with the text of the exception
    otherwise. *)
Theorem send_email_returns_unit (w : world) (recipient subject html : string)
    (s : session_state) :
  result (send_email w recipient subject html s) = Ok tt
  /\ final (send_email w recipient subject html s) = s
  /\ exists attempts,
       forallb Spec.is_mail attempts = true
       /\ shown (send_email w recipient subject html s)
          = (attempts
             ++ [match Spec.mail_failure w recipient
                         {| msg_Subject := subject; msg_From := GMAIL_USER w;
                            msg_To := recipient; html_part := html |} with
                 | None => St_success "Email sent successfully!"
                 | Some e => St_error ("Error sending email: " ++ exn_str e)
                 end])%list.
Proof.
  split; [|split].
  - destruct (send_email_total w recipient subject html s) as [[] H]. exact H.
  - apply send_email_stateless.
  - apply send_email_returns_unit_shown.
Qed.

(** ** The analysis request and its reply *)

Section Analysis.

Variable w : world.
Hypothesis key_set : PyStr.truthy (OPENAI_API_KEY w) = true.

(** What [gpt4o_json_prompt] does once the client exists and the category
    has a prompt, by the answer of the service and of the decoder. *)
Lemma gpt4o_json_prompt_run (text prompt_type prompt : string) (s : session_state) :
  prompts_getitem prompt_type = Ok prompt ->
  gpt4o_json_prompt w text prompt_type s
  = let request := analysis_request prompt text in
    let asked := [St_spinner "Analyzing transcript..."; Chat_completion request] in
    let failed (e : exn) :=
      {| final := s;
         shown := (asked ++ [St_error ("An error occurred while analyzing the transcript: "
                                      ++ exn_str e)])%list;
         result := Ok JNull |} in
    match chat_completions_create w request with
    | Raise e => failed e
    | Ok reply =>
        match json_loads w reply with
        | Ok v => {| final := s; shown := asked; result := Ok v |}
        | Raise (JSONDecodeError msg) =>
            {| final := s;
               shown := (asked ++ [St_error ("Error decoding JSON: " ++ msg);
                                   St_error ("Raw response: " ++ reply)])%list;
               result := Ok JNull |}
        | Raise e => failed e
        end
    end.
Proof.
  intros Hprompt. unfold gpt4o_json_prompt, client. rewrite key_set, Hprompt.
  unfold_script.
  destruct (chat_completions_create w (analysis_request prompt text)) as [reply|e];
    [|reflexivity].
  destruct (json_loads w reply) as [v|[]]; reflexivity.
Qed.

Lemma generate_follow_up_email_run (text : string) (s : session_state) :
  generate_follow_up_email w text s
  = let request := follow_up_request text in
    let asked := [St_spinner "Generating follow-up email..."; Chat_completion request] in
    let failed (e : exn) :=
      {| final := s;
         shown := (asked ++ [St_error ("An error occurred while generating the follow-up email: "
                                      ++ exn_str e)])%list;
         result := Ok JNull |} in
    match chat_completions_create w request with
    | Raise e => failed e
    | Ok reply =>
        match json_loads w reply with
        | Ok v => {| final := s; shown := asked; result := Ok v |}
        | Raise (JSONDecodeError msg) =>
            {| final := s;
               shown := (asked ++ [St_error ("Error decoding JSON for follow-up email: " ++ msg);
                                   St_error ("Raw response: " ++ reply)])%list;
               result := Ok JNull |}
        | Raise e => failed e
        end
    end.
Proof.
  unfold generate_follow_up_email, client. rewrite key_set.
  unfold_script.
  destruct (chat_completions_create w (follow_up_request text)) as [reply|e];
    [|reflexivity].
  destruct (json_loads w reply) as [v|[]]; reflexivity.
Qed.

End Analysis.

Lemma category_has_prompt (c : Category) :
  exists prompt, prompts_getitem (category_key c) = Ok prompt
                 /\ assoc (category_key c) prompts = Some prompt.
Proof. destruct c; eexists; split; reflexivity. Qed.

(** C7. For each of the six categories and every transcript text, when the
    client exists, [gpt4o_json_prompt] issues exactly one completion request,
    right after its busy indicator; the request has a system message and a
    user message, and the text of the user message contains verbatim the
    prompt that [prompts] gives the category and the transcript text. *)
Theorem analysis_request_carries_prompt_and_transcript
    (w : world) (c : Category) (text : string) (s : session_state) :
  PyStr.truthy (OPENAI_API_KEY w) = true ->
  exists prompt request rest system user,
    assoc (category_key c) prompts = Some prompt
    /\ shown (gpt4o_json_prompt w text (category_key c) s)
       = St_spinner "Analyzing transcript..." :: Chat_completion request :: rest
    /\ filter Spec.is_request rest = []
    /\ messages request = [system; user]
    /\ role system = "system" /\ role user = "user"
    /\ contains prompt (content user)
    /\ contains text (content user).
Proof.
  intros key_set.
  destruct (category_has_prompt c) as (prompt & Hget & Hassoc).
  rewrite (gpt4o_json_prompt_run w key_set text _ prompt s Hget). cbv zeta.
  exists prompt, (analysis_request prompt text).
  assert (Hmsg : forall rest,
    shown {| final := s;
             shown := St_spinner "Analyzing transcript..."
                      :: Chat_completion (analysis_request prompt text) :: rest;
             result := Ok JNull |}
    = St_spinner "Analyzing transcript..."
      :: Chat_completion (analysis_request prompt text) :: rest) by reflexivity.
  assert (Hreq : exists system user,
    messages (analysis_request prompt text) = [system; user]
    /\ role system = "system" /\ role user = "user"
    /\ contains prompt (content user) /\ contains text (content user)).
  { eexists _, _. split; [reflexivity|]. split; [reflexivity|].
    split; [reflexivity|]. split.
    - apply contains_prefix.
    - apply contains_after, contains_after, contains_prefix. }
  destruct Hreq as (system & user & Hreq).
  destruct (chat_completions_create w (analysis_request prompt text)) as [reply|e].
  - destruct (json_loads w reply) as [v|[]];
      eexists _, system, user; (split; [exact Hassoc|]);
      (split; [reflexivity|]); (split; [reflexivity|]); exact Hreq.
  - eexists _, system, user; (split; [exact Hassoc|]);
      (split; [reflexivity|]); (split; [reflexivity|]); exact Hreq.
Qed.

(** C8. When the reply to the analysis request is not JSON (the decoder
    raises [JSONDecodeError]), [gpt4o_json_prompt] raises nothing and returns
    [None]; it has issued the one request and no other; and it reports the
    failure on the page in two error notes, the second of which carries the
    raw reply verbatim.  [generate_follow_up_email] does the same with the
    reply to its request. *)
Theorem undecodable_reply_is_reported
    (w : world) (text prompt_type prompt reply msg : string) (s : session_state) :
  PyStr.truthy (OPENAI_API_KEY w) = true ->
  prompts_getitem prompt_type = Ok prompt ->
  json_loads w reply = Raise (JSONDecodeError msg) ->
  (chat_completions_create w (analysis_request prompt text) = Ok reply ->
   gpt4o_json_prompt w text prompt_type s
   = {| final := s;
        shown := [St_spinner "Analyzing transcript...";
                  Chat_completion (analysis_request prompt text);
                  St_error ("Error decoding JSON: " ++ msg);
                  St_error ("Raw response: " ++ reply)];
        result := Ok JNull |})
  /\ (chat_completions_create w (follow_up_request text) = Ok reply ->
      generate_follow_up_email w text s
      = {| final := s;
           shown := [St_spinner "Generating follow-up email...";
                     Chat_completion (follow_up_request text);
                     St_error ("Error decoding JSON for follow-up email: " ++ msg);
                     St_error ("Raw response: " ++ reply)];
           result := Ok JNull |}).
Proof.
  intros key_set Hprompt Hloads. split; intros Hreply.
  - rewrite (gpt4o_json_prompt_run w key_set text _ prompt s Hprompt). cbv zeta.
    now rewrite Hreply, Hloads.
  - rewrite (generate_follow_up_email_run w key_set text s). cbv zeta.
    now rewrite Hreply, Hloads.
Qed.

(** ** The analysis action *)

Arguments gpt4o_json_prompt : simpl never.
Arguments generate_follow_up_email : simpl never.
Arguments show_analysis : simpl never.
Arguments mail_analysis : simpl never.
Arguments send_email : simpl never.
Arguments format_analysis_to_html : simpl never.
Arguments subject_line : simpl never.
Arguments get_transcript_content : simpl never.
Arguments label : simpl never.

(** [handle_analysis] on a selected transcript, by what the two requesters
    return: the progress line, what the requesters show, then either the
    analysis with its mail or the note of failure. *)
Lemma handle_analysis_run (w : world) (ui : ui_inputs) (prompt_type selected : string)
    (t : transcript) (v1 v2 : json) (s : session_state) :
  selected_if_set s = Some selected ->
  next_with_id (transcripts s) selected = Ok t ->
  result (gpt4o_json_prompt w (get_transcript_content t) prompt_type s) = Ok v1 ->
  result (generate_follow_up_email w (get_transcript_content t) s) = Ok v2 ->
  handle_analysis w ui prompt_type s
  = let rest :=
      (if Py.truthy v1 && Py.truthy v2
       then bind (show_analysis w prompt_type v1 v2)
                 (fun _ => mail_analysis w ui prompt_type t v1 v2)
       else emit failed_note) s in
    {| final := final rest;
       shown := (progress_note prompt_type
                 :: shown (gpt4o_json_prompt w (get_transcript_content t) prompt_type s)
                 ++ shown (generate_follow_up_email w (get_transcript_content t) s)
                 ++ shown rest)%list;
       result := result rest |}.
Proof.
  intros Hsel Hnext H1 H2.
  unfold handle_analysis.
  rewrite (bind_ok _ _ s s) by reflexivity.
  change (final (get_state s)) with s. rewrite Hsel.
  rewrite (bind_ok _ _ s t) by exact Hnext.
  change (final (lift (next_with_id (transcripts s) selected) s)) with s.
  rewrite (bind_ok _ _ s tt) by reflexivity.
  change (final (emit (St_write ("Analyzing with GPT-4o: " ++ label prompt_type ++ "...")) s))
    with s.
  rewrite (bind_ok _ _ s v1) by exact H1.
  rewrite (gpt4o_json_prompt_stateless w _ _ s).
  rewrite (bind_ok _ _ s v2) by exact H2.
  rewrite (generate_follow_up_email_stateless w _ s).
  cbv zeta. simpl. reflexivity.
Qed.

Lemma runs_emit (ev : event) (s : session_state) : runs (emit ev) s [ev] tt.
Proof. reflexivity. Qed.

Lemma runs_ret {A : Type} (a : A) (s : session_state) : runs (ret a) s [] a.
Proof. reflexivity. Qed.

Lemma runs_lift {A : Type} (x : py A) (a : A) (s : session_state) :
  x = Ok a -> runs (lift x) s [] a.
Proof. now intros ->. Qed.

Lemma raises_lift {A : Type} (x : py A) (e : exn) (s : session_state) :
  x = Raise e -> raises (lift x) s [] e.
Proof. now intros ->. Qed.

Lemma runs_bind {A B : Type} (m : M A) (f : A -> M B) (s : session_state)
    (e1 e2 : list event) (a : A) (b : B) :
  runs m s e1 a -> runs (f a) s e2 b -> runs (bind m f) s (e1 ++ e2) b.
Proof. unfold runs, bind. intros -> . simpl. now intros ->. Qed.

Lemma raises_bind_later {A B : Type} (m : M A) (f : A -> M B) (s : session_state)
    (e1 e2 : list event) (a : A) (e : exn) :
  runs m s e1 a -> raises (f a) s e2 e -> raises (bind m f) s (e1 ++ e2) e.
Proof. unfold runs, raises, bind. intros ->. simpl. now intros ->. Qed.

Lemma raises_bind_now {A B : Type} (m : M A) (f : A -> M B) (s : session_state)
    (e1 : list event) (e : exn) :
  raises m s e1 e -> raises (bind m f) s e1 e.
Proof. unfold raises, bind. now intros ->. Qed.

Lemma bind_runs_then {A B : Type} (m : M A) (f : A -> M B) (s : session_state)
    (evs : list event) (a : A) :
  runs m s evs a ->
  bind m f s
  = {| final := final (f a s); shown := (evs ++ shown (f a s))%list;
       result := result (f a s) |}.
Proof. unfold runs, bind. now intros ->. Qed.

Lemma runs_shown {A : Type} (m : M A) (s : session_state) (evs evs' : list event) (a : A) :
  runs m s evs' a -> evs' = evs -> runs m s evs a.
Proof. now intros H <-. Qed.

Lemma runs_for_each_map {A B : Type} (g : A -> B) (l : list A) (body : B -> M unit)
    (evs : A -> list event) (s : session_state) :
  (forall x, runs (body (g x)) s (evs x) tt) ->
  runs (for_each (map g l) body) s (flat_map evs l) tt.
Proof.
  intros Hbody. induction l as [|x l IH]; simpl.
  - reflexivity.
  - eapply runs_bind; [apply Hbody | exact IH].
Qed.

Lemma flat_map_singleton {A B : Type} (f : A -> B) (l : list A) :
  flat_map (fun x => [f x]) l = map f l.
Proof. induction l as [|x l IH]; simpl; [reflexivity | now rewrite IH]. Qed.

Ltac run_step :=
  first
    [ apply runs_emit
    | apply runs_ret
    | apply runs_lift; reflexivity
    | eapply runs_for_each_map; intros; cbv beta
    | eapply runs_bind; [|cbv beta] ].

Lemma show_analysis_well_formed (w : world) (analysis_type : string)
    (a : AnalysisResult) (follow_up_email draft : json) (s : session_state) :
  Py.getitem follow_up_email "body" = Ok draft ->
  runs (show_analysis w analysis_type (json_of_analysis a) follow_up_email) s
       (analysis_lines analysis_type a draft) tt.
Proof.
  intros Hbody. unfold show_analysis.
  eapply runs_shown.
  - repeat run_step. rewrite Hbody. repeat run_step.
  - unfold analysis_lines, str. simpl.
    rewrite !flat_map_singleton. reflexivity.
Qed.

(** ** The report *)

#[global] Opaque Templates.html_head Templates.html_after_heading
  Templates.html_after_summary Templates.html_after_key_points
  Templates.detail_open Templates.detail_after_topic
  Templates.detail_after_description Templates.detail_close
  Templates.html_after_details Templates.html_after_suggestions
  Templates.html_tail.

Lemma detail_blocks (w : world) (ds : list DetailItem) :
  py_map_list (detail_html w) (map json_of_detail ds) = Ok (map detail_block ds).
Proof.
  induction ds as [|d ds IH]; [reflexivity|].
  simpl map. simpl py_map_list. rewrite IH. reflexivity.
Qed.

Lemma format_analysis_to_html_well_formed (w : world) (analysis_type : string)
    (a : AnalysisResult) (draft : json) :
  format_analysis_to_html w analysis_type (json_of_analysis a) draft
  = Ok (report (label analysis_type) a (str w draft)).
Proof.
  unfold format_analysis_to_html. simpl Py.getitem. cbv beta iota delta [py_bind Py.iter].
  rewrite detail_blocks. cbv beta iota. f_equal.
  unfold report. rewrite !map_map. unfold li, str, li_text. simpl Py.str.
  now rewrite !append_assoc.
Qed.

Lemma html_head_ends_in_h1 :
  exists before, Templates.html_head = before ++ "<h1>".
Proof.
  exists (substring 0 (String.length Templates.html_head - 4) Templates.html_head).
  vm_compute. reflexivity.
Qed.

Lemma html_after_heading_closes_h1 :
  exists after, Templates.html_after_heading = " Analysis</h1>" ++ after.
Proof.
  exists (substring 14 (String.length Templates.html_after_heading - 14)
            Templates.html_after_heading).
  vm_compute. reflexivity.
Qed.

Lemma html_after_summary_opens_ul :
  exists before,
    Templates.html_after_summary
    = before ++ "<h2>Key Points</h2>" ++ nl ++ "            <ul>" ++ nl ++ "    ".
Proof.
  exists (substring 0 (String.length Templates.html_after_summary - 41)
            Templates.html_after_summary).
  vm_compute. reflexivity.
Qed.

Lemma html_after_key_points_closes_ul :
  exists after,
    Templates.html_after_key_points = nl ++ "            </ul>" ++ after.
Proof.
  exists (substring 18 (String.length Templates.html_after_key_points - 18)
            Templates.html_after_key_points).
  vm_compute. reflexivity.
Qed.

(** C9. For every category and every analysis of the expected shape, the
    report is produced (nothing is raised); it contains the heading
    [<h1>{Category} Analysis</h1>], where the category reads "Financial",
    "Action Items", "Risk Assessment", "Tax Info", "Client Concerns" or
    "Compliance"; its key-points list, between [<ul>] and [</ul>] under the
    heading "Key Points", is exactly one [<li>..</li>] element per entry of
    [key_points], in order; hence each entry [p] occurs as [<li>p</li>]. *)
Theorem report_has_heading_and_key_points
    (w : world) (c : Category) (a : AnalysisResult) (draft : json) :
  exists html,
    format_analysis_to_html w (category_key c) (json_of_analysis a) draft = Ok html
    /\ contains ("<h1>" ++ label (category_key c) ++ " Analysis</h1>") html
    /\ contains ("<h2>Key Points</h2>" ++ nl ++ "            <ul>" ++ nl ++ "    "
                 ++ concat_all (map (fun p => "<li>" ++ p ++ "</li>") (key_points a))
                 ++ nl ++ "            </ul>") html
    /\ (forall p, In p (key_points a) -> contains ("<li>" ++ p ++ "</li>") html)
    /\ map (fun c => label (category_key c)) categories
       = ["Financial"; "Action Items"; "Risk Assessment"; "Tax Info";
          "Client Concerns"; "Compliance"].
Proof.
  eexists. split; [apply format_analysis_to_html_well_formed|].
  unfold report.
  destruct html_head_ends_in_h1 as [h Hh].
  destruct html_after_heading_closes_h1 as [g Hg].
  destruct html_after_summary_opens_ul as [u Hu].
  destruct html_after_key_points_closes_ul as [v Hv].
  rewrite Hh, Hg, Hu, Hv.
  set (items := concat_all (map li_text (key_points a))).
  set (rest := concat_all (map detail_block (details a)) ++ _).
  split; [|split; [|split]].
  - exists h, (g ++ summary a ++ (u ++ "<h2>Key Points</h2>" ++ nl ++ "            <ul>"
                                   ++ nl ++ "    ")
               ++ items ++ (nl ++ "            </ul>" ++ v) ++ rest).
    now rewrite !append_assoc.
  - exists (h ++ "<h1>" ++ label (category_key c) ++ " Analysis</h1>" ++ g
            ++ summary a ++ u), (v ++ rest).
    fold li_text. fold items. now rewrite !append_assoc.
  - intros p Hp.
    apply contains_after, contains_after, contains_after, contains_after.
    apply contains_after, contains_before.
    apply (contains_concat_all (li_text p)). now apply in_map.
  - reflexivity.
Qed.

(** ** Partial failures *)

Lemma gpt4o_json_prompt_quiet (w : world) (text prompt_type : string) (s : session_state) :
  forallb quiet (shown (gpt4o_json_prompt w text prompt_type s)) = true.
Proof.
  unfold gpt4o_json_prompt, client.
  destruct (PyStr.truthy (OPENAI_API_KEY w)); [|reflexivity].
  destruct (prompts_getitem prompt_type) as [prompt|e]; [|reflexivity].
  unfold_script.
  destruct (chat_completions_create w (analysis_request prompt text)) as [reply|e];
    [|reflexivity].
  destruct (json_loads w reply) as [v|[]]; reflexivity.
Qed.

Lemma generate_follow_up_email_quiet (w : world) (text : string) (s : session_state) :
  forallb quiet (shown (generate_follow_up_email w text s)) = true.
Proof.
  unfold generate_follow_up_email, client.
  destruct (PyStr.truthy (OPENAI_API_KEY w)); [|reflexivity].
  unfold_script.
  destruct (chat_completions_create w (follow_up_request text)) as [reply|e];
    [|reflexivity].
  destruct (json_loads w reply) as [v|[]]; reflexivity.
Qed.

Lemma filter_quiet (f : event -> bool) (evs : list event) :
  (forall ev, quiet ev = true -> f ev = false) ->
  forallb quiet evs = true -> filter f evs = [].
Proof.
  intros Hf. induction evs as [|ev evs IH]; simpl; [reflexivity|].
  intros H. apply andb_true_iff in H as [Hev Hevs].
  rewrite (Hf ev Hev). now apply IH.
Qed.

Lemma quiet_not_output (ev : event) : quiet ev = true -> Spec.is_output ev = false.
Proof. unfold quiet. now destruct (Spec.is_output ev). Qed.

Lemma quiet_not_mail (ev : event) : quiet ev = true -> Spec.is_mail ev = false.
Proof.
  unfold quiet. destruct (Spec.is_mail ev); [|reflexivity].
  now rewrite andb_false_r.
Qed.

(** The mail of an analysis when the box is ticked and an address given. *)
Lemma mail_analysis_run (w : world) (ui : ui_inputs) (prompt_type : string)
    (t : transcript) (a : AnalysisResult) (m : FollowUpEmail) (subj : string)
    (s : session_state) :
  auto_email ui = true ->
  PyStr.truthy (email ui) = true ->
  subject_line w prompt_type t = Ok subj ->
  mail_analysis w ui prompt_type t (json_of_analysis a) (json_of_email m) s
  = {| final := s;
       shown := St_spinner "Sending email..."
                :: shown (send_email w (email ui) subj
                            (report (label prompt_type) a (body m)) s);
       result := Ok tt |}.
Proof.
  intros Hauto Hemail Hsubj. unfold mail_analysis. rewrite Hauto, Hemail.
  simpl andb. cbv iota beta delta [when].
  rewrite (bind_ok _ _ s tt) by reflexivity.
  rewrite (bind_ok _ _ _ (JStr (body m))) by reflexivity.
  rewrite (bind_ok _ _ _ (report (label prompt_type) a (body m)))
    by (simpl; apply format_analysis_to_html_well_formed).
  rewrite (bind_ok _ _ _ subj) by (simpl; exact Hsubj).
  simpl final. simpl shown.
  rewrite (send_email_stateless w _ _ _ s).
  destruct (send_email_total w (email ui) subj
              (report (label prompt_type) a (body m)) s) as [[] Hok].
  now rewrite Hok.
Qed.

(** C4. On an analysis action for a selected transcript:
    (1) when one of the two requesters returns no result ([None]), the page
    shows the progress line, what the requesters reported, and the note of
    failure: the progress line is the only text written, no analysis and no
    draft; nothing is mailed, nothing is raised and the session state is as
    before;
    (2) when both return values of the expected shape, the mail is asked for
    and the session with the relay fails, the analysis and the draft are on
    the page, followed by the attempt and one error note for the send;
    nothing is raised and the session state is as before. *)
Theorem partial_failure_policy (w : world) (ui : ui_inputs) (prompt_type selected : string)
    (t : transcript) (s : session_state) :
  selected_if_set s = Some selected ->
  next_with_id (transcripts s) selected = Ok t ->
  (forall v1 v2,
     result (gpt4o_json_prompt w (get_transcript_content t) prompt_type s) = Ok v1 ->
     result (generate_follow_up_email w (get_transcript_content t) s) = Ok v2 ->
     v1 = JNull \/ v2 = JNull ->
     handle_analysis w ui prompt_type s
     = {| final := s;
          shown := (progress_note prompt_type
                    :: shown (gpt4o_json_prompt w (get_transcript_content t) prompt_type s)
                    ++ shown (generate_follow_up_email w (get_transcript_content t) s)
                    ++ [failed_note])%list;
          result := Ok tt |}
     /\ filter Spec.is_output (shown (handle_analysis w ui prompt_type s))
        = [progress_note prompt_type]
     /\ filter Spec.is_mail (shown (handle_analysis w ui prompt_type s)) = [])
  /\ (forall a m subj e,
        result (gpt4o_json_prompt w (get_transcript_content t) prompt_type s)
        = Ok (json_of_analysis a) ->
        result (generate_follow_up_email w (get_transcript_content t) s)
        = Ok (json_of_email m) ->
        auto_email ui = true ->
        PyStr.truthy (email ui) = true ->
        subject_line w prompt_type t = Ok subj ->
        Spec.mail_failure w (email ui)
          {| msg_Subject := subj; msg_From := GMAIL_USER w; msg_To := email ui;
             html_part := report (label prompt_type) a (body m) |} = Some e ->
        exists attempts,
          forallb Spec.is_mail attempts = true
          /\ handle_analysis w ui prompt_type s
             = {| final := s;
                  shown := (progress_note prompt_type
                            :: shown (gpt4o_json_prompt w (get_transcript_content t)
                                        prompt_type s)
                            ++ shown (generate_follow_up_email w
                                        (get_transcript_content t) s)
                            ++ analysis_lines prompt_type a (JStr (body m))
                            ++ St_spinner "Sending email..." :: attempts
                            ++ [St_error ("Error sending email: " ++ exn_str e)])%list;
                  result := Ok tt |}).
Proof.
  intros Hsel Hnext. split.
  - intros v1 v2 H1 H2 Hnone.
    assert (Hrun := handle_analysis_run w ui prompt_type selected t v1 v2 s
                      Hsel Hnext H1 H2).
    assert (Hfalse : Py.truthy v1 && Py.truthy v2 = false).
    { destruct Hnone as [-> | ->]; [reflexivity | apply andb_false_r]. }
    rewrite Hfalse in Hrun. cbv zeta in Hrun. simpl in Hrun.
    rewrite Hrun. split; [reflexivity|]. simpl shown.
    assert (Hq : forallb quiet
              (shown (gpt4o_json_prompt w (get_transcript_content t) prompt_type s)
               ++ shown (generate_follow_up_email w (get_transcript_content t) s)
               ++ [failed_note]) = true).
    { rewrite !forallb_app, gpt4o_json_prompt_quiet, generate_follow_up_email_quiet.
      reflexivity. }
    split.
    + simpl filter. f_equal. apply (filter_quiet _ _ quiet_not_output Hq).
    + simpl filter. apply (filter_quiet _ _ quiet_not_mail Hq).
  - intros a m subj e H1 H2 Hauto Hemail Hsubj Hfail.
    assert (Hrun := handle_analysis_run w ui prompt_type selected t _ _ s
                      Hsel Hnext H1 H2).
    change (Py.truthy (json_of_analysis a) && Py.truthy (json_of_email m))
      with true in Hrun.
    cbv iota zeta in Hrun.
    assert (Hshow := show_analysis_well_formed w prompt_type a (json_of_email m)
                       (JStr (body m)) s eq_refl).
    rewrite (bind_ok _ _ s tt) in Hrun by (now rewrite Hshow).
    rewrite Hshow in Hrun. simpl final in Hrun. simpl shown in Hrun.
    rewrite (mail_analysis_run w ui prompt_type t a m subj s Hauto Hemail Hsubj) in Hrun.
    simpl in Hrun.
    destruct (send_email_returns_unit_shown w (email ui) subj
                (report (label prompt_type) a (body m)) s) as (attempts & Hmail & Hshown).
    rewrite Hfail in Hshown. exists attempts. split; [exact Hmail|].
    rewrite Hrun, Hshown. reflexivity.
Qed.

(** ** Replies that lack a field *)

Ltac raise_step :=
  first
    [ apply raises_lift; reflexivity
    | apply raises_bind_now; apply raises_lift; reflexivity
    | eapply raises_bind_later; [solve [repeat run_step] | cbv beta] ].

Lemma raises_shown {A : Type} (m : M A) (s : session_state) (evs evs' : list event)
    (e : exn) :
  raises m s evs' e -> evs' = evs -> raises m s evs e.
Proof. now intros H <-. Qed.

(** The display looks the fields up one after the other and stops at the
    first that is missing, with what it has written so far on the page. *)
Lemma show_analysis_missing_field (w : world) (analysis_type key : string)
    (a : AnalysisResult) (follow_up_email : json) (s : session_state) :
  In key required_fields ->
  raises (show_analysis w analysis_type
            (Spec.without_field key (json_of_analysis a)) follow_up_email)
         s (lines_before analysis_type key a) (KeyError key).
Proof.
  unfold required_fields. simpl In.
  intros [<-|[<-|[<-|[<-|[]]]]]; unfold show_analysis; simpl Spec.without_field;
    (eapply raises_shown;
     [ repeat raise_step
     | unfold lines_before, str; simpl;
       rewrite ?flat_map_singleton, <- ?app_assoc; reflexivity ]).
Qed.

Lemma without_field_truthy (key : string) (a : AnalysisResult) :
  In key required_fields ->
  Py.truthy (Spec.without_field key (json_of_analysis a)) = true.
Proof.
  unfold required_fields. simpl In.
  intros [<-|[<-|[<-|[<-|[]]]]]; reflexivity.
Qed.

(** C2 (amended). With the client in place and a known category, every
    reply that is valid JSON is returned by [gpt4o_json_prompt] as decoded,
    whatever the decoded value, with the four fields or without: the
    requester shows its busy indicator and its request and reports no error.
    Nothing checks the shape afterwards either: for an analysis that lacks
    one required field, with a draft of the expected shape, [handle_analysis]
    starts the display (the heading first, then the sections that come
    before the missing field) and raises [KeyError] for the missing field,
    which nothing handles. *)
Theorem reply_missing_a_field_is_not_validated
    (w : world) (ui : ui_inputs) (prompt_type prompt : string) (s : session_state) :
  PyStr.truthy (OPENAI_API_KEY w) = true ->
  prompts_getitem prompt_type = Ok prompt ->
  (forall (text reply : string) (v : json),
     chat_completions_create w (analysis_request prompt text) = Ok reply ->
     json_loads w reply = Ok v ->
     gpt4o_json_prompt w text prompt_type s
     = {| final := s;
          shown := [St_spinner "Analyzing transcript...";
                    Chat_completion (analysis_request prompt text)];
          result := Ok v |})
  /\ (forall (selected key reply : string) (t : transcript) (a : AnalysisResult)
             (m : FollowUpEmail),
        selected_if_set s = Some selected ->
        next_with_id (transcripts s) selected = Ok t ->
        In key required_fields ->
        chat_completions_create w (analysis_request prompt (get_transcript_content t))
        = Ok reply ->
        json_loads w reply = Ok (Spec.without_field key (json_of_analysis a)) ->
        result (generate_follow_up_email w (get_transcript_content t) s)
        = Ok (json_of_email m) ->
        handle_analysis w ui prompt_type s
        = {| final := s;
             shown :=
               (progress_note prompt_type
                :: [St_spinner "Analyzing transcript...";
                    Chat_completion
                      (analysis_request prompt (get_transcript_content t))]
                ++ shown (generate_follow_up_email w (get_transcript_content t) s)
                ++ lines_before prompt_type key a)%list;
             result := Raise (KeyError key) |}
        /\ hd_error (lines_before prompt_type key a)
           = Some (St_write ("## " ++ label prompt_type ++ " Analysis"))).
Proof.
  intros key_set Hprompt.
  assert (Hrun : forall text reply v,
            chat_completions_create w (analysis_request prompt text) = Ok reply ->
            json_loads w reply = Ok v ->
            gpt4o_json_prompt w text prompt_type s
            = {| final := s;
                 shown := [St_spinner "Analyzing transcript...";
                           Chat_completion (analysis_request prompt text)];
                 result := Ok v |}).
  { intros text reply v Hreply Hloads.
    rewrite (gpt4o_json_prompt_run w key_set _ _ prompt s Hprompt). cbv zeta.
    now rewrite Hreply, Hloads. }
  split; [exact Hrun|].
  intros selected key reply t a m Hsel Hnext Hkey Hreply Hloads Hdraft.
  assert (Hrun1 := Hrun _ _ _ Hreply Hloads).
  assert (H1 : result (gpt4o_json_prompt w (get_transcript_content t) prompt_type s)
               = Ok (Spec.without_field key (json_of_analysis a)))
    by now rewrite Hrun1.
  split.
  - rewrite (handle_analysis_run w ui prompt_type selected t _ _ s Hsel Hnext H1 Hdraft).
    rewrite (without_field_truthy key a Hkey).
    change (Py.truthy (json_of_email m)) with true.
    cbv beta iota zeta delta [andb].
    assert (Hraise := show_analysis_missing_field w prompt_type key a
                        (json_of_email m) s Hkey).
    rewrite (bind_raise _ _ s (KeyError key)) by (now rewrite Hraise).
    rewrite Hraise, Hrun1. reflexivity.
  - unfold required_fields in Hkey. simpl In in Hkey.
    destruct Hkey as [<-|[<-|[<-|[<-|[]]]]]; reflexivity.
Qed.

(** ** Refreshing the transcripts *)

Lemma fetch_transcripts_fails (w : world) (api_key : string) (r : response)
    (s : session_state) :
  Spec.provider_answer w api_key = Ok r ->
  Spec.success_status (status_code r) = false \/ Spec.data_transcripts r = None ->
  exists e,
    fetch_transcripts w api_key s
    = {| final := s; shown := [Spec.provider_asked api_key]; result := Raise e |}.
Proof.
  unfold Spec.provider_answer. intros Hanswer Hbad.
  unfold fetch_transcripts. unfold_script. rewrite Hanswer. cbv beta iota.
  destruct (status_code r =? 200) eqn:Hcode; cbv beta iota delta [negb].
  - destruct Hbad as [Hstatus | Henvelope].
    { apply Z.eqb_eq in Hcode. rewrite Hcode in Hstatus. discriminate. }
    unfold Spec.data_transcripts in Henvelope.
    unfold getitem_envelope.
    destruct (response_json r) as [[why|top]|e]; cbv beta iota.
    + eexists. reflexivity.
    + destruct (assoc "data" top) as [[why|data]|]; cbv beta iota.
      * eexists. reflexivity.
      * rewrite Henvelope. eexists. reflexivity.
      * eexists. reflexivity.
    + eexists. reflexivity.
  - eexists. reflexivity.
Qed.

Lemma fetch_transcripts_succeeds (w : world) (api_key : string) (r : response)
    (fetched : listing) (s : session_state) :
  Spec.provider_answer w api_key = Ok r ->
  status_code r = 200 ->
  Spec.data_transcripts r = Some fetched ->
  fetch_transcripts w api_key s
  = {| final := s; shown := [Spec.provider_asked api_key]; result := Ok fetched |}.
Proof.
  unfold Spec.provider_answer, Spec.data_transcripts. intros Hanswer Hcode Henvelope.
  unfold fetch_transcripts. unfold_script. rewrite Hanswer. cbv beta iota.
  rewrite Hcode. cbv beta iota delta [negb Z.eqb Z.compare Pos.compare Pos.compare_cont].
  unfold getitem_envelope.
  destruct (response_json r) as [[why|top]|e]; try discriminate.
  cbv beta iota.
  destruct (assoc "data" top) as [[why|data]|]; try discriminate.
  cbv beta iota. now rewrite Henvelope.
Qed.

Lemma refresh_transcripts_failed (w : world) (ui : ui_inputs) (e : exn)
    (s : session_state) :
  PyStr.truthy (fireflies_api_key ui) = true ->
  refresh_button ui = true ->
  fetch_transcripts w (fireflies_api_key ui) s
  = {| final := s; shown := [Spec.provider_asked (fireflies_api_key ui)];
       result := Raise e |} ->
  refresh_transcripts w ui s
  = {| final := s;
       shown := [St_spinner "Refreshing transcripts...";
                 Spec.provider_asked (fireflies_api_key ui);
                 St_error ("Error refreshing transcripts: " ++ exn_str e)];
       result := Ok tt |}.
Proof.
  intros Hkey Hbutton Hfetch. unfold refresh_transcripts. rewrite Hkey, Hbutton.
  unfold_script. rewrite Hfetch. reflexivity.
Qed.

Lemma refresh_transcripts_fetched (w : world) (ui : ui_inputs)
    (fetched : listing) (s : session_state) :
  PyStr.truthy (fireflies_api_key ui) = true ->
  refresh_button ui = true ->
  fetch_transcripts w (fireflies_api_key ui) s
  = {| final := s; shown := [Spec.provider_asked (fireflies_api_key ui)];
       result := Ok fetched |} ->
  refresh_transcripts w ui s
  = {| final := {| transcripts := fetched;
                   selected_transcript_id := selected_transcript_id s |};
       shown := [St_spinner "Refreshing transcripts...";
                 Spec.provider_asked (fireflies_api_key ui);
                 St_success "Transcripts refreshed successfully."];
       result := Ok tt |}.
Proof.
  intros Hkey Hbutton Hfetch. unfold refresh_transcripts. rewrite Hkey, Hbutton.
  unfold_script. rewrite Hfetch. reflexivity.
Qed.

(** On a true value that is no list, the list of identifiers is never
    built: what follows it in the selector is not reached. *)
Lemma ids_of_non_list_raises (v : non_list) :
  Py.truthy (json_of_non_list v) = true ->
  exists msg, ids_of_non_list v = Raise (TypeError msg).
Proof.
  unfold ids_of_non_list.
  destruct v as [|b|n|x|fields]; simpl; try discriminate; intros H;
    try (eexists; reflexivity).
  - destruct x as [|c r]; [discriminate|]. eexists. reflexivity.
  - destruct fields as [|[k v] rest]; [discriminate|]. eexists. reflexivity.
Qed.

(** On a value that is no list the generator yields no transcript: it
    raises the [TypeError] of the iteration or of the first subscript, or
    [StopIteration] on the empty string and the empty object. *)
Lemma next_with_id_unlisted (v : non_list) (selected : string) :
  (exists msg, next_with_id (Unlisted v) selected = Raise (TypeError msg))
  \/ next_with_id (Unlisted v) selected = Raise StopIteration.
Proof.
  unfold next_with_id, ids_of_non_list.
  destruct v as [|b|n|x|fields]; simpl; try (left; eexists; reflexivity).
  - destruct x as [|c r]; [right; reflexivity | left; eexists; reflexivity].
  - destruct fields as [|[k v] rest];
      [right; reflexivity | left; eexists; reflexivity].
Qed.

Lemma keeps_of_stateless {A : Type} (m : M A) : stateless m -> keeps_transcripts m.
Proof. intros H s. now rewrite H. Qed.

Lemma keeps_bind {A B : Type} (m : M A) (f : A -> M B) :
  keeps_transcripts m -> (forall a, keeps_transcripts (f a)) ->
  keeps_transcripts (bind m f).
Proof.
  intros Hm Hf s. unfold bind.
  destruct (result (m s)) as [a|e]; simpl.
  - now rewrite Hf, Hm.
  - apply Hm.
Qed.

(** What follows a step does not change the list the step leaves. *)
Lemma bind_keeps_after {A B : Type} (m : M A) (f : A -> M B) (s : session_state) :
  (forall a, keeps_transcripts (f a)) ->
  transcripts (final (bind m f s)) = transcripts (final (m s)).
Proof.
  intros Hf. unfold bind.
  destruct (result (m s)) as [a|e]; simpl; [apply Hf | reflexivity].
Qed.

Section Page.

Variable w : world.
Variable ui : ui_inputs.

Lemma show_analysis_stateless (prompt_type : string) (v1 v2 : json) :
  stateless (show_analysis w prompt_type v1 v2).
Proof. unfold show_analysis. stateless_tac. Qed.

Lemma mail_analysis_stateless (prompt_type : string) (t : transcript) (v1 v2 : json) :
  stateless (mail_analysis w ui prompt_type t v1 v2).
Proof.
  unfold mail_analysis. apply stateless_when.
  apply stateless_bind; [apply stateless_emit | intros _].
  apply stateless_bind; [apply stateless_lift | intros draft].
  apply stateless_bind; [apply stateless_lift | intros html].
  apply stateless_bind; [apply stateless_lift | intros subj].
  apply send_email_stateless.
Qed.

Lemma handle_analysis_stateless (prompt_type : string) :
  stateless (handle_analysis w ui prompt_type).
Proof.
  unfold handle_analysis. apply stateless_bind; [apply stateless_get_state|].
  intros s. destruct (selected_if_set s); [|apply stateless_ret].
  apply stateless_bind; [apply stateless_lift | intros t].
  apply stateless_bind; [apply stateless_emit | intros _].
  apply stateless_bind; [apply gpt4o_json_prompt_stateless | intros v1].
  apply stateless_bind; [apply generate_follow_up_email_stateless | intros v2].
  apply stateless_if; [|apply stateless_emit].
  apply stateless_bind; [apply show_analysis_stateless | intros _].
  apply mail_analysis_stateless.
Qed.

Lemma trigger_analysis_stateless : stateless (trigger_analysis w ui).
Proof.
  unfold trigger_analysis.
  repeat (apply stateless_bind; [|intros]);
    apply stateless_when; apply handle_analysis_stateless.
Qed.

Lemma show_transcript_stateless : stateless show_transcript.
Proof.
  unfold show_transcript. apply stateless_bind; [auto with script|]. intros s.
  destruct (selected_if_set s); stateless_tac.
Qed.

Lemma select_transcript_keeps : keeps_transcripts (select_transcript ui).
Proof.
  intros s. unfold select_transcript. unfold_script.
  destruct (transcripts s) as [[|t ts]|v] eqn:E; [now rewrite E| |].
  - destruct (PyStr.truthy (selectbox ui (map id (t :: ts)))); simpl; now rewrite ?E.
  - destruct (Py.truthy (json_of_non_list v)); [|now rewrite E].
    cbv beta iota. destruct (ids_of_non_list v); simpl; now rewrite E.
Qed.

Lemma check_api_key_run (s : session_state) :
  exists evs, runs (check_api_key w) s evs tt.
Proof.
  unfold check_api_key, runs.
  destruct (PyStr.truthy (OPENAI_API_KEY w)); eexists; reflexivity.
Qed.

(** After the refresh, nothing in the script writes the transcript list. *)
Lemma script_transcripts (s : session_state) :
  transcripts (final (script w ui s))
  = transcripts (final (refresh_transcripts w ui s)).
Proof.
  unfold script.
  rewrite bind_keeps_after.
  2:{ intros a. apply keeps_of_stateless.
      apply stateless_bind; [apply trigger_analysis_stateless | intros _].
      apply stateless_bind; [apply stateless_emit | intros _; apply stateless_emit]. }
  unfold page_top.
  destruct (check_api_key_run s) as [evs Hcheck].
  rewrite (bind_ok _ _ s tt) by now rewrite Hcheck.
  rewrite Hcheck. simpl final.
  apply bind_keeps_after. intros a.
  apply keeps_bind; [apply select_transcript_keeps|].
  intros a'. apply keeps_of_stateless, show_transcript_stateless.
Qed.

End Page.

(** C6 (amended). When the provider answers the refresh with a status that
    is not a success, or with a body that has nothing under
    [data.transcripts] (it is not JSON, or not an object, or has no [data],
    or [data] is not an object or has no [transcripts]), the fetch raises;
    the refresh then shows one error note with the text of the exception,
    raises nothing itself and leaves the session state as it was; and the
    transcript list is still the previous one when the script ends.  What
    lies under [data.transcripts] of an answer with status 200 is not
    checked: list or not ([null], say), the fetch returns it, the refresh
    stores it in place of the previous list and shows the success note, and
    the session holds it when the script ends. *)
Theorem failed_fetch_leaves_transcripts
    (w : world) (ui : ui_inputs) (r : response) (s : session_state) :
  PyStr.truthy (fireflies_api_key ui) = true ->
  refresh_button ui = true ->
  Spec.provider_answer w (fireflies_api_key ui) = Ok r ->
  (Spec.success_status (status_code r) = false \/ Spec.data_transcripts r = None ->
   exists e,
     result (fetch_transcripts w (fireflies_api_key ui) s) = Raise e
     /\ refresh_transcripts w ui s
        = {| final := s;
             shown := [St_spinner "Refreshing transcripts...";
                       Spec.provider_asked (fireflies_api_key ui);
                       St_error ("Error refreshing transcripts: " ++ exn_str e)];
             result := Ok tt |}
     /\ transcripts (final (script w ui s)) = transcripts s)
  /\ (forall under : listing,
        status_code r = 200 ->
        Spec.data_transcripts r = Some under ->
        fetch_transcripts w (fireflies_api_key ui) s
        = {| final := s; shown := [Spec.provider_asked (fireflies_api_key ui)];
             result := Ok under |}
        /\ refresh_transcripts w ui s
           = {| final := {| transcripts := under;
                            selected_transcript_id := selected_transcript_id s |};
                shown := [St_spinner "Refreshing transcripts...";
                          Spec.provider_asked (fireflies_api_key ui);
                          St_success "Transcripts refreshed successfully."];
                result := Ok tt |}
        /\ transcripts (final (script w ui s)) = under).
Proof.
  intros Hkey Hbutton Hanswer. split.
  - intros Hbad.
    destruct (fetch_transcripts_fails w _ r s Hanswer Hbad) as [e Hfetch].
    assert (Hrefresh := refresh_transcripts_failed w ui e s Hkey Hbutton Hfetch).
    exists e. split; [now rewrite Hfetch|]. split; [exact Hrefresh|].
    rewrite script_transcripts, Hrefresh. reflexivity.
  - intros under Hcode Hdata.
    assert (Hfetch := fetch_transcripts_succeeds w _ r under s Hanswer Hcode Hdata).
    assert (Hrefresh := refresh_transcripts_fetched w ui under s Hkey Hbutton Hfetch).
    split; [exact Hfetch|]. split; [exact Hrefresh|].
    rewrite script_transcripts, Hrefresh. reflexivity.
Qed.

(** ** The selection *)

Lemma find_by_id (selected : string) (ts : list transcript) :
  In selected (map id ts) ->
  exists t, next_with_id (Listed ts) selected = Ok t /\ In t ts /\ id t = selected.
Proof.
  unfold next_with_id. induction ts as [|t ts IH]; simpl; [tauto|].
  intros Hin. destruct (String.eqb_spec (id t) selected) as [Heq|Hne].
  - exists t. auto.
  - destruct Hin as [Heq|Hin]; [contradiction|].
    destruct (IH Hin) as (t' & Hfind & Hin' & Hid).
    exists t'. destruct (find _ ts); [|discriminate]. auto.
Qed.

Lemma refresh_transcripts_total (w : world) (ui : ui_inputs) (s : session_state) :
  result (refresh_transcripts w ui s) = Ok tt.
Proof.
  unfold refresh_transcripts.
  destruct (PyStr.truthy (fireflies_api_key ui) && refresh_button ui);
    [|reflexivity].
  unfold when. rewrite (bind_ok _ _ s tt) by reflexivity. simpl result.
  match goal with
  | |- result (try_except ?m _ ?h _) = _ =>
      destruct (total_try_except_any m h (fun e => total_emit _) s) as [[] H]
  end.
  exact H.
Qed.

(** The selector and the display on a list that is not empty, when the
    selector returns one of its options and the option is not the empty
    string. *)
Lemma select_and_show (ui : ui_inputs) (t : transcript) (s : session_state) :
  listed (transcripts s) <> [] ->
  PyStr.truthy (selectbox ui (map id (listed (transcripts s)))) = true ->
  next_with_id (transcripts s) (selectbox ui (map id (listed (transcripts s)))) = Ok t ->
  bind (select_transcript ui) (fun _ => show_transcript) s
  = {| final := {| transcripts := transcripts s;
                   selected_transcript_id :=
                     Some (selectbox ui (map id (listed (transcripts s)))) |};
       shown := [St_selectbox "Select Transcript" (map id (listed (transcripts s)))
                   (map (format_func (map id (listed (transcripts s)))
                           (map title (listed (transcripts s))))
                        (map id (listed (transcripts s))));
                 St_text_area "Transcript" (get_transcript_content t)];
       result := Ok tt |}.
Proof.
  intros Hne Htruthy Hnext.
  unfold select_transcript, show_transcript, selected_if_set.
  destruct (transcripts s) as [[|t0 ts]|v] eqn:E; simpl listed in *; [congruence| |congruence].
  unfold_script. rewrite E. cbv beta iota.
  rewrite Htruthy. cbv beta iota.
  cbv beta iota delta [selected_transcript_id transcripts].
  rewrite Htruthy, Hnext. reflexivity.
Qed.

(** C1 (amended). On every run of the page, refresh or not, when the
    transcript list after the refresh step is not empty and the selector
    returns one of its options, not the empty string: the selection is set to
    that option, whatever it was before (a stale identifier is replaced, not
    emptied); it is the identifier of a transcript of the list; and the
    display shows that transcript and raises nothing.  After a refresh that
    the provider answers with a list, the list is the one fetched. *)
Theorem selection_follows_the_selector
    (w : world) (ui : ui_inputs) (s : session_state) :
  listed (transcripts (final (refresh_transcripts w ui s))) <> [] ->
  In (selectbox ui (map id (listed (transcripts (final (refresh_transcripts w ui s))))))
     (map id (listed (transcripts (final (refresh_transcripts w ui s))))) ->
  PyStr.truthy
    (selectbox ui (map id (listed (transcripts (final (refresh_transcripts w ui s)))))) = true ->
  exists t before,
    In t (listed (transcripts (final (refresh_transcripts w ui s))))
    /\ id t = selectbox ui (map id (listed (transcripts (final (refresh_transcripts w ui s)))))
    /\ final (page_top w ui s)
       = {| transcripts := transcripts (final (refresh_transcripts w ui s));
            selected_transcript_id := Some (id t) |}
    /\ result (page_top w ui s) = Ok tt
    /\ shown (page_top w ui s)
       = (before ++ [St_text_area "Transcript" (get_transcript_content t)])%list
    /\ (forall r fetched,
          PyStr.truthy (fireflies_api_key ui) = true ->
          refresh_button ui = true ->
          Spec.provider_answer w (fireflies_api_key ui) = Ok r ->
          status_code r = 200 ->
          Spec.data_transcripts r = Some (Listed fetched) ->
          transcripts (final (refresh_transcripts w ui s)) = Listed fetched).
Proof.
  intros Hne Hin Htruthy.
  destruct (find_by_id _ _ Hin) as (t & Hnext & Hint & Hid).
  assert (Hlisted : Listed (listed (transcripts (final (refresh_transcripts w ui s))))
                    = transcripts (final (refresh_transcripts w ui s))).
  { destruct (transcripts (final (refresh_transcripts w ui s))) as [ts|v];
      [reflexivity | now elim Hne]. }
  rewrite Hlisted in Hnext.
  assert (Hpage := select_and_show ui t _ Hne Htruthy Hnext).
  destruct (check_api_key_run w s) as [evs Hcheck].
  assert (Hrun : page_top w ui s
    = {| final := {| transcripts := transcripts (final (refresh_transcripts w ui s));
                     selected_transcript_id := Some (id t) |};
         shown := ((evs ++ St_title "Fireflies Meeting Prototype"
                        :: shown (refresh_transcripts w ui s)
                    ++ [St_selectbox "Select Transcript"
                          (map id (listed (transcripts (final (refresh_transcripts w ui s)))))
                          (map (format_func
                                  (map id (listed (transcripts (final (refresh_transcripts w ui s)))))
                                  (map title (listed (transcripts (final (refresh_transcripts w ui s))))))
                             (map id (listed (transcripts (final (refresh_transcripts w ui s))))))])
                   ++ [St_text_area "Transcript" (get_transcript_content t)])%list;
         result := Ok tt |}).
  { unfold page_top.
    rewrite (bind_runs_then _ _ s evs tt Hcheck).
    rewrite (bind_runs_then _ _ s _ tt (runs_emit _ s)).
    rewrite (bind_ok (refresh_transcripts w ui) _ s tt
               (refresh_transcripts_total w ui s)).
    rewrite Hpage. simpl. rewrite Hid. f_equal.
    rewrite <- (app_assoc evs). simpl. rewrite <- app_assoc. reflexivity. }
  exists t. eexists. rewrite Hrun.
  split; [exact Hint|]. split; [exact Hid|]. split; [reflexivity|].
  split; [reflexivity|]. split; [reflexivity|].
  intros r fetched Hkey Hbutton Hanswer Hcode Hdata.
  rewrite (refresh_transcripts_fetched w ui (Listed fetched) s Hkey Hbutton
             (fetch_transcripts_succeeds w _ r (Listed fetched) s Hanswer Hcode Hdata)).
  reflexivity.
Qed.

(** ** The subject of the message *)

(** C3 (amended). For every category and selected transcript whose
    timestamp the library accepts (the local time of the instant, and of the
    instant a day earlier that the library probes, fall in the years 1 to
    9999), the subject is
    ["Meeting Analysis: {label} - {title} - {date} - Speakers: {names}"]:
    the label is the category key with spaces for underscores and capital
    initials; the date is the day of the timestamp on the local clock, year
    (not padded), month and day (two digits each), which is the UTC day when
    the local offset is zero; the names are the speakers as the set of them
    is iterated, each distinct name once, joined by a comma and a space.  The
    order of the names is that of the set, which need not be the order of
    first appearance. *)
Theorem subject_line_contents
    (w : world) (c : Category) (t : transcript) (local : Z * Z * Z) :
  set_iter_ok w (map speaker_name (sentences t)) ->
  Datetime.fromtimestamp (utcoffset w) (date t) = Ok local ->
  exists names,
    subject_line w (category_key c) t
    = Ok ("Meeting Analysis: " ++ label (category_key c) ++ " - " ++ title t
          ++ " - " ++ Datetime.strftime_Ymd local ++ " - Speakers: "
          ++ join ", " names)
    /\ NoDup names
    /\ (forall name, In name names
                     <-> exists u, In u (sentences t) /\ speaker_name u = name)
    /\ local = Datetime.civil_from_days
                 (Datetime.day_number (utcoffset w (date t)) (date t))
    /\ Datetime.year_in_range local = true
    /\ (utcoffset w (date t) = 0 ->
        Datetime.strftime_Ymd local = Spec.utc_date (date t)).
Proof.
  intros [Hnodup Hmem] Hlocal.
  exists (set_iter w (map speaker_name (sentences t))).
  assert (Hciv : local = Datetime.local_date (utcoffset w) (date t)
                 /\ Datetime.year_in_range local = true).
  { unfold Datetime.fromtimestamp in Hlocal.
    destruct (Datetime.year_in_range (Datetime.local_date (utcoffset w) (date t)))
      eqn:Hyear; [|discriminate].
    cbv beta iota zeta delta [negb] in Hlocal.
    destruct (Datetime.year_in_range _) in Hlocal; [|discriminate].
    cbv beta iota delta [negb] in Hlocal.
    destruct (_ <? 0) in Hlocal.
    - destruct (Datetime.year_in_range _) in Hlocal; [|discriminate].
      injection Hlocal as <-. now split.
    - injection Hlocal as <-. now split. }
  destruct Hciv as [Hciv Hyear].
  split; [|split; [exact Hnodup|split; [|split; [exact Hciv|split; [exact Hyear|]]]]].
  - unfold subject_line. rewrite Hlocal. reflexivity.
  - intros name. rewrite Hmem, in_map_iff.
    split; intros (u & H1 & H2); exists u; auto.
  - intros Hutc. rewrite Hciv. unfold Datetime.local_date. rewrite Hutc.
    unfold Spec.utc_date, Datetime.day_number.
    now rewrite Z.mul_0_r, Z.add_0_r.
Qed.

(** * The properties on concrete runs *)

(** C7 on the scenario of the specification: the request for the financial
    analysis of the kickoff meeting. *)
Lemma analysis_request_witness :
  PyStr.truthy (OPENAI_API_KEY Demo.happy) = true
  /\ exists prompt request rest system user,
       assoc (category_key financial) prompts = Some prompt
       /\ shown (gpt4o_json_prompt Demo.happy Demo.kickoff_text
                   (category_key financial) Demo.on_kickoff)
          = St_spinner "Analyzing transcript..." :: Chat_completion request :: rest
       /\ filter Spec.is_request rest = []
       /\ messages request = [system; user]
       /\ role system = "system" /\ role user = "user"
       /\ contains prompt (content user)
       /\ contains Demo.kickoff_text (content user).
Proof.
  split; [reflexivity|].
  exact (analysis_request_carries_prompt_and_transcript
           Demo.happy financial Demo.kickoff_text Demo.on_kickoff eq_refl).
Defined.

(** C8 in the world where the service answers both requests in prose. *)
Lemma undecodable_reply_witness :
  json_loads Demo.prose Demo.prose_text = Raise (JSONDecodeError "Expecting value")
  /\ gpt4o_json_prompt Demo.prose Demo.kickoff_text "financial" Demo.on_kickoff
     = {| final := Demo.on_kickoff;
          shown := [St_spinner "Analyzing transcript...";
                    Chat_completion
                      (analysis_request Templates.prompt_financial Demo.kickoff_text);
                    St_error ("Error decoding JSON: " ++ "Expecting value");
                    St_error ("Raw response: " ++ Demo.prose_text)];
          result := Ok JNull |}
  /\ generate_follow_up_email Demo.prose Demo.kickoff_text Demo.on_kickoff
     = {| final := Demo.on_kickoff;
          shown := [St_spinner "Generating follow-up email...";
                    Chat_completion (follow_up_request Demo.kickoff_text);
                    St_error ("Error decoding JSON for follow-up email: "
                              ++ "Expecting value");
                    St_error ("Raw response: " ++ Demo.prose_text)];
          result := Ok JNull |}.
Proof.
  assert (Hloads : json_loads Demo.prose Demo.prose_text
                   = Raise (JSONDecodeError "Expecting value"))
    by (vm_compute; reflexivity).
  destruct (undecodable_reply_is_reported Demo.prose Demo.kickoff_text "financial"
              Templates.prompt_financial Demo.prose_text "Expecting value"
              Demo.on_kickoff eq_refl eq_refl Hloads) as [H1 H2].
  split; [exact Hloads|].
  split; [apply H1 | apply H2]; reflexivity.
Defined.

(** C2, as stated, fails: the reply [{"summary":"S","details":[],
    "follow_up_suggestions":[]}] is valid JSON without [key_points]; the
    requester returns it decoded and reports no error, and
    [handle_analysis] raises [KeyError('key_points')]. *)
Lemma missing_key_points_raises :
  In "key_points" required_fields
  /\ has_field (JObj [("summary", JStr "S"); ("details", JArr []);
                      ("follow_up_suggestions", JArr [])]) "key_points" = false
  /\ json_loads Demo.incomplete Demo.incomplete_text
  = Ok (JObj [("summary", JStr "S"); ("details", JArr []);
              ("follow_up_suggestions", JArr [])])
  /\ result (gpt4o_json_prompt Demo.incomplete Demo.kickoff_text "financial"
               Demo.on_kickoff)
     = Ok (JObj [("summary", JStr "S"); ("details", JArr []);
                 ("follow_up_suggestions", JArr [])])
  /\ filter Spec.is_error
       (shown (gpt4o_json_prompt Demo.incomplete Demo.kickoff_text "financial"
                 Demo.on_kickoff)) = []
  /\ result (handle_analysis Demo.incomplete Demo.financial_pressed "financial"
               Demo.on_kickoff)
     = Raise (KeyError "key_points").
Proof.
  split; [right; left; reflexivity|].
  repeat split; vm_compute; reflexivity.
Qed.

(** C2 (amended) on the reply without [key_points]: it is returned as
    decoded, and the display stops after the title of the key points. *)
Lemma reply_missing_a_field_witness :
  In "key_points" required_fields
  /\ json_loads Demo.incomplete Demo.incomplete_text
     = Ok (Spec.without_field "key_points" (json_of_analysis Demo.analysis))
  /\ gpt4o_json_prompt Demo.incomplete (get_transcript_content Demo.kickoff)
       "financial" Demo.on_kickoff
     = {| final := Demo.on_kickoff;
          shown := [St_spinner "Analyzing transcript...";
                    Chat_completion
                      (analysis_request Templates.prompt_financial
                         (get_transcript_content Demo.kickoff))];
          result := Ok (Spec.without_field "key_points"
                          (json_of_analysis Demo.analysis)) |}
  /\ handle_analysis Demo.incomplete Demo.financial_pressed "financial" Demo.on_kickoff
     = {| final := Demo.on_kickoff;
          shown :=
            (progress_note "financial"
             :: [St_spinner "Analyzing transcript...";
                 Chat_completion
                   (analysis_request Templates.prompt_financial
                      (get_transcript_content Demo.kickoff))]
             ++ shown (generate_follow_up_email Demo.incomplete
                         (get_transcript_content Demo.kickoff) Demo.on_kickoff)
             ++ [St_write "## Financial Analysis";
                 St_write ("### Summary" ++ nl ++ "S");
                 St_write "### Key Points"])%list;
          result := Raise (KeyError "key_points") |}.
Proof.
  assert (Hkey : In "key_points" required_fields) by (right; left; reflexivity).
  assert (Hloads : json_loads Demo.incomplete Demo.incomplete_text
                   = Ok (Spec.without_field "key_points"
                           (json_of_analysis Demo.analysis)))
    by (vm_compute; reflexivity).
  assert (Hdraft : result (generate_follow_up_email Demo.incomplete
                             (get_transcript_content Demo.kickoff) Demo.on_kickoff)
                   = Ok (json_of_email Demo.draft))
    by (vm_compute; reflexivity).
  destruct (reply_missing_a_field_is_not_validated Demo.incomplete
              Demo.financial_pressed "financial" Templates.prompt_financial
              Demo.on_kickoff eq_refl eq_refl) as [Hany Hmissing].
  split; [exact Hkey|]. split; [exact Hloads|].
  split.
  - exact (Hany (get_transcript_content Demo.kickoff) Demo.incomplete_text _
             eq_refl Hloads).
  - exact (proj1 (Hmissing "a" "key_points" Demo.incomplete_text Demo.kickoff
                    Demo.analysis Demo.draft eq_refl eq_refl Hkey eq_refl Hloads
                    Hdraft)).
Defined.

(** C4 on the kickoff meeting: both replies in prose for the first part, a
    relay that drops the submission for the second. *)
Lemma partial_failure_witness :
  (filter Spec.is_output
     (shown (handle_analysis Demo.prose Demo.financial_pressed "financial"
               Demo.on_kickoff))
   = [progress_note "financial"]
   /\ filter Spec.is_mail
        (shown (handle_analysis Demo.prose Demo.financial_pressed "financial"
                  Demo.on_kickoff)) = []
   /\ result (handle_analysis Demo.prose Demo.financial_pressed "financial"
                Demo.on_kickoff) = Ok tt)
  /\ exists attempts,
       forallb Spec.is_mail attempts = true
       /\ handle_analysis Demo.relay_down Demo.financial_pressed "financial"
            Demo.on_kickoff
          = {| final := Demo.on_kickoff;
               shown :=
                 (progress_note "financial"
                  :: shown (gpt4o_json_prompt Demo.relay_down
                              (get_transcript_content Demo.kickoff) "financial"
                              Demo.on_kickoff)
                  ++ shown (generate_follow_up_email Demo.relay_down
                              (get_transcript_content Demo.kickoff) Demo.on_kickoff)
                  ++ analysis_lines "financial" Demo.analysis
                       (JStr (body Demo.draft))
                  ++ St_spinner "Sending email..." :: attempts
                  ++ [St_error ("Error sending email: "
                                ++ exn_str (Exception "Connection unexpectedly closed"))])%list;
               result := Ok tt |}.
Proof.
  split.
  - destruct (proj1 (partial_failure_policy Demo.prose Demo.financial_pressed
                       "financial" "a" Demo.kickoff Demo.on_kickoff eq_refl eq_refl)
                JNull JNull)
      as (Hrun & Hout & Hmail).
    + vm_compute; reflexivity.
    + vm_compute; reflexivity.
    + left; reflexivity.
    + split; [exact Hout|]. split; [exact Hmail|]. now rewrite Hrun.
  - apply (proj2 (partial_failure_policy Demo.relay_down Demo.financial_pressed
                    "financial" "a" Demo.kickoff Demo.on_kickoff eq_refl eq_refl)
             Demo.analysis Demo.draft
             "Meeting Analysis: Financial - Kickoff - 2023-11-14 - Speakers: Alice"
             (Exception "Connection unexpectedly closed"));
      vm_compute; reflexivity.
Defined.

(** C6, as stated, fails.  From the session that holds the kickoff meeting
    and has selected it: the provider answers the refresh with status 200
    and the body [{"data": {"transcripts": null}}], which has no list.  The
    fetch raises nothing and returns [None]; the refresh stores it over the
    list and shows the success note, no error; the list is gone when the
    script ends, which the display ends with a [TypeError]. *)
Lemma null_payload_overwrites_transcripts :
  Spec.provider_answer Demo.nulled "ff-key" = Demo.provider_null
  /\ result (fetch_transcripts Demo.nulled "ff-key" Demo.on_kickoff)
     = Ok (Unlisted NullValue)
  /\ refresh_transcripts Demo.nulled Demo.refresh_pressed Demo.on_kickoff
     = {| final := {| transcripts := Unlisted NullValue;
                      selected_transcript_id := Some "a" |};
          shown := [St_spinner "Refreshing transcripts...";
                    Spec.provider_asked "ff-key";
                    St_success "Transcripts refreshed successfully."];
          result := Ok tt |}
  /\ transcripts Demo.on_kickoff = Listed [Demo.kickoff]
  /\ transcripts (final (script Demo.nulled Demo.refresh_pressed Demo.on_kickoff))
     = Unlisted NullValue
  /\ filter Spec.is_error
       (shown (script Demo.nulled Demo.refresh_pressed Demo.on_kickoff)) = []
  /\ result (script Demo.nulled Demo.refresh_pressed Demo.on_kickoff)
     = Raise (TypeError (sq ++ "NoneType" ++ sq ++ " object is not iterable")).
Proof. repeat split; vm_compute; reflexivity. Qed.

(** C6 (amended) for a provider out of service (status 503), for a provider
    that answers 200 with a GraphQL error payload, and for one that answers
    200 with [null] for the list. *)
Lemma failed_fetch_witness :
  (Spec.success_status 503 = false
   /\ exists e,
        result (fetch_transcripts Demo.unavailable "ff-key" Demo.on_kickoff) = Raise e
        /\ refresh_transcripts Demo.unavailable Demo.refresh_pressed Demo.on_kickoff
           = {| final := Demo.on_kickoff;
                shown := [St_spinner "Refreshing transcripts...";
                          Spec.provider_asked "ff-key";
                          St_error ("Error refreshing transcripts: " ++ exn_str e)];
                result := Ok tt |}
        /\ transcripts (final (script Demo.unavailable Demo.refresh_pressed
                                 Demo.on_kickoff))
           = Listed [Demo.kickoff])
  /\ (exists e,
       result (fetch_transcripts Demo.answers_errors "ff-key" Demo.on_kickoff) = Raise e
       /\ refresh_transcripts Demo.answers_errors Demo.refresh_pressed Demo.on_kickoff
          = {| final := Demo.on_kickoff;
               shown := [St_spinner "Refreshing transcripts...";
                         Spec.provider_asked "ff-key";
                         St_error ("Error refreshing transcripts: " ++ exn_str e)];
               result := Ok tt |}
       /\ transcripts (final (script Demo.answers_errors Demo.refresh_pressed
                                Demo.on_kickoff))
          = Listed [Demo.kickoff])
  /\ transcripts (final (script Demo.nulled Demo.refresh_pressed Demo.on_kickoff))
     = Unlisted NullValue.
Proof.
  split; [split; [reflexivity|]|split].
  - exact (proj1 (failed_fetch_leaves_transcripts Demo.unavailable Demo.refresh_pressed
                    {| status_code := 503;
                       response_json := Raise (JSONDecodeError "Expecting value") |}
                    Demo.on_kickoff eq_refl eq_refl eq_refl) (or_introl eq_refl)).
  - refine (proj1 (failed_fetch_leaves_transcripts Demo.answers_errors
                     Demo.refresh_pressed _ Demo.on_kickoff eq_refl eq_refl eq_refl)
              (or_intror _)).
    reflexivity.
  - refine (proj2 (proj2 (proj2 (failed_fetch_leaves_transcripts Demo.nulled
                     Demo.refresh_pressed _ Demo.on_kickoff eq_refl eq_refl eq_refl)
              (Unlisted NullValue) eq_refl eq_refl))).
Defined.

(** C1, as stated, fails.  From the session that has selected the
    transcript "a": when the refresh brings an empty list, the selection
    stays "a", which the list does not hold, and the display raises
    [StopIteration]; when it brings a list with the one transcript "b", the
    selection becomes "b" (it is not emptied) and the display shows that
    transcript. *)
Lemma stale_selection_after_refresh :
  (final (page_top Demo.emptied Demo.refresh_pressed Demo.on_kickoff)
   = {| transcripts := Listed []; selected_transcript_id := Some "a" |}
   /\ ~ In "a" (map id (listed (transcripts (final (page_top Demo.emptied
                                             Demo.refresh_pressed Demo.on_kickoff)))))
   /\ result (page_top Demo.emptied Demo.refresh_pressed Demo.on_kickoff)
      = Raise StopIteration)
  /\ final (page_top Demo.renewed Demo.refresh_pressed Demo.on_kickoff)
     = {| transcripts := Listed [Demo.review]; selected_transcript_id := Some "b" |}
  /\ In (St_text_area "Transcript" (get_transcript_content Demo.review))
        (shown (page_top Demo.renewed Demo.refresh_pressed Demo.on_kickoff)).
Proof.
  split; [split; [|split]|split]; try (vm_compute; reflexivity).
  - vm_compute. tauto.
  - vm_compute. do 5 right. left. reflexivity.
Qed.

(** C1 (amended) on a refresh that replaces the list that held "a" by a
    list that holds only "b". *)
Lemma selection_witness :
  transcripts (final (refresh_transcripts Demo.renewed Demo.refresh_pressed
                        Demo.on_kickoff)) = Listed [Demo.review]
  /\ final (page_top Demo.renewed Demo.refresh_pressed Demo.on_kickoff)
     = {| transcripts := Listed [Demo.review]; selected_transcript_id := Some "b" |}
  /\ result (page_top Demo.renewed Demo.refresh_pressed Demo.on_kickoff) = Ok tt.
Proof.
  assert (H1 : listed (transcripts (final (refresh_transcripts Demo.renewed
                                     Demo.refresh_pressed Demo.on_kickoff))) <> [])
    by (vm_compute; discriminate).
  assert (H2 : In (selectbox Demo.refresh_pressed
                     (map id (listed (transcripts (final (refresh_transcripts
                        Demo.renewed Demo.refresh_pressed Demo.on_kickoff))))))
                  (map id (listed (transcripts (final (refresh_transcripts
                        Demo.renewed Demo.refresh_pressed Demo.on_kickoff))))))
    by (vm_compute; left; reflexivity).
  destruct (selection_follows_the_selector Demo.renewed Demo.refresh_pressed
              Demo.on_kickoff H1 H2 eq_refl)
    as (t & before & Hin & Hid & Hfinal & Hres & Hshown & Hfetched).
  split; [vm_compute; reflexivity|]. split; [|exact Hres].
  rewrite Hfinal, Hid. vm_compute. reflexivity.
Defined.

(** C3, as stated, fails.  For the transcript of 2023-11-14 22:13:20 UTC in
    which Alice speaks, then Bob, then Alice: on a UTC clock with the set
    iterated in order of first appearance the subject ends in
    [2023-11-14 - Speakers: Alice, Bob]; on a clock two hours east, with the
    set iterated the other way round, it ends in
    [2023-11-15 - Speakers: Bob, Alice].  The subject is no function of the
    transcript and the category alone, its date is not the UTC day and its
    names are not in order of first appearance. *)
Lemma subject_line_is_local_and_unordered :
  subject_line Demo.renewed "action_items" Demo.review
  = Ok "Meeting Analysis: Action Items - Review - 2023-11-14 - Speakers: Alice, Bob"
  /\ subject_line Demo.east "action_items" Demo.review
     = Ok "Meeting Analysis: Action Items - Review - 2023-11-15 - Speakers: Bob, Alice"
  /\ Spec.utc_date (date Demo.review) = "2023-11-14"
  /\ Spec.first_appearance [] (map speaker_name (sentences Demo.review))
     = ["Alice"; "Bob"]
  /\ set_iter_ok Demo.renewed (map speaker_name (sentences Demo.review))
  /\ set_iter_ok Demo.east (map speaker_name (sentences Demo.review)).
Proof.
  repeat split; try (vm_compute; reflexivity);
    try (repeat constructor; simpl; intuition discriminate);
    simpl; intuition.
Qed.

(** C3 (amended) on a clock two hours east of UTC. *)
Lemma subject_line_witness :
  set_iter_ok Demo.east (map speaker_name (sentences Demo.review))
  /\ exists names,
       subject_line Demo.east (category_key action_items) Demo.review
       = Ok ("Meeting Analysis: " ++ label (category_key action_items) ++ " - "
             ++ title Demo.review ++ " - " ++ Datetime.strftime_Ymd (2023, 11, 15)
             ++ " - Speakers: " ++ join ", " names)
       /\ NoDup names
       /\ (forall name, In name names
                        <-> exists u, In u (sentences Demo.review)
                                      /\ speaker_name u = name)
       /\ (2023, 11, 15)
          = Datetime.civil_from_days
              (Datetime.day_number (utcoffset Demo.east (date Demo.review))
                 (date Demo.review))
       /\ Datetime.year_in_range (2023, 11, 15) = true
       /\ (utcoffset Demo.east (date Demo.review) = 0 ->
           Datetime.strftime_Ymd (2023, 11, 15) = Spec.utc_date (date Demo.review)).
Proof.
  assert (Hset : set_iter_ok Demo.east (map speaker_name (sentences Demo.review))).
  { split.
    - repeat constructor; simpl; intuition discriminate.
    - intros name. simpl. intuition. }
  split; [exact Hset|].
  apply (subject_line_contents Demo.east action_items Demo.review (2023, 11, 15) Hset).
  vm_compute. reflexivity.
Defined.

(** * Further properties of the script *)

(** ** What a piece of the script shows *)

Lemma shows_ret {A : Type} (P : event -> bool) (a : A) : shows P (ret a).
Proof. now intros s. Qed.

Lemma shows_raise {A : Type} (P : event -> bool) (e : exn) : shows P (@raise A e).
Proof. now intros s. Qed.

Lemma shows_lift {A : Type} (P : event -> bool) (x : py A) : shows P (lift x).
Proof. now intros s. Qed.

Lemma shows_get_state (P : event -> bool) : shows P get_state.
Proof. now intros s. Qed.

Lemma shows_put_state (P : event -> bool) (s' : session_state) : shows P (put_state s').
Proof. now intros s. Qed.

Lemma shows_call (P : event -> bool) (o : option exn) : shows P (call o).
Proof. destruct o; now intros s. Qed.

Lemma shows_emit (P : event -> bool) (ev : event) : P ev = true -> shows P (emit ev).
Proof. intros H s. simpl. now rewrite H. Qed.

Lemma shows_bind {A B : Type} (P : event -> bool) (m : M A) (f : A -> M B) :
  shows P m -> (forall a, shows P (f a)) -> shows P (bind m f).
Proof.
  intros Hm Hf s. unfold bind.
  destruct (result (m s)) as [a|e]; simpl.
  - now rewrite forallb_app, Hm, Hf.
  - apply Hm.
Qed.

Lemma shows_try_except {A : Type} (P : event -> bool) (m : M A)
    (caught : exn -> bool) (handler : exn -> M A) :
  shows P m -> (forall e, shows P (handler e)) -> shows P (try_except m caught handler).
Proof.
  intros Hm Hh s. unfold try_except.
  destruct (result (m s)) as [a|e]; [apply Hm|].
  destruct (caught e); simpl; [|apply Hm].
  now rewrite forallb_app, Hm, Hh.
Qed.

Lemma shows_when (P : event -> bool) (b : bool) (m : M unit) :
  shows P m -> shows P (when b m).
Proof. destruct b; simpl; [tauto | intros _; apply shows_ret]. Qed.

Lemma shows_if {A : Type} (P : event -> bool) (b : bool) (m1 m2 : M A) :
  shows P m1 -> shows P m2 -> shows P (if b then m1 else m2).
Proof. now destruct b. Qed.

Lemma shows_for_each {A : Type} (P : event -> bool) (items : list A)
    (body : A -> M unit) :
  (forall x, shows P (body x)) -> shows P (for_each items body).
Proof.
  intros Hbody. induction items as [|x items IH]; simpl.
  - apply shows_ret.
  - apply shows_bind; auto.
Qed.

Lemma shows_with_smtp_server (P : event -> bool) (w : world) (block : M unit) :
  shows P block -> shows P (with_smtp_server w block).
Proof.
  intros H s. unfold with_smtp_server. destruct (smtp_quit w); simpl; apply H.
Qed.

Lemma filter_none (f : event -> bool) (evs : list event) :
  forallb (fun ev => negb (f ev)) evs = true -> filter f evs = [].
Proof.
  induction evs as [|ev evs IH]; simpl; [reflexivity|].
  intros H. apply andb_true_iff in H as [Hev Hevs].
  apply negb_true_iff in Hev. rewrite Hev. now apply IH.
Qed.

Ltac shows_tac :=
  repeat (intros;
          first [ apply shows_ret | apply shows_raise | apply shows_lift
                | apply shows_get_state | apply shows_put_state | apply shows_call
                | apply shows_emit; reflexivity
                | apply shows_bind | apply shows_try_except | apply shows_when
                | apply shows_for_each | apply shows_if
                | apply shows_with_smtp_server ]).

Section Shows.

Variable w : world.
Variable ui : ui_inputs.

(** The requesters, the display of an analysis and the display of a
    transcript send no mail and ask the provider nothing; neither the
    display nor the mail asks the completion service anything. *)
Lemma gpt4o_json_prompt_shows (P : event -> bool) (text prompt_type : string) :
  (forall x, P (St_spinner x) = true) -> (forall x, P (St_error x) = true) ->
  (forall r, P (Chat_completion r) = true) ->
  shows P (gpt4o_json_prompt w text prompt_type).
Proof.
  intros H1 H2 H3. unfold gpt4o_json_prompt.
  repeat (intros; first [ apply shows_bind | apply shows_try_except
                        | apply shows_lift | apply shows_ret
                        | apply shows_emit; auto ]).
Qed.

Lemma generate_follow_up_email_shows (P : event -> bool) (text : string) :
  (forall x, P (St_spinner x) = true) -> (forall x, P (St_error x) = true) ->
  (forall r, P (Chat_completion r) = true) ->
  shows P (generate_follow_up_email w text).
Proof.
  intros H1 H2 H3. unfold generate_follow_up_email.
  repeat (intros; first [ apply shows_bind | apply shows_try_except
                        | apply shows_lift | apply shows_ret
                        | apply shows_emit; auto ]).
Qed.

Lemma show_analysis_shows (P : event -> bool) (prompt_type : string) (v1 v2 : json) :
  (forall x, P (St_write x) = true) -> (forall v, P (St_markdown v) = true) ->
  shows P (show_analysis w prompt_type v1 v2).
Proof.
  intros H1 H2. unfold show_analysis.
  repeat (intros; first [ apply shows_bind | apply shows_for_each
                        | apply shows_lift | apply shows_emit; auto ]).
Qed.

Lemma send_email_shows (P : event -> bool) (recipient subject html : string) :
  (forall ev, Spec.is_mail ev = true -> P ev = true) ->
  (forall x, P (St_success x) = true) -> (forall x, P (St_error x) = true) ->
  shows P (send_email w recipient subject html).
Proof.
  intros H1 H2 H3. unfold send_email.
  repeat (intros; first [ apply shows_bind | apply shows_try_except
                        | apply shows_with_smtp_server | apply shows_call
                        | apply shows_lift | apply shows_emit; auto ]).
Qed.

Lemma mail_analysis_shows (P : event -> bool) (prompt_type : string) (t : transcript)
    (v1 v2 : json) :
  (forall ev, Spec.is_mail ev = true -> P ev = true) ->
  (forall x, P (St_success x) = true) -> (forall x, P (St_error x) = true) ->
  (forall x, P (St_spinner x) = true) ->
  shows P (mail_analysis w ui prompt_type t v1 v2).
Proof.
  intros H1 H2 H3 H4. unfold mail_analysis. apply shows_when.
  apply shows_bind; [apply shows_emit; auto | intros _].
  apply shows_bind; [apply shows_lift | intros draft].
  apply shows_bind; [apply shows_lift | intros html].
  apply shows_bind; [apply shows_lift | intros subj].
  now apply send_email_shows.
Qed.

Lemma mail_analysis_off (prompt_type : string) (t : transcript) (v1 v2 : json) :
  auto_email ui && PyStr.truthy (email ui) = false ->
  mail_analysis w ui prompt_type t v1 v2 = ret tt.
Proof. intros H. unfold mail_analysis. now rewrite H. Qed.

Lemma fetch_transcripts_shows (P : event -> bool) (api_key : string) :
  (forall a b c d, P (Http_post a b c d) = true) ->
  shows P (fetch_transcripts w api_key).
Proof.
  intros H. unfold fetch_transcripts.
  apply shows_bind; [apply shows_emit; auto | intros _].
  apply shows_bind; [apply shows_lift | intros r].
  apply shows_if; [apply shows_raise|].
  repeat (intros; first [apply shows_bind | apply shows_lift]).
Qed.

Lemma refresh_transcripts_shows (P : event -> bool) :
  (forall a b c d, P (Http_post a b c d) = true) ->
  (forall x, P (St_spinner x) = true) -> (forall x, P (St_error x) = true) ->
  (forall x, P (St_success x) = true) ->
  shows P (refresh_transcripts w ui).
Proof.
  intros H1 H2 H3 H4. unfold refresh_transcripts. apply shows_when.
  apply shows_bind; [apply shows_emit; auto | intros _].
  apply shows_try_except; [|intros e; apply shows_emit; auto].
  apply shows_bind; [now apply fetch_transcripts_shows | intros fetched].
  apply shows_bind; [apply shows_get_state | intros s].
  apply shows_bind; [apply shows_put_state | intros _].
  apply shows_emit; auto.
Qed.

Lemma refresh_transcripts_off (s : session_state) :
  PyStr.truthy (fireflies_api_key ui) && refresh_button ui = false ->
  refresh_transcripts w ui s = {| final := s; shown := []; result := Ok tt |}.
Proof. intros H. unfold refresh_transcripts. now rewrite H. Qed.

Lemma select_transcript_shows (P : event -> bool) :
  (forall a b c, P (St_selectbox a b c) = true) -> shows P (select_transcript ui).
Proof.
  intros H. unfold select_transcript.
  apply shows_bind; [apply shows_get_state | intros s].
  destruct (transcripts s) as [[|t ts]|v]; [apply shows_ret| |].
  - apply shows_bind; [apply shows_emit; auto | intros _].
    apply shows_when, shows_put_state.
  - apply shows_when.
    apply shows_bind; [apply shows_lift | intros _; apply shows_ret].
Qed.

Lemma show_transcript_shows (P : event -> bool) :
  (forall a b, P (St_text_area a b) = true) -> shows P show_transcript.
Proof.
  intros H. unfold show_transcript.
  apply shows_bind; [apply shows_get_state | intros s].
  destruct (selected_if_set s); [|apply shows_ret].
  apply shows_bind; [apply shows_lift | intros t].
  apply shows_emit; auto.
Qed.

Lemma check_api_key_shows (P : event -> bool) :
  (forall x, P (St_error x) = true) -> shows P (check_api_key w).
Proof. intros H. unfold check_api_key. apply shows_when, shows_emit; auto. Qed.

(** [handle_analysis] by what its parts show. *)
Lemma handle_analysis_shows (P : event -> bool) (prompt_type : string) :
  (forall x, P (St_write x) = true) ->
  (forall x, P (St_error x) = true) ->
  (forall text, shows P (gpt4o_json_prompt w text prompt_type)) ->
  (forall text, shows P (generate_follow_up_email w text)) ->
  (forall v1 v2, shows P (show_analysis w prompt_type v1 v2)) ->
  (forall t v1 v2, shows P (mail_analysis w ui prompt_type t v1 v2)) ->
  shows P (handle_analysis w ui prompt_type).
Proof.
  intros Hw He H1 H2 H3 H4. unfold handle_analysis.
  apply shows_bind; [apply shows_get_state | intros s].
  destruct (selected_if_set s); [|apply shows_ret].
  apply shows_bind; [apply shows_lift | intros t].
  apply shows_bind; [apply shows_emit; auto | intros _].
  apply shows_bind; [apply H1 | intros v1].
  apply shows_bind; [apply H2 | intros v2].
  apply shows_if; [|apply shows_emit; apply He].
  apply shows_bind; [apply H3 | intros _]. apply H4.
Qed.

Lemma trigger_analysis_shows (P : event -> bool) :
  (forall prompt_type, shows P (handle_analysis w ui prompt_type)) ->
  shows P (trigger_analysis w ui).
Proof.
  intros H. unfold trigger_analysis.
  repeat (apply shows_bind; [|intros _]); apply shows_when; apply H.
Qed.

Lemma script_shows (P : event -> bool) :
  (forall x, P (St_error x) = true) ->
  (forall x, P (St_title x) = true) ->
  (forall v, P (St_markdown v) = true) ->
  (forall a b c, P (St_selectbox a b c) = true) ->
  (forall a b, P (St_text_area a b) = true) ->
  shows P (refresh_transcripts w ui) ->
  shows P (trigger_analysis w ui) ->
  shows P (script w ui).
Proof.
  intros He Ht Hm Hs Ha Hrefresh Htrigger. unfold script, page_top.
  apply shows_bind.
  - apply shows_bind; [now apply check_api_key_shows | intros _].
    apply shows_bind; [apply shows_emit; auto | intros _].
    apply shows_bind; [exact Hrefresh | intros _].
    apply shows_bind; [now apply select_transcript_shows | intros _].
    now apply show_transcript_shows.
  - intros _. apply shows_bind; [exact Htrigger | intros _].
    apply shows_bind; [apply shows_emit; auto | intros _].
    apply shows_emit; auto.
Qed.

End Shows.

(** ** The refresh *)

(** X1. When the provider answers the refresh with status 200 and a body
    that carries a list under [data.transcripts], the fetch has asked the
    provider once (the query with limit 10 and the key as bearer token) and
    returns that list as it is; the refresh stores it in the session, leaves
    the selection as it was and shows the success note; and the list is the
    one the session holds when the script ends, whatever follows. *)
Theorem refresh_stores_fetched_list
    (w : world) (ui : ui_inputs) (r : response) (fetched : list transcript)
    (s : session_state) :
  PyStr.truthy (fireflies_api_key ui) = true ->
  refresh_button ui = true ->
  Spec.provider_answer w (fireflies_api_key ui) = Ok r ->
  status_code r = 200 ->
  Spec.data_transcripts r = Some (Listed fetched) ->
  fetch_transcripts w (fireflies_api_key ui) s
  = {| final := s;
       shown := [Http_post "https://api.fireflies.ai/graphql" Templates.query 10
                   [("Content-Type", "application/json");
                    ("Authorization", "Bearer " ++ fireflies_api_key ui)]];
       result := Ok (Listed fetched) |}
  /\ refresh_transcripts w ui s
     = {| final := {| transcripts := Listed fetched;
                      selected_transcript_id := selected_transcript_id s |};
          shown := [St_spinner "Refreshing transcripts...";
                    Spec.provider_asked (fireflies_api_key ui);
                    St_success "Transcripts refreshed successfully."];
          result := Ok tt |}
  /\ transcripts (final (script w ui s)) = Listed fetched.
Proof.
  intros Hkey Hbutton Hanswer Hcode Hdata.
  assert (Hfetch := fetch_transcripts_succeeds w _ r (Listed fetched) s Hanswer Hcode Hdata).
  assert (Hrefresh := refresh_transcripts_fetched w ui (Listed fetched) s Hkey Hbutton Hfetch).
  split; [exact Hfetch|]. split; [exact Hrefresh|].
  rewrite script_transcripts, Hrefresh. reflexivity.
Qed.

Lemma refresh_stores_fetched_list_witness :
  Spec.data_transcripts
    {| status_code := 200;
       response_json := Ok (Object [("data", Object [("transcripts", Listed [Demo.review])])]) |}
  = Some (Listed [Demo.review])
  /\ refresh_transcripts Demo.renewed Demo.refresh_pressed Demo.on_kickoff
     = {| final := {| transcripts := Listed [Demo.review];
                      selected_transcript_id := Some "a" |};
          shown := [St_spinner "Refreshing transcripts...";
                    Spec.provider_asked "ff-key";
                    St_success "Transcripts refreshed successfully."];
          result := Ok tt |}
  /\ transcripts (final (script Demo.renewed Demo.refresh_pressed Demo.on_kickoff))
     = Listed [Demo.review].
Proof.
  split; [reflexivity|].
  exact (proj2 (refresh_stores_fetched_list Demo.renewed Demo.refresh_pressed
                  {| status_code := 200;
                     response_json :=
                       Ok (Object [("data", Object [("transcripts", Listed [Demo.review])])]) |}
                  [Demo.review] Demo.on_kickoff eq_refl eq_refl eq_refl eq_refl
                  eq_refl)).
Defined.

(** X2. Every status other than 200 makes the fetch raise, 201 to 299
    included, whatever the body: the exception is
    [Exception("API request failed with status code N")], the body is not
    read, and the refresh reports it and keeps the session as it was. *)
Theorem fetch_rejects_any_status_but_200
    (w : world) (ui : ui_inputs) (r : response) (s : session_state) :
  PyStr.truthy (fireflies_api_key ui) = true ->
  refresh_button ui = true ->
  Spec.provider_answer w (fireflies_api_key ui) = Ok r ->
  status_code r <> 200 ->
  fetch_transcripts w (fireflies_api_key ui) s
  = {| final := s; shown := [Spec.provider_asked (fireflies_api_key ui)];
       result := Raise (Exception ("API request failed with status code "
                                   ++ of_Z (status_code r))) |}
  /\ refresh_transcripts w ui s
     = {| final := s;
          shown := [St_spinner "Refreshing transcripts...";
                    Spec.provider_asked (fireflies_api_key ui);
                    St_error ("Error refreshing transcripts: "
                              ++ "API request failed with status code "
                              ++ of_Z (status_code r))];
          result := Ok tt |}.
Proof.
  intros Hkey Hbutton Hanswer Hcode.
  assert (Hfetch : fetch_transcripts w (fireflies_api_key ui) s
    = {| final := s; shown := [Spec.provider_asked (fireflies_api_key ui)];
         result := Raise (Exception ("API request failed with status code "
                                     ++ of_Z (status_code r))) |}).
  { unfold Spec.provider_answer in Hanswer.
    unfold fetch_transcripts. unfold_script. rewrite Hanswer. cbv beta iota.
    apply Z.eqb_neq in Hcode. rewrite Hcode. reflexivity. }
  split; [exact Hfetch|].
  exact (refresh_transcripts_failed w ui _ s Hkey Hbutton Hfetch).
Qed.

Lemma fetch_rejects_204_witness :
  Spec.success_status (status_code Cases.no_content) = true
  /\ Spec.data_transcripts Cases.no_content = Some (Listed [Demo.kickoff])
  /\ refresh_transcripts Cases.answers_204 Demo.refresh_pressed Demo.on_kickoff
     = {| final := Demo.on_kickoff;
          shown := [St_spinner "Refreshing transcripts...";
                    Spec.provider_asked "ff-key";
                    St_error ("Error refreshing transcripts: "
                              ++ "API request failed with status code "
                              ++ of_Z 204)];
          result := Ok tt |}.
Proof.
  split; [reflexivity|]. split; [reflexivity|].
  refine (proj2 (fetch_rejects_any_status_but_200 Cases.answers_204
                   Demo.refresh_pressed Cases.no_content Demo.on_kickoff
                   eq_refl eq_refl eq_refl _)).
  vm_compute. discriminate.
Defined.

(** X3. When the request to the provider itself raises (no connection,
    say), the refresh shows one error note with the text of the exception,
    raises nothing and keeps the session as it was. *)
Theorem refresh_reports_transport_error
    (w : world) (ui : ui_inputs) (e : exn) (s : session_state) :
  PyStr.truthy (fireflies_api_key ui) = true ->
  refresh_button ui = true ->
  Spec.provider_answer w (fireflies_api_key ui) = Raise e ->
  refresh_transcripts w ui s
  = {| final := s;
       shown := [St_spinner "Refreshing transcripts...";
                 Spec.provider_asked (fireflies_api_key ui);
                 St_error ("Error refreshing transcripts: " ++ exn_str e)];
       result := Ok tt |}.
Proof.
  intros Hkey Hbutton Hanswer.
  apply (refresh_transcripts_failed w ui e s Hkey Hbutton).
  unfold Spec.provider_answer in Hanswer.
  unfold fetch_transcripts. unfold_script. now rewrite Hanswer.
Qed.

Lemma refresh_reports_transport_error_witness :
  refresh_transcripts Cases.unreachable Demo.refresh_pressed Demo.on_kickoff
  = {| final := Demo.on_kickoff;
       shown := [St_spinner "Refreshing transcripts...";
                 Spec.provider_asked "ff-key";
                 St_error ("Error refreshing transcripts: "
                           ++ exn_str (Exception "Connection refused"))];
       result := Ok tt |}.
Proof.
  exact (refresh_reports_transport_error Cases.unreachable Demo.refresh_pressed
           (Exception "Connection refused") Demo.on_kickoff eq_refl eq_refl eq_refl).
Defined.

(** ** The analysis action, further *)

(** X4. Without an API key for the completion service the client does not
    exist: the page shows the start-up error, and an analysis action on a
    selected transcript asks the service nothing; each requester reports the
    [NameError] and the action ends with the note of failure, nothing
    raised. *)
Theorem analysis_without_api_key
    (w : world) (ui : ui_inputs) (prompt_type selected : string) (t : transcript)
    (s : session_state) :
  PyStr.truthy (OPENAI_API_KEY w) = false ->
  selected_if_set s = Some selected ->
  next_with_id (transcripts s) selected = Ok t ->
  check_api_key w s
  = {| final := s;
       shown := [St_error "OpenAI API key is not set in the environment variables."];
       result := Ok tt |}
  /\ handle_analysis w ui prompt_type s
     = {| final := s;
          shown := [progress_note prompt_type;
                    St_spinner "Analyzing transcript...";
                    St_error ("An error occurred while analyzing the transcript: "
                              ++ exn_str (NameError "client"));
                    St_spinner "Generating follow-up email...";
                    St_error ("An error occurred while generating the follow-up email: "
                              ++ exn_str (NameError "client"));
                    failed_note];
          result := Ok tt |}.
Proof.
  intros Hkey Hsel Hnext. split.
  - unfold check_api_key. now rewrite Hkey.
  - assert (H1 : gpt4o_json_prompt w (get_transcript_content t) prompt_type s
      = {| final := s;
           shown := [St_spinner "Analyzing transcript...";
                     St_error ("An error occurred while analyzing the transcript: "
                               ++ exn_str (NameError "client"))];
           result := Ok JNull |}).
    { unfold gpt4o_json_prompt, client. now rewrite Hkey. }
    assert (H2 : generate_follow_up_email w (get_transcript_content t) s
      = {| final := s;
           shown := [St_spinner "Generating follow-up email...";
                     St_error ("An error occurred while generating the follow-up email: "
                               ++ exn_str (NameError "client"))];
           result := Ok JNull |}).
    { unfold generate_follow_up_email, client. now rewrite Hkey. }
    rewrite (handle_analysis_run w ui prompt_type selected t JNull JNull s Hsel Hnext)
      by (now rewrite ?H1, ?H2).
    rewrite H1, H2. reflexivity.
Qed.

Lemma analysis_without_api_key_witness :
  handle_analysis Cases.keyless Demo.financial_pressed "financial" Demo.on_kickoff
  = {| final := Demo.on_kickoff;
       shown := [progress_note "financial";
                 St_spinner "Analyzing transcript...";
                 St_error ("An error occurred while analyzing the transcript: "
                           ++ exn_str (NameError "client"));
                 St_spinner "Generating follow-up email...";
                 St_error ("An error occurred while generating the follow-up email: "
                           ++ exn_str (NameError "client"));
                 failed_note];
       result := Ok tt |}.
Proof.
  exact (proj2 (analysis_without_api_key Cases.keyless Demo.financial_pressed
                  "financial" "a" Demo.kickoff Demo.on_kickoff
                  eq_refl eq_refl eq_refl)).
Defined.

Lemma gpt4o_json_prompt_requests (w : world) (text prompt_type prompt : string)
    (s : session_state) :
  PyStr.truthy (OPENAI_API_KEY w) = true ->
  prompts_getitem prompt_type = Ok prompt ->
  filter Spec.is_request (shown (gpt4o_json_prompt w text prompt_type s))
  = [Chat_completion (analysis_request prompt text)].
Proof.
  intros Hkey Hprompt.
  rewrite (gpt4o_json_prompt_run w Hkey text _ prompt s Hprompt). cbv zeta.
  destruct (chat_completions_create w (analysis_request prompt text)) as [reply|e];
    [|reflexivity].
  destruct (json_loads w reply) as [v|[]]; reflexivity.
Qed.

Lemma generate_follow_up_email_requests (w : world) (text : string) (s : session_state) :
  PyStr.truthy (OPENAI_API_KEY w) = true ->
  filter Spec.is_request (shown (generate_follow_up_email w text s))
  = [Chat_completion (follow_up_request text)].
Proof.
  intros Hkey.
  rewrite (generate_follow_up_email_run w Hkey text s). cbv zeta.
  destruct (chat_completions_create w (follow_up_request text)) as [reply|e];
    [|reflexivity].
  destruct (json_loads w reply) as [v|[]]; reflexivity.
Qed.

Lemma contains_utterance (t : transcript) (u : sentence) :
  In u (sentences t) ->
  contains (speaker_name u ++ ": " ++ text u) (get_transcript_content t).
Proof.
  intros Hin. unfold get_transcript_content. apply contains_join.
  apply (in_map (fun s => speaker_name s ++ ": " ++ text s)). exact Hin.
Qed.

(** X5. An analysis action on a selected transcript, for a category that
    has a prompt and with the client in place, asks the completion service
    exactly twice, whatever the answers: first for the analysis, then for the
    follow-up email (the second request is made even when the first one
    failed).  Both user messages carry every utterance of the transcript as
    ["{speaker}: {text}"]. *)
Theorem analysis_action_asks_twice
    (w : world) (ui : ui_inputs) (prompt_type prompt selected : string)
    (t : transcript) (s : session_state) :
  PyStr.truthy (OPENAI_API_KEY w) = true ->
  selected_if_set s = Some selected ->
  next_with_id (transcripts s) selected = Ok t ->
  prompts_getitem prompt_type = Ok prompt ->
  filter Spec.is_request (shown (handle_analysis w ui prompt_type s))
  = [Chat_completion (analysis_request prompt (get_transcript_content t));
     Chat_completion (follow_up_request (get_transcript_content t))]
  /\ forall u, In u (sentences t) ->
       forall request,
         request = analysis_request prompt (get_transcript_content t)
         \/ request = follow_up_request (get_transcript_content t) ->
         exists system user,
           messages request = [system; user]
           /\ contains (speaker_name u ++ ": " ++ text u) (content user).
Proof.
  intros Hkey Hsel Hnext Hprompt. split.
  - destruct (gpt4o_json_prompt_total w (get_transcript_content t) prompt_type s)
      as [v1 H1].
    destruct (generate_follow_up_email_total w (get_transcript_content t) s)
      as [v2 H2].
    rewrite (handle_analysis_run w ui prompt_type selected t v1 v2 s Hsel Hnext H1 H2).
    cbv zeta. simpl shown. simpl filter. rewrite !filter_app.
    rewrite (gpt4o_json_prompt_requests w _ _ prompt s Hkey Hprompt).
    rewrite (generate_follow_up_email_requests w _ s Hkey).
    assert (Hrest : forall m : M unit, shows not_request m ->
                    filter Spec.is_request (shown (m s)) = []).
    { intros m Hm. apply filter_none. apply Hm. }
    rewrite Hrest; [reflexivity|].
    apply shows_if.
    + apply shows_bind; [apply show_analysis_shows; reflexivity | intros _].
      apply mail_analysis_shows; try reflexivity.
      intros [] Hev; try discriminate; reflexivity.
    + apply shows_emit. reflexivity.
  - intros u Hu request [-> | ->]; eexists _, _; (split; [reflexivity|]);
      cbv beta iota delta [content].
    + apply contains_after, contains_after, contains_before.
      now apply contains_utterance.
    + apply contains_after, contains_before. now apply contains_utterance.
Qed.

Lemma analysis_action_asks_twice_witness :
  filter Spec.is_request
    (shown (handle_analysis Demo.prose Demo.financial_pressed "financial"
              Demo.on_kickoff))
  = [Chat_completion
       (analysis_request Templates.prompt_financial
          (get_transcript_content Demo.kickoff));
     Chat_completion (follow_up_request (get_transcript_content Demo.kickoff))].
Proof.
  exact (proj1 (analysis_action_asks_twice Demo.prose Demo.financial_pressed
                  "financial" Templates.prompt_financial "a" Demo.kickoff
                  Demo.on_kickoff eq_refl eq_refl eq_refl eq_refl)).
Defined.

(** ** The mail, further *)

Lemma send_email_accepted (w : world) (recipient subject html text : string)
    (s : session_state) :
  as_string w
    {| msg_Subject := subject; msg_From := GMAIL_USER w; msg_To := recipient;
       html_part := html |} = Ok text ->
  Spec.mail_failure w recipient
    {| msg_Subject := subject; msg_From := GMAIL_USER w; msg_To := recipient;
       html_part := html |} = None ->
  send_email w recipient subject html s
  = {| final := s;
       shown := [Smtp_ssl "smtp.gmail.com" 465;
                 Smtp_login (GMAIL_USER w) (GMAIL_PASSWORD w);
                 Smtp_sendmail (GMAIL_USER w) recipient
                   {| msg_Subject := subject; msg_From := GMAIL_USER w;
                      msg_To := recipient; html_part := html |} text;
                 St_success "Email sent successfully!"];
       result := Ok tt |}.
Proof.
  unfold Spec.mail_failure, send_email, with_smtp_server. unfold_script.
  intros ->.
  destruct (smtp_ssl w "smtp.gmail.com" 465); [discriminate|].
  destruct (smtp_quit w); [discriminate|].
  destruct (smtp_login w (GMAIL_USER w) (GMAIL_PASSWORD w)); [discriminate|].
  cbv beta iota. intros ->. reflexivity.
Qed.

(** X6. When both replies have the expected shape, the mail is asked for,
    the message can be serialised and the relay accepts every step (the
    connection, the login, the submission of the serialised text, the
    closing), the analysis action shows the analysis and the draft and then
    submits exactly one message, after the login: from the configured
    account to the address of the page, with the computed subject, and with
    the rendered report as its HTML part; the success note ends the
    action. *)
Theorem analysis_is_mailed_as_rendered
    (w : world) (ui : ui_inputs) (prompt_type selected subj text : string)
    (t : transcript) (a : AnalysisResult) (m : FollowUpEmail) (s : session_state) :
  selected_if_set s = Some selected ->
  next_with_id (transcripts s) selected = Ok t ->
  result (gpt4o_json_prompt w (get_transcript_content t) prompt_type s)
  = Ok (json_of_analysis a) ->
  result (generate_follow_up_email w (get_transcript_content t) s)
  = Ok (json_of_email m) ->
  auto_email ui = true ->
  PyStr.truthy (email ui) = true ->
  subject_line w prompt_type t = Ok subj ->
  as_string w
    {| msg_Subject := subj; msg_From := GMAIL_USER w; msg_To := email ui;
       html_part := report (label prompt_type) a (body m) |} = Ok text ->
  Spec.mail_failure w (email ui)
    {| msg_Subject := subj; msg_From := GMAIL_USER w; msg_To := email ui;
       html_part := report (label prompt_type) a (body m) |} = None ->
  format_analysis_to_html w prompt_type (json_of_analysis a) (JStr (body m))
  = Ok (report (label prompt_type) a (body m))
  /\ handle_analysis w ui prompt_type s
     = {| final := s;
          shown :=
            (progress_note prompt_type
             :: shown (gpt4o_json_prompt w (get_transcript_content t) prompt_type s)
             ++ shown (generate_follow_up_email w (get_transcript_content t) s)
             ++ analysis_lines prompt_type a (JStr (body m))
             ++ [St_spinner "Sending email...";
                 Smtp_ssl "smtp.gmail.com" 465;
                 Smtp_login (GMAIL_USER w) (GMAIL_PASSWORD w);
                 Smtp_sendmail (GMAIL_USER w) (email ui)
                   {| msg_Subject := subj; msg_From := GMAIL_USER w;
                      msg_To := email ui;
                      html_part := report (label prompt_type) a (body m) |} text;
                 St_success "Email sent successfully!"])%list;
          result := Ok tt |}.
Proof.
  intros Hsel Hnext H1 H2 Hauto Hemail Hsubj Htext Hmail.
  split; [apply format_analysis_to_html_well_formed|].
  assert (Hrun := handle_analysis_run w ui prompt_type selected t _ _ s
                    Hsel Hnext H1 H2).
  change (Py.truthy (json_of_analysis a) && Py.truthy (json_of_email m))
    with true in Hrun.
  cbv iota zeta in Hrun.
  assert (Hshow := show_analysis_well_formed w prompt_type a (json_of_email m)
                     (JStr (body m)) s eq_refl).
  rewrite (bind_ok _ _ s tt) in Hrun by (now rewrite Hshow).
  rewrite Hshow in Hrun. simpl final in Hrun. simpl shown in Hrun.
  rewrite (mail_analysis_run w ui prompt_type t a m subj s Hauto Hemail Hsubj) in Hrun.
  rewrite (send_email_accepted w (email ui) subj _ text s Htext Hmail) in Hrun.
  simpl in Hrun. exact Hrun.
Qed.

Lemma analysis_is_mailed_as_rendered_witness :
  subject_line Demo.happy "financial" Demo.kickoff = Ok Cases.kickoff_subject
  /\ handle_analysis Demo.happy Demo.financial_pressed "financial" Demo.on_kickoff
     = {| final := Demo.on_kickoff;
          shown :=
            (progress_note "financial"
             :: shown (gpt4o_json_prompt Demo.happy
                         (get_transcript_content Demo.kickoff) "financial"
                         Demo.on_kickoff)
             ++ shown (generate_follow_up_email Demo.happy
                         (get_transcript_content Demo.kickoff) Demo.on_kickoff)
             ++ analysis_lines "financial" Demo.analysis (JStr (body Demo.draft))
             ++ [St_spinner "Sending email...";
                 Smtp_ssl "smtp.gmail.com" 465;
                 Smtp_login (GMAIL_USER Demo.happy) (GMAIL_PASSWORD Demo.happy);
                 Smtp_sendmail (GMAIL_USER Demo.happy) "client@example.com"
                   {| msg_Subject := Cases.kickoff_subject;
                      msg_From := GMAIL_USER Demo.happy;
                      msg_To := "client@example.com";
                      html_part := report (label "financial") Demo.analysis
                                     (body Demo.draft) |}
                   (Demo.serialised
                      {| msg_Subject := Cases.kickoff_subject;
                         msg_From := GMAIL_USER Demo.happy;
                         msg_To := "client@example.com";
                         html_part := report (label "financial") Demo.analysis
                                        (body Demo.draft) |});
                 St_success "Email sent successfully!"])%list;
          result := Ok tt |}.
Proof.
  assert (Hsubj : subject_line Demo.happy "financial" Demo.kickoff
                  = Ok Cases.kickoff_subject) by (vm_compute; reflexivity).
  split; [exact Hsubj|].
  apply (proj2 (analysis_is_mailed_as_rendered Demo.happy Demo.financial_pressed
                  "financial" "a" Cases.kickoff_subject _ Demo.kickoff Demo.analysis
                  Demo.draft Demo.on_kickoff eq_refl eq_refl
                  ltac:(vm_compute; reflexivity) ltac:(vm_compute; reflexivity)
                  eq_refl eq_refl Hsubj eq_refl ltac:(vm_compute; reflexivity))).
Defined.

(** X7. When the connection to the relay or the login fails, the message is
    never submitted: [send_email] shows the steps it tried, none of them a
    submission, then one error note, and no success note; it raises
    nothing. *)
Theorem send_email_stops_at_first_failure
    (w : world) (recipient subject html : string) (e : exn) (s : session_state) :
  smtp_ssl w "smtp.gmail.com" 465 = Some e
  \/ (smtp_ssl w "smtp.gmail.com" 465 = None
      /\ smtp_login w (GMAIL_USER w) (GMAIL_PASSWORD w) = Some e) ->
  exists attempts reported,
    send_email w recipient subject html s
    = {| final := s;
         shown := (attempts
                   ++ [St_error ("Error sending email: " ++ exn_str reported)])%list;
         result := Ok tt |}
    /\ forallb not_sendmail attempts = true
    /\ forallb Spec.is_mail attempts = true
    /\ (smtp_quit w = None -> reported = e).
Proof.
  intros [Hssl | [Hssl Hlogin]];
    unfold send_email, with_smtp_server; unfold_script; rewrite Hssl; cbv beta iota.
  - exists [Smtp_ssl "smtp.gmail.com" 465], e. repeat split; reflexivity.
  - rewrite Hlogin. cbv beta iota.
    destruct (smtp_quit w) as [q|]; cbv beta iota.
    + exists [Smtp_ssl "smtp.gmail.com" 465;
              Smtp_login (GMAIL_USER w) (GMAIL_PASSWORD w)], q.
      repeat split; try reflexivity. discriminate.
    + exists [Smtp_ssl "smtp.gmail.com" 465;
              Smtp_login (GMAIL_USER w) (GMAIL_PASSWORD w)], e.
      repeat split; reflexivity.
Qed.

Lemma send_email_stops_at_first_failure_witness :
  exists attempts reported,
    send_email Cases.login_refused "client@example.com" "Subject" "<p>Report</p>"
      Demo.on_kickoff
    = {| final := Demo.on_kickoff;
         shown := (attempts
                   ++ [St_error ("Error sending email: " ++ exn_str reported)])%list;
         result := Ok tt |}
    /\ forallb not_sendmail attempts = true
    /\ forallb Spec.is_mail attempts = true
    /\ (smtp_quit Cases.login_refused = None
        -> reported = Exception "Username and Password not accepted").
Proof.
  exact (send_email_stops_at_first_failure Cases.login_refused "client@example.com"
           "Subject" "<p>Report</p>"
           (Exception "Username and Password not accepted") Demo.on_kickoff
           (or_intror (conj eq_refl eq_refl))).
Defined.

(** X18. When the relay accepts the connection and the login but the
    message cannot be serialised, nothing is submitted: [send_email] shows
    the connection and the login, then one error note and no success note,
    and raises nothing; the reported exception is that of the serialisation
    unless closing the session fails too. *)
Theorem send_email_reports_serialisation_error
    (w : world) (recipient subject html : string) (e : exn) (s : session_state) :
  smtp_ssl w "smtp.gmail.com" 465 = None ->
  smtp_login w (GMAIL_USER w) (GMAIL_PASSWORD w) = None ->
  as_string w
    {| msg_Subject := subject; msg_From := GMAIL_USER w; msg_To := recipient;
       html_part := html |} = Raise e ->
  exists reported,
    send_email w recipient subject html s
    = {| final := s;
         shown := [Smtp_ssl "smtp.gmail.com" 465;
                   Smtp_login (GMAIL_USER w) (GMAIL_PASSWORD w);
                   St_error ("Error sending email: " ++ exn_str reported)];
         result := Ok tt |}
    /\ (smtp_quit w = None -> reported = e).
Proof.
  intros Hssl Hlogin Htext.
  unfold send_email, with_smtp_server. unfold_script.
  rewrite Hssl. cbv beta iota. rewrite Hlogin. cbv beta iota.
  rewrite Htext. cbv beta iota.
  destruct (smtp_quit w) as [q|]; cbv beta iota.
  - exists q. split; [reflexivity | discriminate].
  - exists e. split; reflexivity.
Qed.

Lemma send_email_reports_serialisation_error_witness :
  exists reported,
    send_email Cases.unserialisable "client@example.com" "Subject" "<p>Report</p>"
      Demo.on_kickoff
    = {| final := Demo.on_kickoff;
         shown := [Smtp_ssl "smtp.gmail.com" 465;
                   Smtp_login (GMAIL_USER Cases.unserialisable)
                     (GMAIL_PASSWORD Cases.unserialisable);
                   St_error ("Error sending email: " ++ exn_str reported)];
         result := Ok tt |}
    /\ (smtp_quit Cases.unserialisable = None
        -> reported
           = ValueError "Header values may not contain linefeed or carriage return characters").
Proof.
  exact (send_email_reports_serialisation_error Cases.unserialisable
           "client@example.com" "Subject" "<p>Report</p>" _ Demo.on_kickoff
           eq_refl eq_refl eq_refl).
Defined.

(** ** What the script never does *)

(** X8. Unless the box is ticked and an address is given, a run of the
    script opens no session with the relay: no connection, no login, no
    submission, whatever the buttons, the replies and the session state. *)
Theorem no_mail_unless_asked (w : world) (ui : ui_inputs) (s : session_state) :
  auto_email ui && PyStr.truthy (email ui) = false ->
  filter Spec.is_mail (shown (script w ui s)) = [].
Proof.
  intros Hoff. apply filter_none.
  apply (script_shows w ui not_mail); try reflexivity.
  - apply refresh_transcripts_shows; reflexivity.
  - apply trigger_analysis_shows. intros prompt_type.
    apply handle_analysis_shows; try reflexivity; intros.
    + apply gpt4o_json_prompt_shows; reflexivity.
    + apply generate_follow_up_email_shows; reflexivity.
    + apply show_analysis_shows; reflexivity.
    + rewrite (mail_analysis_off w ui _ _ _ _ Hoff). apply shows_ret.
Qed.

Lemma no_mail_unless_asked_witness :
  filter Spec.is_mail (shown (script Demo.happy Cases.no_mail Demo.on_kickoff)) = []
  /\ filter Spec.is_output (shown (script Demo.happy Cases.no_mail Demo.on_kickoff))
     <> [].
Proof.
  split.
  - exact (no_mail_unless_asked Demo.happy Cases.no_mail Demo.on_kickoff eq_refl).
  - vm_compute. discriminate.
Defined.

(** X9. Unless a key is given and the refresh button pressed, a run of the
    script asks the provider nothing and ends with the transcript list it
    started with. *)
Theorem no_fetch_unless_refreshed (w : world) (ui : ui_inputs) (s : session_state) :
  PyStr.truthy (fireflies_api_key ui) && refresh_button ui = false ->
  filter is_http (shown (script w ui s)) = []
  /\ transcripts (final (script w ui s)) = transcripts s.
Proof.
  intros Hoff. split.
  - apply filter_none.
    apply (script_shows w ui not_http); try reflexivity.
    + intros s'. now rewrite (refresh_transcripts_off w ui s' Hoff).
    + apply trigger_analysis_shows. intros prompt_type.
      apply handle_analysis_shows; try reflexivity; intros.
      * apply gpt4o_json_prompt_shows; reflexivity.
      * apply generate_follow_up_email_shows; reflexivity.
      * apply show_analysis_shows; reflexivity.
      * apply mail_analysis_shows; try reflexivity.
        intros [] Hev; try discriminate; reflexivity.
  - rewrite script_transcripts. now rewrite (refresh_transcripts_off w ui s Hoff).
Qed.

Lemma no_fetch_unless_refreshed_witness :
  filter is_http (shown (script Demo.happy Demo.financial_pressed Demo.on_kickoff)) = []
  /\ transcripts (final (script Demo.happy Demo.financial_pressed Demo.on_kickoff))
     = Listed [Demo.kickoff].
Proof.
  exact (no_fetch_unless_refreshed Demo.happy Demo.financial_pressed Demo.on_kickoff
           eq_refl).
Defined.

Lemma trigger_analysis_idle (w : world) (ui : ui_inputs) (s : session_state) :
  (forall c, analyze_buttons ui c = false) ->
  trigger_analysis w ui s = {| final := s; shown := []; result := Ok tt |}.
Proof.
  intros Hidle. unfold trigger_analysis. rewrite !Hidle. reflexivity.
Qed.

(** X10. When no analysis button is pressed, a run of the script asks the
    completion service nothing and sends no mail, whatever the session holds
    and whatever else is asked for.  When the top of the page raises nothing,
    the footer is all the script writes and it ends normally; when the top
    of the page raises, the script ends there with that exception and has
    written nothing. *)
Theorem no_analysis_unless_pressed (w : world) (ui : ui_inputs) (s : session_state) :
  (forall c, analyze_buttons ui c = false) ->
  filter Spec.is_request (shown (script w ui s)) = []
  /\ filter Spec.is_mail (shown (script w ui s)) = []
  /\ (result (page_top w ui s) = Ok tt ->
      filter Spec.is_output (shown (script w ui s))
      = [St_markdown (JStr "---");
         St_markdown (JStr "Powered by Fireflies.ai and OpenAI GPT-4o")]
      /\ result (script w ui s) = Ok tt)
  /\ (forall e, result (page_top w ui s) = Raise e ->
      filter Spec.is_output (shown (script w ui s)) = []
      /\ result (script w ui s) = Raise e).
Proof.
  intros Hidle.
  assert (Htrigger : forall P, shows P (trigger_analysis w ui)).
  { intros P s'. now rewrite (trigger_analysis_idle w ui s' Hidle). }
  assert (Hquiet : forallb (fun ev => negb (Spec.is_output ev))
                     (shown (page_top w ui s)) = true).
  { unfold page_top.
    assert (H : shows (fun ev => negb (Spec.is_output ev))
                  (bind (check_api_key w) (fun _ =>
                   bind (emit (St_title "Fireflies Meeting Prototype")) (fun _ =>
                   bind (refresh_transcripts w ui) (fun _ =>
                   bind (select_transcript ui) (fun _ => show_transcript)))))).
    { apply shows_bind; [apply check_api_key_shows; reflexivity | intros _].
      apply shows_bind; [apply shows_emit; reflexivity | intros _].
      apply shows_bind; [apply refresh_transcripts_shows; reflexivity | intros _].
      apply shows_bind; [apply select_transcript_shows; reflexivity | intros _].
      apply show_transcript_shows; reflexivity. }
    apply H. }
  split; [|split; [|split]].
  - apply filter_none. apply (script_shows w ui not_request); try reflexivity.
    + apply refresh_transcripts_shows; reflexivity.
    + apply Htrigger.
  - apply filter_none. apply (script_shows w ui not_mail); try reflexivity.
    + apply refresh_transcripts_shows; reflexivity.
    + apply Htrigger.
  - intros Hres. unfold script.
    rewrite (bind_ok _ _ s tt Hres).
    rewrite (bind_ok _ _ _ tt) by now rewrite trigger_analysis_idle.
    rewrite trigger_analysis_idle by exact Hidle.
    simpl. rewrite filter_app, (filter_none _ _ Hquiet). split; reflexivity.
  - intros e Hres. unfold script.
    rewrite (bind_raise _ _ s e Hres). simpl.
    split; [exact (filter_none _ _ Hquiet) | reflexivity].
Qed.

Lemma no_analysis_unless_pressed_witness :
  (filter Spec.is_request (shown (script Demo.happy Cases.idle Demo.on_kickoff)) = []
   /\ filter Spec.is_mail (shown (script Demo.happy Cases.idle Demo.on_kickoff)) = []
   /\ filter Spec.is_output (shown (script Demo.happy Cases.idle Demo.on_kickoff))
      = [St_markdown (JStr "---");
         St_markdown (JStr "Powered by Fireflies.ai and OpenAI GPT-4o")]
   /\ result (script Demo.happy Cases.idle Demo.on_kickoff) = Ok tt)
  /\ filter Spec.is_request (shown (script Demo.happy Cases.idle Cases.orphaned)) = []
  /\ filter Spec.is_mail (shown (script Demo.happy Cases.idle Cases.orphaned)) = []
  /\ filter Spec.is_output (shown (script Demo.happy Cases.idle Cases.orphaned)) = []
  /\ result (script Demo.happy Cases.idle Cases.orphaned) = Raise StopIteration.
Proof.
  destruct (no_analysis_unless_pressed Demo.happy Cases.idle Demo.on_kickoff
              (fun c => eq_refl)) as (H1 & H2 & H3 & _).
  destruct (no_analysis_unless_pressed Demo.happy Cases.idle Cases.orphaned
              (fun c => eq_refl)) as (H4 & H5 & _ & H6).
  split.
  - split; [exact H1|]. split; [exact H2|]. apply H3. vm_compute. reflexivity.
  - split; [exact H4|]. split; [exact H5|]. apply (H6 StopIteration).
    vm_compute. reflexivity.
Defined.

(** ** The report, further *)

Lemma html_after_heading_opens_p :
  exists before, Templates.html_after_heading = before ++ "<p>".
Proof.
  exists (substring 0 (String.length Templates.html_after_heading - 3)
            Templates.html_after_heading).
  vm_compute. reflexivity.
Qed.

Lemma html_after_summary_closes_p :
  exists after, Templates.html_after_summary = "</p>" ++ after.
Proof.
  exists (substring 4 (String.length Templates.html_after_summary - 4)
            Templates.html_after_summary).
  vm_compute. reflexivity.
Qed.

Lemma detail_block_parts (d : DetailItem) :
  contains ("<h3>" ++ topic d ++ "</h3>") (detail_block d)
  /\ contains ("<p><strong>Description:</strong> " ++ description d ++ "</p>")
              (detail_block d)
  /\ contains ("<p><strong>Relevance:</strong> " ++ relevance d ++ "</p>")
              (detail_block d).
Proof.
  unfold detail_block.
  assert (H1 : exists b, Templates.detail_open = b ++ "<h3>").
  { exists (substring 0 (String.length Templates.detail_open - 4)
              Templates.detail_open). vm_compute. reflexivity. }
  assert (H2 : exists m,
    Templates.detail_after_topic
    = "</h3>" ++ m ++ "<p><strong>Description:</strong> ").
  { exists (substring 5 (String.length Templates.detail_after_topic - 5 - 33)
              Templates.detail_after_topic). vm_compute. reflexivity. }
  assert (H3 : exists m,
    Templates.detail_after_description
    = "</p>" ++ m ++ "<p><strong>Relevance:</strong> ").
  { exists (substring 4 (String.length Templates.detail_after_description - 4 - 31)
              Templates.detail_after_description). vm_compute. reflexivity. }
  assert (H4 : exists a, Templates.detail_close = "</p>" ++ a).
  { exists (substring 4 (String.length Templates.detail_close - 4)
              Templates.detail_close). vm_compute. reflexivity. }
  destruct H1 as [b H1], H2 as [m2 H2], H3 as [m3 H3], H4 as [c H4].
  rewrite H1, H2, H3, H4. repeat split.
  - exists b, (m2 ++ "<p><strong>Description:</strong> " ++ description d
               ++ ("</p>" ++ m3 ++ "<p><strong>Relevance:</strong> ")
               ++ relevance d ++ "</p>" ++ c).
    now rewrite !append_assoc.
  - exists (b ++ "<h3>" ++ topic d ++ "</h3>" ++ m2),
           (m3 ++ "<p><strong>Relevance:</strong> " ++ relevance d ++ "</p>" ++ c).
    now rewrite !append_assoc.
  - exists (b ++ "<h3>" ++ topic d ++ "</h3>" ++ m2
            ++ "<p><strong>Description:</strong> " ++ description d ++ "</p>" ++ m3), c.
    now rewrite !append_assoc.
Qed.

(** X11. The report carries the texts of the analysis as they are, markup
    and all (nothing is escaped): the summary between [<p>] and [</p>], the
    blocks of the details one after the other in the order of the list, each
    with its topic, description and relevance, every follow-up suggestion as
    a list item, and the draft of the follow-up email. *)
Theorem report_carries_texts_verbatim
    (w : world) (analysis_type draft : string) (a : AnalysisResult) :
  exists html,
    format_analysis_to_html w analysis_type (json_of_analysis a) (JStr draft) = Ok html
    /\ contains ("<p>" ++ summary a ++ "</p>") html
    /\ contains (concat_all (map detail_block (details a))) html
    /\ (forall d, In d (details a) ->
          contains ("<h3>" ++ topic d ++ "</h3>") html
          /\ contains ("<p><strong>Description:</strong> " ++ description d ++ "</p>")
                      html
          /\ contains ("<p><strong>Relevance:</strong> " ++ relevance d ++ "</p>")
                      html)
    /\ (forall p, In p (follow_up_suggestions a) ->
          contains ("<li>" ++ p ++ "</li>") html)
    /\ contains draft html.
Proof.
  eexists. split; [apply format_analysis_to_html_well_formed|].
  unfold report.
  assert (Hdetails : forall x,
    contains x (concat_all (map detail_block (details a))) ->
    contains x
      (Templates.html_head ++ label analysis_type ++ Templates.html_after_heading
       ++ summary a ++ Templates.html_after_summary
       ++ concat_all (map li_text (key_points a))
       ++ Templates.html_after_key_points
       ++ concat_all (map detail_block (details a))
       ++ Templates.html_after_details
       ++ concat_all (map li_text (follow_up_suggestions a))
       ++ Templates.html_after_suggestions ++ str w (JStr draft)
       ++ Templates.html_tail)).
  { intros x Hx. do 7 apply contains_after. now apply contains_before. }
  split; [|split; [|split; [|split]]].
  - destruct html_after_heading_opens_p as [g Hg].
    destruct html_after_summary_closes_p as [u Hu].
    rewrite Hg, Hu.
    exists (Templates.html_head ++ label analysis_type ++ g),
           (u ++ concat_all (map li_text (key_points a))
            ++ Templates.html_after_key_points
            ++ concat_all (map detail_block (details a))
            ++ Templates.html_after_details
            ++ concat_all (map li_text (follow_up_suggestions a))
            ++ Templates.html_after_suggestions ++ str w (JStr draft)
            ++ Templates.html_tail).
    now rewrite !append_assoc.
  - apply Hdetails, contains_refl.
  - intros d Hd.
    assert (Hblock : contains (detail_block d)
                       (concat_all (map detail_block (details a)))).
    { apply contains_concat_all. now apply in_map. }
    destruct (detail_block_parts d) as (H1 & H2 & H3).
    repeat split; apply Hdetails; eapply contains_trans; eauto.
  - intros p Hp. do 9 apply contains_after. apply contains_before.
    apply (contains_concat_all (li_text p)). now apply in_map.
  - do 11 apply contains_after. apply contains_prefix.
Qed.



(** ** The selector and the display, further *)

Lemma index_of_first (x : string) (ts : list transcript) :
  In x (map id ts) ->
  nth (index_of x (map id ts)) (map title ts) EmptyString = first_title ts x.
Proof.
  unfold first_title. induction ts as [|t ts IH]; simpl; [tauto|].
  intros Hin. destruct (String.eqb_spec (id t) x) as [Heq|Hne]; [reflexivity|].
  destruct Hin as [Heq|Hin]; [contradiction|]. now apply IH.
Qed.

Lemma existsb_member (x : string) (xs : list string) :
  In x xs -> existsb (String.eqb x) xs = true.
Proof.
  intros Hin. apply existsb_exists. exists x. split; [exact Hin|].
  apply String.eqb_refl.
Qed.

Lemma first_title_unique (ts : list transcript) (t : transcript) :
  NoDup (map id ts) -> In t ts -> first_title ts (id t) = title t.
Proof.
  unfold first_title. induction ts as [|t0 ts IH]; simpl; [tauto|].
  intros Hnodup Hin. inversion Hnodup as [|x xs Hnotin Hnodup']; subst.
  destruct (String.eqb_spec (id t0) (id t)) as [Heq|Hne].
  - destruct Hin as [->|Hin]; [reflexivity|].
    exfalso. apply Hnotin. rewrite Heq. now apply in_map.
  - destruct Hin as [->|Hin]; [contradiction|]. now apply IH.
Qed.

(** X13. The labels the selector shows: the label of an option is the title
    of the first transcript of the list that has this identifier, and the
    empty string for a value that is no option.  When the identifiers are
    pairwise distinct, the labels are the titles of the transcripts, in the
    order of the list. *)
Theorem selector_labels (ts : list transcript) :
  (forall x, In x (map id ts) ->
     format_func (map id ts) (map title ts) x = first_title ts x)
  /\ (forall x, ~ In x (map id ts) ->
        format_func (map id ts) (map title ts) x = EmptyString)
  /\ (NoDup (map id ts) ->
      map (format_func (map id ts) (map title ts)) (map id ts) = map title ts).
Proof.
  split; [|split].
  - intros x Hin. unfold format_func.
    rewrite (existsb_member x _ Hin). now apply index_of_first.
  - intros x Hnotin. unfold format_func.
    destruct (existsb (String.eqb x) (map id ts)) eqn:E; [|reflexivity].
    apply existsb_exists in E as (y & Hy & Heq).
    apply String.eqb_eq in Heq. subst y. contradiction.
  - intros Hnodup. rewrite map_map. apply map_ext_in. intros t Hin.
    unfold format_func. rewrite (existsb_member (id t) (map id ts) (in_map id ts t Hin)).
    rewrite index_of_first by now apply in_map.
    now apply first_title_unique.
Qed.

Lemma selector_labels_witness :
  NoDup (map id [Demo.kickoff; Demo.review])
  /\ map (format_func (map id [Demo.kickoff; Demo.review])
            (map title [Demo.kickoff; Demo.review]))
         (map id [Demo.kickoff; Demo.review])
     = ["Kickoff"; "Review"].
Proof.
  assert (H : NoDup (map id [Demo.kickoff; Demo.review])).
  { repeat constructor; simpl; intuition discriminate. }
  split; [exact H|].
  exact (proj2 (proj2 (selector_labels [Demo.kickoff; Demo.review])) H).
Defined.

Lemma next_with_id_stale (ts : list transcript) (selected : string) :
  next_with_id (Listed ts) selected = Raise StopIteration
  <-> ~ In selected (map id ts).
Proof.
  unfold next_with_id. split.
  - destruct (find _ ts) as [t|] eqn:E; [discriminate|]. intros _ Hin.
    apply in_map_iff in Hin as (t & Hid & Hin).
    apply (find_none _ _ E) in Hin. rewrite Hid, String.eqb_refl in Hin.
    discriminate.
  - intros Hnotin. destruct (find _ ts) as [t|] eqn:E; [|reflexivity].
    apply find_some in E as [Hin Heq]. apply String.eqb_eq in Heq.
    exfalso. apply Hnotin. rewrite <- Heq. now apply in_map.
Qed.

(** X14. In a session that holds a list, with a selection that is set, the
    transcript display raises [StopIteration] exactly when no transcript of
    the list has the selected identifier.  In that case the display shows
    nothing, and an analysis action raises [StopIteration] too, before it
    shows or asks anything. *)
Theorem stale_selection_raises
    (w : world) (ui : ui_inputs) (prompt_type selected : string)
    (ts : list transcript) (s : session_state) :
  transcripts s = Listed ts ->
  selected_if_set s = Some selected ->
  (result (show_transcript s) = Raise StopIteration
   <-> ~ In selected (map id ts))
  /\ (~ In selected (map id ts) ->
      show_transcript s = {| final := s; shown := []; result := Raise StopIteration |}
      /\ handle_analysis w ui prompt_type s
         = {| final := s; shown := []; result := Raise StopIteration |}).
Proof.
  intros Hlist Hsel. split.
  - rewrite <- next_with_id_stale, <- Hlist.
    unfold show_transcript. unfold_script. rewrite Hsel.
    destruct (next_with_id (transcripts s) selected) as [t|e]; cbv beta iota.
    + split; discriminate.
    + split; intros H; injection H as ->; reflexivity.
  - intros Hstale. apply next_with_id_stale in Hstale. rewrite <- Hlist in Hstale.
    unfold show_transcript, handle_analysis. unfold_script.
    rewrite Hsel, Hstale. split; reflexivity.
Qed.

Lemma stale_selection_raises_witness :
  ~ In "a" (map id [Demo.review])
  /\ show_transcript Cases.stale
     = {| final := Cases.stale; shown := []; result := Raise StopIteration |}
  /\ handle_analysis Demo.happy Demo.financial_pressed "financial" Cases.stale
     = {| final := Cases.stale; shown := []; result := Raise StopIteration |}.
Proof.
  assert (H : ~ In "a" (map id [Demo.review])).
  { simpl. intuition discriminate. }
  split; [exact H|].
  exact (proj2 (stale_selection_raises Demo.happy Demo.financial_pressed
                  "financial" "a" [Demo.review] Cases.stale eq_refl eq_refl) H).
Defined.

Lemma runs_when (b : bool) (m : M unit) (s : session_state) :
  runs m s [] tt -> runs (when b m) s [] tt.
Proof. destruct b; [tauto | reflexivity]. Qed.

(** X15. While the session has no transcript and no selection, and no
    refresh is asked for, the buttons do nothing: whichever are pressed, the
    page is its title and its footer (after the start-up error, if the API
    key is missing), nothing is asked of any service, nothing is raised and
    the session stays as it is. *)
Theorem buttons_do_nothing_without_selection
    (w : world) (ui : ui_inputs) (s : session_state) :
  transcripts s = Listed [] ->
  selected_if_set s = None ->
  PyStr.truthy (fireflies_api_key ui) && refresh_button ui = false ->
  script w ui s
  = {| final := s;
       shown := (shown (check_api_key w s)
                 ++ [St_title "Fireflies Meeting Prototype";
                     St_markdown (JStr "---");
                     St_markdown (JStr "Powered by Fireflies.ai and OpenAI GPT-4o")])%list;
       result := Ok tt |}.
Proof.
  intros Hnone Hsel Hoff.
  destruct (check_api_key_run w s) as [evs Hcheck].
  assert (Hhandle : forall prompt_type, runs (handle_analysis w ui prompt_type) s [] tt).
  { intros prompt_type. unfold runs, handle_analysis. unfold_script. now rewrite Hsel. }
  assert (Htrigger : runs (trigger_analysis w ui) s [] tt).
  { unfold trigger_analysis.
    repeat (eapply (runs_bind _ _ s [] _ tt); [apply runs_when, Hhandle|]).
    apply runs_when, Hhandle. }
  assert (Hselect : runs (select_transcript ui) s [] tt).
  { unfold runs, select_transcript. unfold_script. now rewrite Hnone. }
  assert (Hshow : runs show_transcript s [] tt).
  { unfold runs, show_transcript. unfold_script. now rewrite Hsel. }
  assert (Hrefresh : runs (refresh_transcripts w ui) s [] tt).
  { apply (refresh_transcripts_off w ui s Hoff). }
  rewrite Hcheck. unfold script, page_top.
  assert (Hrun : runs
    (bind (bind (check_api_key w) (fun _ =>
           bind (emit (St_title "Fireflies Meeting Prototype")) (fun _ =>
           bind (refresh_transcripts w ui) (fun _ =>
           bind (select_transcript ui) (fun _ => show_transcript)))))
       (fun _ => bind (trigger_analysis w ui) (fun _ =>
         bind (emit (St_markdown (JStr "---"))) (fun _ =>
           emit (St_markdown (JStr "Powered by Fireflies.ai and OpenAI GPT-4o"))))))
    s (evs ++ [St_title "Fireflies Meeting Prototype";
               St_markdown (JStr "---");
               St_markdown (JStr "Powered by Fireflies.ai and OpenAI GPT-4o")]) tt).
  { eapply runs_shown.
    - eapply runs_bind.
      + eapply runs_bind; [exact Hcheck|].
        eapply runs_bind; [apply runs_emit|].
        eapply runs_bind; [exact Hrefresh|].
        eapply runs_bind; [exact Hselect | exact Hshow].
      + eapply runs_bind; [exact Htrigger|].
        eapply runs_bind; apply runs_emit.
    - simpl. rewrite <- app_assoc. reflexivity. }
  exact Hrun.
Qed.

Lemma buttons_do_nothing_without_selection_witness :
  script Demo.happy Cases.all_pressed new_session
  = {| final := new_session;
       shown := (shown (check_api_key Demo.happy new_session)
                 ++ [St_title "Fireflies Meeting Prototype";
                     St_markdown (JStr "---");
                     St_markdown (JStr "Powered by Fireflies.ai and OpenAI GPT-4o")])%list;
       result := Ok tt |}.
Proof.
  exact (buttons_do_nothing_without_selection Demo.happy Cases.all_pressed
           new_session eq_refl eq_refl eq_refl).
Defined.

(** ** The requesters, further *)

Lemma repr_chars_plain (s : string) :
  all_plain s = true -> repr_chars "039"%char s = s.
Proof.
  induction s as [|c r IH]; simpl; [reflexivity|].
  intros H. apply andb_true_iff in H as [Hc Hr]. rewrite (IH Hr).
  destruct c as [[] [] [] [] [] [] [] []]; try discriminate Hc; reflexivity.
Qed.

Lemma has_char_plain (s : string) :
  all_plain s = true -> has_char "039"%char s = false.
Proof.
  induction s as [|c r IH]; simpl; [reflexivity|].
  intros H. apply andb_true_iff in H as [Hc Hr]. rewrite (IH Hr).
  destruct c as [[] [] [] [] [] [] [] []]; try discriminate Hc; reflexivity.
Qed.

(** The [repr] of a text of plain characters is the text between
    apostrophes. *)
Lemma repr_plain (s : string) : all_plain s = true -> repr s = sq ++ s ++ sq.
Proof.
  intros H. unfold repr. rewrite (has_char_plain s H). cbv beta iota delta [andb].
  now rewrite (repr_chars_plain s H).
Qed.

(** X16. Failures of the analysis request other than an undecodable reply.
    When the completion service raises, [gpt4o_json_prompt] shows one error
    note with the text of the exception (no raw reply) and returns [None].
    For a category that [prompts] does not know, it asks the service nothing
    and reports the [KeyError], whose text is the [repr] of the category: the
    category between apostrophes when it is made of printable ASCII
    characters other than quotes and the backslash.  In both cases nothing
    is raised. *)
Theorem analysis_request_failures
    (w : world) (text prompt_type : string) (s : session_state) :
  PyStr.truthy (OPENAI_API_KEY w) = true ->
  (forall prompt e,
     prompts_getitem prompt_type = Ok prompt ->
     chat_completions_create w (analysis_request prompt text) = Raise e ->
     gpt4o_json_prompt w text prompt_type s
     = {| final := s;
          shown := [St_spinner "Analyzing transcript...";
                    Chat_completion (analysis_request prompt text);
                    St_error ("An error occurred while analyzing the transcript: "
                              ++ exn_str e)];
          result := Ok JNull |})
  /\ (assoc prompt_type prompts = None ->
      all_ascii prompt_type = true ->
      gpt4o_json_prompt w text prompt_type s
      = {| final := s;
           shown := [St_spinner "Analyzing transcript...";
                     St_error ("An error occurred while analyzing the transcript: "
                               ++ repr prompt_type)];
           result := Ok JNull |}
      /\ (all_plain prompt_type = true ->
          repr prompt_type = sq ++ prompt_type ++ sq)).
Proof.
  intros Hkey. split.
  - intros prompt e Hprompt Hraise.
    rewrite (gpt4o_json_prompt_run w Hkey text _ prompt s Hprompt). cbv zeta.
    now rewrite Hraise.
  - intros Hunknown _. split; [|apply repr_plain].
    unfold gpt4o_json_prompt, client, prompts_getitem.
    now rewrite Hkey, Hunknown.
Qed.

Lemma analysis_request_failures_witness :
  gpt4o_json_prompt Demo.happy Demo.kickoff_text "marketing" Demo.on_kickoff
  = {| final := Demo.on_kickoff;
       shown := [St_spinner "Analyzing transcript...";
                 St_error ("An error occurred while analyzing the transcript: "
                           ++ sq ++ "marketing" ++ sq)];
       result := Ok JNull |}
  /\ gpt4o_json_prompt Demo.happy Demo.kickoff_text ("client" ++ sq ++ "s") Demo.on_kickoff
     = {| final := Demo.on_kickoff;
          shown := [St_spinner "Analyzing transcript...";
                    St_error ("An error occurred while analyzing the transcript: "
                              ++ dq ++ "client" ++ sq ++ "s" ++ dq)];
          result := Ok JNull |}.
Proof.
  split.
  - exact (proj1 (proj2 (analysis_request_failures Demo.happy Demo.kickoff_text
                           "marketing" Demo.on_kickoff eq_refl) eq_refl eq_refl)).
  - exact (proj1 (proj2 (analysis_request_failures Demo.happy Demo.kickoff_text
                           ("client" ++ sq ++ "s") Demo.on_kickoff eq_refl)
                    eq_refl eq_refl)).
Defined.

(** X17. A reply that is valid JSON but false as a Python value ([null],
    [{}], [[]], [0], [false], the empty string) counts as no analysis: the
    requester returns it without any error note, and the action ends with
    the note of failure alone, showing no analysis and raising nothing. *)
Theorem falsy_reply_counts_as_failure
    (w : world) (ui : ui_inputs) (prompt_type prompt selected reply : string)
    (t : transcript) (v : json) (s : session_state) :
  PyStr.truthy (OPENAI_API_KEY w) = true ->
  selected_if_set s = Some selected ->
  next_with_id (transcripts s) selected = Ok t ->
  prompts_getitem prompt_type = Ok prompt ->
  chat_completions_create w (analysis_request prompt (get_transcript_content t))
  = Ok reply ->
  json_loads w reply = Ok v ->
  Py.truthy v = false ->
  handle_analysis w ui prompt_type s
  = {| final := s;
       shown := (progress_note prompt_type
                 :: [St_spinner "Analyzing transcript...";
                     Chat_completion
                       (analysis_request prompt (get_transcript_content t))]
                 ++ shown (generate_follow_up_email w (get_transcript_content t) s)
                 ++ [failed_note])%list;
       result := Ok tt |}.
Proof.
  intros Hkey Hsel Hnext Hprompt Hreply Hloads Hfalsy.
  assert (H1 : gpt4o_json_prompt w (get_transcript_content t) prompt_type s
    = {| final := s;
         shown := [St_spinner "Analyzing transcript...";
                   Chat_completion
                     (analysis_request prompt (get_transcript_content t))];
         result := Ok v |}).
  { rewrite (gpt4o_json_prompt_run w Hkey _ _ prompt s Hprompt). cbv zeta.
    now rewrite Hreply, Hloads. }
  destruct (generate_follow_up_email_total w (get_transcript_content t) s)
    as [v2 H2].
  rewrite (handle_analysis_run w ui prompt_type selected t v v2 s Hsel Hnext)
    by (now rewrite ?H1, ?H2).
  rewrite Hfalsy, H1. reflexivity.
Qed.

Lemma falsy_reply_counts_as_failure_witness :
  json_loads Cases.empty_object "{}" = Ok (JObj [])
  /\ handle_analysis Cases.empty_object Demo.financial_pressed "financial"
       Demo.on_kickoff
     = {| final := Demo.on_kickoff;
          shown := (progress_note "financial"
                    :: [St_spinner "Analyzing transcript...";
                        Chat_completion
                          (analysis_request Templates.prompt_financial
                             (get_transcript_content Demo.kickoff))]
                    ++ shown (generate_follow_up_email Cases.empty_object
                                (get_transcript_content Demo.kickoff) Demo.on_kickoff)
                    ++ [failed_note])%list;
          result := Ok tt |}.
Proof.
  assert (Hloads : json_loads Cases.empty_object "{}" = Ok (JObj []))
    by (vm_compute; reflexivity).
  split; [exact Hloads|].
  exact (falsy_reply_counts_as_failure Cases.empty_object Demo.financial_pressed
           "financial" Templates.prompt_financial "a" "{}" Demo.kickoff (JObj [])
           Demo.on_kickoff eq_refl eq_refl eq_refl eq_refl eq_refl Hloads eq_refl).
Defined.
